(** * Submission aggregation and class-teacher routes

    A shallow embedding of the route handlers of
    [src/api/routes/classTeacherRoutes.js] (class-teacher router) and of the
    two routers kept in [src/unnamed/part_000] (the class-data export router
    and the faculty router).

    Conventions of the embedding.
    - A column of a datastore row is a JSON scalar ([Js.value]).  JavaScript's
      [undefined] never occurs inside a row; it only arises from a failed
      [find] or from optional chaining, and is rendered by [None].
    - The datastore is a record of tables (lists of rows, in the order the
      queries return them); a query is a filter over a table.  Transport
      failures of the datastore are outside the model.
    - Counters are natural numbers: an array has fewer than 2^32 elements, so
      every counter stays an exactly represented integer.  The one place where
      the code leaves the integers, [Math.round((c / t) * 100)], is computed
      in binary64 arithmetic ([Number]). *)

From Stdlib Require Import ZArith List String Ascii Bool Lia Arith DecimalString.
From Stdlib Require Import Floats.PrimFloat Floats.SpecFloat Floats.FloatOps.
From Stdlib Require Import Numbers.Cyclic.Int63.Uint63.
Import ListNotations.
Local Open Scope string_scope.
Local Open Scope list_scope.

(* ------------------------------------------------------------------------- *)
(** ** JavaScript values *)

Module Js.

Inductive value :=
| Null
| Bool (b : bool)
| Num (n : Z)
| Str (s : string).

(** [a === b] on JSON scalars. *)
Definition strict_eq (a b : value) : bool :=
  match a, b with
  | Null, Null => true
  | Bool x, Bool y => Bool.eqb x y
  | Num x, Num y => Z.eqb x y
  | Str x, Str y => String.eqb x y
  | _, _ => false
  end.

(** [a === b] where [b] may be [undefined]: a JSON scalar is never
    [undefined], and [null === undefined] is false. *)
Definition strict_eq_undef (a : value) (b : option value) : bool :=
  match b with
  | Some v => strict_eq a v
  | None => false
  end.

(** ToBoolean. *)
Definition truthy (v : value) : bool :=
  match v with
  | Null => false
  | Bool b => b
  | Num n => negb (n =? 0)%Z
  | Str s => negb (s =? "")
  end.

(** [x || d] where [x] may be [undefined]. *)
Definition or_else (x : option value) (d : value) : value :=
  match x with
  | Some v => if truthy v then v else d
  | None => d
  end.

(** [x || y] where both may be [undefined]. *)
Definition or_undef (x y : option value) : option value :=
  match x with
  | Some v => if truthy v then x else y
  | None => y
  end.

(** [String(v)] *)
Definition to_string (v : value) : string :=
  match v with
  | Null => "null"
  | Bool true => "true"
  | Bool false => "false"
  | Num n => NilZero.string_of_int (Z.to_int n)
  | Str s => s
  end.

(** [String(x)] where [x] may be [undefined]. *)
Definition String_ (x : option value) : string :=
  match x with
  | Some v => to_string v
  | None => "undefined"
  end.

(** White space removed by [String.prototype.trim] (the one-byte part). *)
Definition is_space (c : ascii) : bool :=
  let n := nat_of_ascii c in
  ((n =? 32) || (n =? 9) || (n =? 10) || (n =? 11) || (n =? 12)
   || (n =? 13))%nat.

Fixpoint trim_start (s : string) : string :=
  match s with
  | String c s' => if is_space c then trim_start s' else s
  | EmptyString => EmptyString
  end.

(** Drops the trailing white space: a space is kept only when something
    that is kept follows it. *)
Fixpoint trim_end (s : string) : string :=
  match s with
  | String c s' =>
      match trim_end s' with
      | EmptyString => if is_space c then EmptyString
                       else String c EmptyString
      | t => String c t
      end
  | EmptyString => EmptyString
  end.

Definition trim (s : string) : string := trim_end (trim_start s).

(** [Array.prototype.find]. *)
Definition find {A : Type} (p : A -> bool) (l : list A) : option A :=
  List.find p l.

(** [Array.prototype.includes] on an array of scalars. *)
Definition includes (l : list value) (v : value) : bool :=
  existsb (fun x => strict_eq x v) l.

(** A [Set] of scalars, kept in insertion order. *)
Definition Set_add (v : value) (s : list value) : list value :=
  if includes s v then s else s ++ [v].

(** A [Map] keyed by scalars: [set] shadows an older binding of the key. *)
Definition Map_set {V : Type} (k : value) (v : V) (m : list (value * V))
  : list (value * V) := (k, v) :: m.

Fixpoint Map_get {V : Type} (k : value) (m : list (value * V)) : option V :=
  match m with
  | [] => None
  | (k', v) :: m' => if strict_eq k' k then Some v else Map_get k m'
  end.

End Js.

Import Js.

(* ------------------------------------------------------------------------- *)
(** ** Rows of the datastore *)

Module Student.
Record t := mk {
  id : value;
  roll_no : value;
  name : value;
  hall_ticket_number : value;
  attendance_percent : value;
  defaulter : value;
  class_id : value;
  batch_id : value;
  password : value;
  batches : option value  (* [batches?.name], the joined batch name *)
}.
End Student.

Module Subject.
Record t := mk {
  id : value;
  name : value;
  subject_code : value;
  type : value;
  class_id : value
}.
End Subject.

Module Selection.
Record t := mk {
  student_id : value;
  mdm_id : value;
  oe_id : value;
  pe_id : value;
  mdm_faculty_id : value;
  oe_faculty_id : value;
  pe_faculty_id : value
}.
End Selection.

Module Submission.
Record t := mk {
  student_id : value;
  subject_id : value;
  submission_type_id : value;
  status : value
}.
End Submission.

Module SubmissionType.
Record t := mk {
  id : value;
  name : value
}.
End SubmissionType.

(** A row of [faculty_subjects] with its joined [subjects] row. *)
Module Assignment.
Record t := mk {
  faculty_id : value;
  subject_id : value;
  batch_id : value;
  class_id : value;
  subjects : option Subject.t
}.
End Assignment.

Module Db.
Record t := mk {
  students : list Student.t;
  subjects : list Subject.t;
  student_subject_selection : list Selection.t;
  student_submissions : list Submission.t;
  submission_types : list SubmissionType.t;
  faculty_subjects : list Assignment.t
}.
End Db.

(* ------------------------------------------------------------------------- *)
(** ** Numbers

    The non-negative part of IEEE 754 binary64, which is all the percentage
    computation touches.  [Fin m e] is the real number [m * 2^e]. *)

Module Number.

Inductive t :=
| NaN
| Infinity
| Fin (m e : Z).

Definition of_Z (z : Z) : t := Fin z 0.
Definition of_nat (n : nat) : t := Fin (Z.of_nat n) 0.

(** [scale x k] is [x * 2^k] for [k >= 0] and [x] otherwise. *)
Definition scale (x k : Z) : Z := (x * 2 ^ Z.max 0 k)%Z.

(** The exponent [b] with [2^b <= n/d < 2^(b+1)], for [n, d > 0]. *)
Definition binade (n d : Z) : Z :=
  let l := (Z.log2 n - Z.log2 d)%Z in
  if (scale d l <=? scale n (- l))%Z then l else (l - 1)%Z.

(** The binary64 number nearest to the rational [n/d] (for [n >= 0] and
    [d > 0]), ties to the even significand: 53 significant bits, least
    exponent [-1074], overflow to [Infinity] from [2^1024] on. *)
Definition nearest (n d : Z) : t :=
  let e := Z.max (binade n d - 52) (-1074) in
  let N := scale n (- e) in
  let D := scale d e in
  let q := (N / D)%Z in
  let r := (N mod D)%Z in
  let m := if ((D <? 2 * r) || ((D =? 2 * r) && Z.odd q))%Z
           then (q + 1)%Z else q in
  if (m =? 0)%Z then Fin 0 0
  else if (1024 <=? Z.log2 m + e)%Z then Infinity
  else Fin m e.

(** [a / b] *)
Definition div (a b : t) : t :=
  match a, b with
  | Fin ma ea, Fin mb eb =>
      if (mb =? 0)%Z then (if (ma =? 0)%Z then NaN else Infinity)
      else nearest (scale ma (ea - eb)) (scale mb (eb - ea))
  | Fin _ _, Infinity => Fin 0 0
  | Infinity, Fin _ _ => Infinity
  | _, _ => NaN
  end.

(** [a * b] *)
Definition mul (a b : t) : t :=
  match a, b with
  | Fin ma ea, Fin mb eb =>
      nearest (scale (ma * mb) (ea + eb)) (scale 1 (- (ea + eb)))
  | Fin m _, Infinity | Infinity, Fin m _ =>
      if (m =? 0)%Z then NaN else Infinity
  | Infinity, Infinity => Infinity
  | _, _ => NaN
  end.

(** [Math.round]: the nearest integer, a tie going up. *)
Definition Math_round (a : t) : t :=
  match a with
  | Fin m e =>
      if (0 <=? e)%Z then Fin (m * 2 ^ e) 0
      else Fin ((2 * m + 2 ^ (- e)) / 2 ^ (1 - e)) 0
  | _ => a
  end.

(** Rounding of the exact quotient [c/t] to the nearest integer, a tie
    going up: the reading of [round(100 * completed / total)] in exact
    arithmetic. *)
Definition half_up_percent (c t : nat) : Z :=
  ((200 * Z.of_nat c + Z.of_nat t) / (2 * Z.of_nat t))%Z.

End Number.

(* ------------------------------------------------------------------------- *)
(** ** Queries

    The filters the handlers send to the datastore.  The datastore compares a
    column with a filter value at the column's type, which on JSON scalars is
    [strict_eq]. *)

Module Query.

(** [.eq(column, v)] *)
Definition eq {A : Type} (col : A -> value) (v : value) (rows : list A)
  : list A := filter (fun r => strict_eq (col r) v) rows.

(** [.in(column, vs)] *)
Definition in_ {A : Type} (col : A -> value) (vs : list value)
  (rows : list A) : list A := filter (fun r => includes vs (col r)) rows.

(** [.single()]: the row, when the filter leaves exactly one. *)
Definition single {A : Type} (rows : list A) : option A :=
  match rows with
  | [r] => Some r
  | _ => None
  end.

End Query.

(* ------------------------------------------------------------------------- *)
(** ** Pieces shared by the three aggregating handlers *)

(** [submissionTypes.find(t => t.name === n)] *)
Definition find_type (n : string) (submissionTypes : list SubmissionType.t)
  : option SubmissionType.t :=
  find (fun t => strict_eq (SubmissionType.name t) (Str n)) submissionTypes.

(** [ty?.id] *)
Definition type_id (ty : option SubmissionType.t) : option value :=
  option_map SubmissionType.id ty.

(** [subs.find(sub => sub.submission_type_id === ty?.id)] *)
Definition find_submission (ty : option SubmissionType.t)
  (subs : list Submission.t) : option Submission.t :=
  find (fun sub => strict_eq_undef (Submission.submission_type_id sub)
                     (type_id ty)) subs.

(** [x?.status] *)
Definition status_of (x : option Submission.t) : option value :=
  option_map Submission.status x.

(** [(x && x.status === 'completed' ? 1 : 0)] *)
Definition completed_1 (x : option Submission.t) : nat :=
  match x with
  | Some r => if strict_eq (Submission.status r) (Str "completed") then 1 else 0
  | None => 0
  end.

(** [if (selection.mdm_id) ids.add(...)] and its two siblings. *)
Definition add_selected (selection : Selection.t) (ids : list value)
  : list value :=
  let ids := if truthy (Selection.mdm_id selection)
             then Set_add (Selection.mdm_id selection) ids else ids in
  let ids := if truthy (Selection.oe_id selection)
             then Set_add (Selection.oe_id selection) ids else ids in
  if truthy (Selection.pe_id selection)
  then Set_add (Selection.pe_id selection) ids else ids.

Definition electiveSubjectIds (electiveSelections : list Selection.t)
  : list value :=
  fold_left (fun ids selection => add_selected selection ids)
    electiveSelections [].

(** The array pushed for one selection row. *)
Definition pushed_electives (selection : Selection.t) : list value :=
  (if truthy (Selection.mdm_id selection)
   then [Selection.mdm_id selection] else []) ++
  (if truthy (Selection.oe_id selection)
   then [Selection.oe_id selection] else []) ++
  (if truthy (Selection.pe_id selection)
   then [Selection.pe_id selection] else []).

Definition studentElectiveMap (electiveSelections : list Selection.t)
  : list (value * list value) :=
  fold_left (fun m selection =>
               Map_set (Selection.student_id selection)
                 (pushed_electives selection) m)
    electiveSelections [].

(** [studentElectiveMap.get(s.id) || []] *)
Definition studentElectives (m : list (value * list value)) (s : Student.t)
  : list value :=
  match Map_get (Student.id s) m with
  | Some l => l
  | None => []
  end.

(** The elective subject rows fetched once the identifiers are known. *)
Definition electiveSubjects (db : Db.t) (ids : list value) : list Subject.t :=
  if (0 <? List.length ids)%nat then Query.in_ Subject.id ids (Db.subjects db)
  else [].

(** [[...classSubjects, ...electiveSubjects.filter(es =>
      studentElectives.includes(es.id))]] *)
Definition studentSubjects (classSubjects electives : list Subject.t)
  (chosen : list value) : list Subject.t :=
  classSubjects ++ filter (fun es => includes chosen (Subject.id es)) electives.

(** [total > 0 ? Math.round((completed / total) * 100) : 0] *)
Definition submissionPercentage (completedSubmissions totalSubmissions : nat)
  : Number.t :=
  if (0 <? totalSubmissions)%nat
  then Number.Math_round
         (Number.mul
            (Number.div (Number.of_nat completedSubmissions)
               (Number.of_nat totalSubmissions))
            (Number.of_nat 100))
  else Number.of_nat 0.

(* ------------------------------------------------------------------------- *)
(** ** GET /students of the class-teacher router *)

Module Roster.

Record row := mk {
  student : Student.t;
  batch_name : value;
  submission_percentage : Number.t
}.

(** The body of [studentSubjects.forEach]: the pair
    [(subjectTotal, subjectCompleted)] of one subject. *)
Definition subject_counts (isDefaulter : value)
  (submissionTypes : list SubmissionType.t)
  (studentSubmissions : list Submission.t) (subject : Subject.t)
  : nat * nat :=
  let taType := find_type "TA" submissionTypes in
  let cieType := find_type "CIE" submissionTypes in
  let subjectSubmissions :=
    filter (fun sub => strict_eq (Submission.subject_id sub)
                         (Subject.id subject)) studentSubmissions in
  if strict_eq (Subject.type subject) (Str "practical") then
    let subjectTotal := 1 in
    let taSubmission := find_submission taType subjectSubmissions in
    (subjectTotal, 0 + completed_1 taSubmission)
  else
    let subjectTotal := 2 in
    let taSubmission := find_submission taType subjectSubmissions in
    let cieSubmission := find_submission cieType subjectSubmissions in
    let subjectCompleted :=
      0 + completed_1 taSubmission + completed_1 cieSubmission in
    if truthy isDefaulter then
      let defaulterType := find_type "Defaulter work" submissionTypes in
      let defaulterSubmission :=
        find_submission defaulterType subjectSubmissions in
      (subjectTotal + 1, subjectCompleted + completed_1 defaulterSubmission)
    else (subjectTotal, subjectCompleted).

(** The two counters after the [forEach]: [(totalSubmissions,
    completedSubmissions)]. *)
Definition totals (isDefaulter : value)
  (submissionTypes : list SubmissionType.t)
  (studentSubmissions : list Submission.t) (subjects : list Subject.t)
  : nat * nat :=
  fold_left
    (fun acc subject =>
       let '(subjectTotal, subjectCompleted) :=
         subject_counts isDefaulter submissionTypes studentSubmissions
           subject in
       (fst acc + subjectTotal, snd acc + subjectCompleted))
    subjects (0, 0).

(** The callback of [(data || []).map(s => ...)]. *)
Definition student_row (classSubjects electives : list Subject.t)
  (electiveMap : list (value * list value))
  (submissions : list Submission.t)
  (submissionTypes : list SubmissionType.t) (s : Student.t) : row :=
  let isDefaulter := Student.defaulter s in
  let studentSubmissions :=
    filter (fun sub => strict_eq (Submission.student_id sub) (Student.id s))
      submissions in
  let subjects :=
    studentSubjects classSubjects electives (studentElectives electiveMap s) in
  if (List.length subjects =? 0)%nat then
    mk s (or_else (Student.batches s) Null) (Number.of_nat 0)
  else
    let '(totalSubmissions, completedSubmissions) :=
      totals isDefaulter submissionTypes studentSubmissions subjects in
    mk s (or_else (Student.batches s) Null)
      (submissionPercentage completedSubmissions totalSubmissions).

(** The [students] array of the response, for a caller of class [classId]. *)
Definition students (db : Db.t) (classId : value) : list row :=
  let data := Query.eq Student.class_id classId (Db.students db) in
  let studentIds := map Student.id data in
  let classSubjects := Query.eq Subject.class_id classId (Db.subjects db) in
  let electiveSelections :=
    Query.in_ Selection.student_id studentIds
      (Db.student_subject_selection db) in
  let electives := electiveSubjects db (electiveSubjectIds electiveSelections) in
  let electiveMap := studentElectiveMap electiveSelections in
  let submissions :=
    Query.in_ Submission.student_id studentIds (Db.student_submissions db) in
  map (student_row classSubjects electives electiveMap submissions
         (Db.submission_types db)) data.

End Roster.

(* ------------------------------------------------------------------------- *)
(** ** GET /class-data of the export router *)

Module ClassData.

(** One value of the [subjectSubmissions] object. *)
Record entry := mk_entry {
  subject_name : value;
  subject_code : value;
  subject_type : value;
  cie : value;
  ta : value;
  defaulter : value
}.

Record export_student := mk {
  roll_no : value;
  name : value;
  batch : value;
  is_defaulter : value;   (* the [defaulter] property of the student *)
  submissions : list (value * entry)
}.

(** The object written for one (student, subject) pair. *)
Definition subject_entry (submissions : list Submission.t)
  (submissionTypes : list SubmissionType.t) (student : Student.t)
  (subject : Subject.t) : entry :=
  let taType := find_type "TA" submissionTypes in
  let cieType := find_type "CIE" submissionTypes in
  let defaulterType := find_type "Defaulter work" submissionTypes in
  let subs :=
    filter (fun s => strict_eq (Submission.student_id s) (Student.id student)
                     && strict_eq (Submission.subject_id s) (Subject.id subject))
      submissions in
  let taSubmission := find_submission taType subs in
  let cieSubmission := find_submission cieType subs in
  let defaulterSubmission := find_submission defaulterType subs in
  mk_entry (Subject.name subject) (Subject.subject_code subject)
    (Subject.type subject)
    (if strict_eq (Subject.type subject) (Str "practical") then Str "N/A"
     else or_else (status_of cieSubmission) (Str "pending"))
    (or_else (status_of taSubmission) (Str "pending"))
    (if truthy (Student.defaulter student)
        && negb (strict_eq (Subject.type subject) (Str "practical"))
     then or_else (status_of defaulterSubmission) (Str "pending")
     else Str "-").

(** [subjectSubmissions[subject.id] = ...] for every subject in turn.  The
    object is kept as the list of its assignments, the latest first; only
    the values written matter below. *)
Definition subjectSubmissions (submissions : list Submission.t)
  (submissionTypes : list SubmissionType.t) (student : Student.t)
  (allSubjects : list Subject.t) : list (value * entry) :=
  fold_left
    (fun obj subject =>
       Map_set (Subject.id subject)
         (subject_entry submissions submissionTypes student subject) obj)
    allSubjects [].

Definition export_row (classSubjects electives : list Subject.t)
  (electiveMap : list (value * list value))
  (submissions : list Submission.t)
  (submissionTypes : list SubmissionType.t) (student : Student.t)
  : export_student :=
  let allSubjects :=
    studentSubjects classSubjects electives
      (studentElectives electiveMap student) in
  mk (Student.roll_no student) (Student.name student)
    (or_else (Student.batches student) (Str "-"))
    (Student.defaulter student)
    (subjectSubmissions submissions submissionTypes student allSubjects).

(** The [students] array of [exportData]. *)
Definition students (db : Db.t) (class_id : value) : list export_student :=
  let students := Query.eq Student.class_id class_id (Db.students db) in
  let classSubjects := Query.eq Subject.class_id class_id (Db.subjects db) in
  let studentIds := map Student.id students in
  let electiveSelections :=
    Query.in_ Selection.student_id studentIds
      (Db.student_subject_selection db) in
  let electives := electiveSubjects db (electiveSubjectIds electiveSelections) in
  let electiveMap := studentElectiveMap electiveSelections in
  let submissions :=
    Query.in_ Submission.student_id studentIds (Db.student_submissions db) in
  map (export_row classSubjects electives electiveMap submissions
         (Db.submission_types db)) students.

End ClassData.

(* ------------------------------------------------------------------------- *)
(** ** GET /students of the faculty router *)

Module Faculty.

(** An element of [studentsWithSubjects]. *)
Record pair := mk_pair {
  student : Student.t;
  batch_name : value;
  subject_id : value;
  subject_name : value;
  subject_code : value;
  subject_type : value;
  ta_status : value;
  cie_status : value;
  defaulter_status : value
}.

(** An element of [studentsWithPercentages]. *)
Record row := mk {
  base : pair;
  submission_percentage : Number.t;
  total_submissions : nat;
  completed_submissions : nat
}.

(** The object pushed for a student and one subject the faculty teaches
    them; the same text appears four times in the handler. *)
Definition student_subject (submissions : list Submission.t)
  (submissionTypes : list SubmissionType.t) (student : Student.t)
  (subject : Subject.t) : pair :=
  let taType := find_type "TA" submissionTypes in
  let cieType := find_type "CIE" submissionTypes in
  let defaulterType := find_type "Defaulter work" submissionTypes in
  let studentSubjectSubmissions :=
    filter (fun sub =>
              strict_eq (Submission.student_id sub) (Student.id student)
              && strict_eq (Submission.subject_id sub) (Subject.id subject))
      submissions in
  let taSubmission := find_submission taType studentSubjectSubmissions in
  let cieSubmission := find_submission cieType studentSubjectSubmissions in
  let defaulterSubmission :=
    find_submission defaulterType studentSubjectSubmissions in
  mk_pair student (or_else (Student.batches student) Null)
    (Subject.id subject) (Subject.name subject)
    (Subject.subject_code subject) (Subject.type subject)
    (or_else (status_of taSubmission) (Str "pending"))
    (or_else (status_of cieSubmission) (Str "pending"))
    (or_else (status_of defaulterSubmission) (Str "pending")).

(** The pairs that come from [faculty_subjects] assignments. *)
Definition assigned_pairs (assignments : list Assignment.t)
  (allStudents : list Student.t) (submissions : list Submission.t)
  (submissionTypes : list SubmissionType.t) : list pair :=
  flat_map
    (fun student =>
       flat_map
         (fun assignment =>
            let isApplicable :=
              strict_eq (Assignment.class_id assignment)
                (Student.class_id student)
              && (strict_eq (Assignment.batch_id assignment) Null
                  || strict_eq (Assignment.batch_id assignment)
                       (Student.batch_id student)) in
            match Assignment.subjects assignment with
            | Some subject =>
                if isApplicable
                then [student_subject submissions submissionTypes student
                        subject]
                else []
            | None => []
            end)
         assignments)
    allStudents.

(** One of the three slot blocks of the elective loop. *)
Definition slot_pair (facultyId : value)
  (subjectMap : list (value * Subject.t))
  (electiveSubmissions : list Submission.t)
  (submissionTypes : list SubmissionType.t) (student : Student.t)
  (slot_faculty_id slot_id : value) : list pair :=
  if strict_eq slot_faculty_id facultyId && truthy slot_id then
    match Map_get slot_id subjectMap with
    | Some subject =>
        [student_subject electiveSubmissions submissionTypes student subject]
    | None => []
    end
  else [].

(** The identifiers of the electives this faculty grades. *)
Definition graded_elective_ids (facultyId : value)
  (electiveSelections : list Selection.t) : list value :=
  fold_left
    (fun ids selection =>
       let ids :=
         if strict_eq (Selection.mdm_faculty_id selection) facultyId
            && truthy (Selection.mdm_id selection)
         then Set_add (Selection.mdm_id selection) ids else ids in
       let ids :=
         if strict_eq (Selection.oe_faculty_id selection) facultyId
            && truthy (Selection.oe_id selection)
         then Set_add (Selection.oe_id selection) ids else ids in
       if strict_eq (Selection.pe_faculty_id selection) facultyId
          && truthy (Selection.pe_id selection)
       then Set_add (Selection.pe_id selection) ids else ids)
    electiveSelections [].

(** The pairs that come from elective selections graded by the faculty. *)
Definition elective_pairs (db : Db.t) (facultyId : value)
  (submissionTypes : list SubmissionType.t) : list pair :=
  let electiveSelections :=
    filter (fun s =>
              strict_eq (Selection.mdm_faculty_id s) facultyId
              || strict_eq (Selection.oe_faculty_id s) facultyId
              || strict_eq (Selection.pe_faculty_id s) facultyId)
      (Db.student_subject_selection db) in
  let electiveStudentIds :=
    fold_left (fun ids s => Set_add (Selection.student_id s) ids)
      electiveSelections [] in
  if (0 <? List.length electiveStudentIds)%nat then
    let electiveStudents :=
      Query.in_ Student.id electiveStudentIds (Db.students db) in
    let electiveSubjects :=
      Query.in_ Subject.id (graded_elective_ids facultyId electiveSelections)
        (Db.subjects db) in
    let subjectMap :=
      fold_left (fun m subject => Map_set (Subject.id subject) subject m)
        electiveSubjects [] in
    let electiveSubmissions :=
      Query.in_ Submission.student_id electiveStudentIds
        (Db.student_submissions db) in
    flat_map
      (fun student =>
         match find (fun s => strict_eq (Selection.student_id s)
                                (Student.id student)) electiveSelections with
         | None => []
         | Some selection =>
             let slot :=
               slot_pair facultyId subjectMap electiveSubmissions
                 submissionTypes student in
             slot (Selection.mdm_faculty_id selection)
               (Selection.mdm_id selection) ++
             slot (Selection.oe_faculty_id selection)
               (Selection.oe_id selection) ++
             slot (Selection.pe_faculty_id selection)
               (Selection.pe_id selection)
         end)
      electiveStudents
  else [].

Definition studentsWithSubjects (db : Db.t) (facultyId : value) : list pair :=
  let assignments :=
    Query.eq Assignment.faculty_id facultyId (Db.faculty_subjects db) in
  let classIds :=
    fold_left (fun ids c => Set_add c ids)
      (filter truthy (map Assignment.class_id assignments)) [] in
  let allStudents :=
    if (0 <? List.length classIds)%nat
    then Query.in_ Student.class_id classIds (Db.students db) else [] in
  let allStudentIds := map Student.id allStudents in
  let submissions :=
    if (0 <? List.length allStudentIds)%nat
    then Query.in_ Submission.student_id allStudentIds
           (Db.student_submissions db)
    else [] in
  let submissionTypes := Db.submission_types db in
  assigned_pairs assignments allStudents submissions submissionTypes ++
  elective_pairs db facultyId submissionTypes.

(** The pair [(totalSubmissions, completedSubmissions)] of one element. *)
Definition pair_counts (p : pair) : nat * nat :=
  if strict_eq (subject_type p) (Str "practical") then
    (1, 0 + (if strict_eq (ta_status p) (Str "completed") then 1 else 0))
  else
    let totalSubmissions := 2 in
    let completedSubmissions :=
      0 + (if strict_eq (cie_status p) (Str "completed") then 1 else 0)
        + (if strict_eq (ta_status p) (Str "completed") then 1 else 0) in
    if truthy (Student.defaulter (student p)) then
      (totalSubmissions + 1,
       completedSubmissions
       + (if strict_eq (defaulter_status p) (Str "completed") then 1 else 0))
    else (totalSubmissions, completedSubmissions).

(** The callback of [studentsWithSubjects.map]. *)
Definition with_percentage (p : pair) : row :=
  let '(totalSubmissions, completedSubmissions) := pair_counts p in
  mk p (submissionPercentage completedSubmissions totalSubmissions)
    totalSubmissions completedSubmissions.

(** The [students] array of the response. *)
Definition students (db : Db.t) (facultyId : value) : list row :=
  map with_percentage (studentsWithSubjects db facultyId).

End Faculty.

(* ------------------------------------------------------------------------- *)
(** ** Handlers that write

    A handler runs against a world: the datastore and the list of the writes
    it has issued, the latest first.  It ends by responding early, by
    throwing (which the handler's [catch] turns into a 500), or with a
    value. *)

Module Http.
Record response := mk {
  status : nat;
  success : bool;
  text : string   (* the [error] or the [message] of the body *)
}.
End Http.

Module Handler.

Inductive effect :=
| Delete_student (id : value)
| Insert_students (rows : list Student.t)
| Unlink (path : string).

Record world := mk_world {
  db : Db.t;
  issued : list effect
}.

Inductive outcome (A : Type) :=
| Value (a : A)
| Respond (r : Http.response)
| Throw (message : string).
Arguments Value {A} a.
Arguments Respond {A} r.
Arguments Throw {A} message.

Definition M (A : Type) : Type := world -> outcome A * world.

Definition ret {A : Type} (a : A) : M A := fun w => (Value a, w).

Definition bind {A B : Type} (m : M A) (k : A -> M B) : M B :=
  fun w =>
    match m w with
    | (Value a, w') => k a w'
    | (Respond r, w') => (Respond r, w')
    | (Throw e, w') => (Throw e, w')
    end.

(** [return res.status(code).json({ success, error | message })] *)
Definition respond {A : Type} (code : nat) (ok : bool) (msg : string) : M A :=
  fun w => (Respond (Http.mk code ok msg), w).

Definition throw {A : Type} (msg : string) : M A :=
  fun w => (Throw msg, w).

Definition read {A : Type} (q : Db.t -> A) : M A :=
  fun w => (Value (q (db w)), w).

Definition write (e : effect) (f : Db.t -> Db.t) : M unit :=
  fun w => (Value tt, mk_world (f (db w)) (e :: issued w)).

Fixpoint mapM {A B : Type} (f : A -> M B) (l : list A) : M (list B) :=
  match l with
  | [] => ret []
  | a :: l' =>
      bind (f a) (fun b => bind (mapM f l') (fun bs => ret (b :: bs)))
  end.

(** The [try { ... } catch (err) { res.status(500)... }] around a body. *)
Definition run (m : M Http.response) (w : world) : Http.response * world :=
  match m w with
  | (Value r, w') => (r, w')
  | (Respond r, w') => (r, w')
  | (Throw e, w') => (Http.mk 500 false e, w')
  end.

End Handler.

Import Handler.

Notation "x <- c1 ;; c2" := (Handler.bind c1 (fun x => c2))
  (at level 61, c1 at next level, right associativity).
Notation "c1 ;;; c2" := (Handler.bind c1 (fun _ => c2))
  (at level 61, right associativity).

Definition set_students (rows : list Student.t) (d : Db.t) : Db.t :=
  Db.mk rows (Db.subjects d) (Db.student_subject_selection d)
    (Db.student_submissions d) (Db.submission_types d) (Db.faculty_subjects d).

(* ------------------------------------------------------------------------- *)
(** ** DELETE /student/:id *)

Module DeleteStudent.

Record request := mk {
  id : option value;        (* [req.params.id] *)
  class_id : option value   (* [req.user.class_id] *)
}.

(** [supabase.from("students").delete().eq("id", id)] *)
Definition delete_row (id : value) : M unit :=
  write (Delete_student id)
    (fun d =>
       set_students
         (filter (fun s => negb (strict_eq (Student.id s) id)) (Db.students d))
         d).

Definition handler (req : request) : M Http.response :=
  match id req, class_id req with
  | Some id, Some classId =>
      if negb (truthy id) || negb (truthy classId)
      then respond 400 false "Missing student ID or class ID"
      else
        student <- read (fun d =>
                           Query.single (Query.eq Student.id id (Db.students d))) ;;
        match student with
        | None => respond 404 false "Student not found"
        | Some student =>
            if negb (strict_eq (Student.class_id student) classId)
            then respond 403 false "Unauthorized to delete this student"
            else
              delete_row id ;;;
              ret (Http.mk 200 true "Student deleted successfully")
        end
  | _, _ => respond 400 false "Missing student ID or class ID"
  end.

End DeleteStudent.

(* ------------------------------------------------------------------------- *)
(** ** POST /import-students *)

Module ImportStudents.

(** A row of [sheet_to_json]: the non-empty cells of a sheet line, by
    column header. *)
Definition sheet_row := list (string * value).

Fixpoint cell (column : string) (s : sheet_row) : option value :=
  match s with
  | [] => None
  | (k, v) :: s' => if (k =? column)%string then Some v else cell column s'
  end.

Record request := mk {
  file : option string;            (* [req.file.path] *)
  data : list sheet_row;           (* the parsed first sheet *)
  user_class_id : option value;    (* [req.user.class_id] *)
  body_class_id : option value     (* [req.body.class_id] *)
}.

Definition required : list string :=
  ["roll_no"; "name"; "hall_ticket_number"; "attendance_percent"].

(** [Object.keys(data[0])] *)
Definition first_keys (data : list sheet_row) : list string :=
  match data with
  | s :: _ => map fst s
  | [] => []
  end.

Definition missing (data : list sheet_row) : list string :=
  filter (fun c => negb (existsb (String.eqb c) (first_keys data))) required.

(** [v.toString().trim()] on a column of a stored row: a [null] throws. *)
Definition toString_trim (v : value) : M string :=
  match v with
  | Null => throw "Cannot read properties of null (reading 'toString')"
  | _ => ret (trim (to_string v))
  end.

(** [x?.toString().trim()] on a cell, [None] for [undefined]. *)
Definition toString_trim_opt (x : option value) : option string :=
  match x with
  | None | Some Null => None
  | Some v => Some (trim (to_string v))
  end.

(** [set.has(x)] for a set of strings. *)
Definition has (set : list string) (x : option string) : bool :=
  match x with
  | Some s => existsb (String.eqb s) set
  | None => false
  end.

(** The predicate of [data.filter]: the row is new. *)
Definition is_new (existingRolls existingHallTickets : list string)
  (s : sheet_row) : bool :=
  let roll := toString_trim_opt (cell "roll_no" s) in
  let hall := toString_trim_opt (cell "hall_ticket_number" s) in
  negb (has existingRolls roll) && negb (has existingHallTickets hall).

Section Collaborators.

(** [bcrypt.hashSync(_, 10)], with the salt it draws held fixed. *)
Variable hashSync : string -> string.
(** [Number(_)], [None] for [NaN]. *)
Variable Number_ : option value -> option Z.
(** The key the datastore gives to the row inserted at a position. *)
Variable new_id : nat -> value.

(** [s.name.trim()] *)
Definition name_trim (x : option value) : M string :=
  match x with
  | Some (Str s) => ret (trim s)
  | Some Null =>
      throw "Cannot read properties of null (reading 'trim')"
  | None =>
      throw "Cannot read properties of undefined (reading 'trim')"
  | Some _ => throw "s.name.trim is not a function"
  end.

(** The callback of [newStudents.map]. *)
Definition prepare (classId : value) (s : sheet_row) : M Student.t :=
  let attendance :=
    match Number_ (cell "attendance_percent" s) with
    | Some n => if (n =? 0)%Z then 0%Z else n
    | None => 0%Z
    end in
  let hallticket := trim (String_ (cell "hall_ticket_number" s)) in
  let hash := hashSync hallticket in
  name <- name_trim (cell "name" s) ;;
  ret (Student.mk Null
         (Str (trim (String_ (cell "roll_no" s))))
         (Str name) (Str hallticket) (Num attendance)
         (Bool (attendance <? 75)%Z) classId Null (Str hash) None).

(** [supabase.from("students").insert(students)]: the rows are appended,
    each under the key the datastore gives it. *)
Definition insert_rows (students : list Student.t) : M unit :=
  write (Insert_students students)
    (fun d =>
       let old := Db.students d in
       set_students
         (old ++
          map (fun '(i, s) =>
                 Student.mk (new_id (List.length old + i))
                   (Student.roll_no s) (Student.name s)
                   (Student.hall_ticket_number s)
                   (Student.attendance_percent s) (Student.defaulter s)
                   (Student.class_id s) (Student.batch_id s)
                   (Student.password s) (Student.batches s))
            (combine (seq 0 (List.length students)) students))
         d).

Definition unlinkSync (path : string) : M unit :=
  write (Unlink path) (fun d => d).

Definition added_message (n : nat) : string :=
  ("Import completed. " ++ NilZero.string_of_uint (Nat.to_uint n)
   ++ " new students added.")%string.

Definition handler (req : request) : M Http.response :=
  match file req with
  | None => respond 400 false "No file uploaded"
  | Some path =>
      if (List.length (data req) =? 0)%nat
      then respond 400 false "Excel sheet is empty"
      else if (0 <? List.length (missing (data req)))%nat
      then respond 400 false
             ("Missing required columns: "
              ++ String.concat ", " (missing (data req)))%string
      else
        match or_undef (user_class_id req) (body_class_id req) with
        | None => respond 403 false "class_id missing"
        | Some classId =>
            if negb (truthy classId)
            then respond 403 false "class_id missing"
            else
              existing <- read (fun d =>
                            Query.eq Student.class_id classId
                              (Db.students d)) ;;
              existingRolls <-
                mapM (fun s => toString_trim (Student.roll_no s))
                  existing ;;
              existingHallTickets <-
                mapM (fun s => toString_trim (Student.hall_ticket_number s))
                  existing ;;
              let newStudents :=
                filter (is_new existingRolls existingHallTickets)
                  (data req) in
              if (List.length newStudents =? 0)%nat then
                unlinkSync path ;;;
                respond 200 true
                  "No new students to import (all duplicates skipped)."
              else
                students <- mapM (prepare classId) newStudents ;;
                insert_rows students ;;;
                unlinkSync path ;;;
                ret (Http.mk 200 true
                       (added_message (List.length students)))
        end
  end.

End Collaborators.

End ImportStudents.

(* ------------------------------------------------------------------------- *)
(** ** Notions used to state the properties *)

(** The table of the specification: one item for a practical subject, two
    for any other subject, and a third one when the student is a defaulter. *)
Definition required_items (subject_type defaulter : value) : nat :=
  if strict_eq subject_type (Str "practical") then 1
  else if truthy defaulter then 3 else 2.

(** The two numbers are the same finite number, written the same way. *)
Definition same_number (a b : Number.t) : bool :=
  match a, b with
  | Number.Fin m e, Number.Fin m' e' => ((m =? m') && (e =? e'))%Z
  | _, _ => false
  end.

(** The percentage is the exact half-up rounding for every count of
    completed items up to a total [t]. *)
Definition exact_up_to_total (t : nat) : bool :=
  forallb (fun c => same_number (submissionPercentage c t)
                      (Number.of_Z (Number.half_up_percent c t)))
    (seq 0 (t + 1)).

(** Values between 0 and [B] held with a non-positive exponent. *)
Definition within (B : Z) (x : Number.t) : Prop :=
  exists m e,
    x = Number.Fin m e /\ (0 <= m /\ e <= 0 /\ m <= B * 2 ^ (- e))%Z.

(** The records of a student for a subject, as the roster filters them (by
    student, then by subject) and as the export and the faculty view do (in
    one pass). *)
Definition records_of (submissions : list Submission.t) (s : Student.t)
  (subject : Subject.t) : list Submission.t :=
  filter (fun sub => strict_eq (Submission.subject_id sub) (Subject.id subject))
    (filter (fun sub => strict_eq (Submission.student_id sub) (Student.id s))
       submissions).

(** At most one record per (student, subject, submission type). *)
Definition one_record_per_item (submissions : list Submission.t) : Prop :=
  forall a b,
    In a submissions -> In b submissions ->
    Submission.student_id a = Submission.student_id b ->
    Submission.subject_id a = Submission.subject_id b ->
    Submission.submission_type_id a = Submission.submission_type_id b ->
    a = b.

(** [v] is the status some record of the list carries. *)
Definition stored (submissions : list Submission.t) (v : value) : Prop :=
  exists r, In r submissions /\ Submission.status r = v.



(** The object built for a sheet row whose [name] cell is a string. *)
Definition prepared_row (hashSync : string -> string)
  (Number_ : option value -> option Z) (classId : value)
  (s : ImportStudents.sheet_row) : Student.t :=
  let attendance :=
    match Number_ (ImportStudents.cell "attendance_percent" s) with
    | Some n => n
    | None => 0%Z
    end in
  let hallticket :=
    trim (String_ (ImportStudents.cell "hall_ticket_number" s)) in
  Student.mk Null
    (Str (trim (String_ (ImportStudents.cell "roll_no" s))))
    (Str (match ImportStudents.cell "name" s with
          | Some (Str nm) => trim nm
          | _ => ""
          end))
    (Str hallticket) (Num attendance) (Bool (attendance <? 75)%Z) classId Null
    (Str (hashSync hallticket)) None.

(** A sheet row duplicates a stored student: its roll number, or its
    hall-ticket number, trimmed and as a string, is that of the student. *)
Definition duplicates (existing : list Student.t)
  (s : ImportStudents.sheet_row) : Prop :=
  (exists e, In e existing
             /\ ImportStudents.toString_trim_opt (ImportStudents.cell "roll_no" s)
                = Some (trim (to_string (Student.roll_no e))))
  \/ (exists e, In e existing
                /\ ImportStudents.toString_trim_opt
                     (ImportStudents.cell "hall_ticket_number" s)
                   = Some (trim (to_string (Student.hall_ticket_number e)))).



(** The students table after an insert. *)
Definition table_after_insert (new_id : nat -> value) (old : list Student.t)
  (students : list Student.t) : list Student.t :=
  old ++
  map (fun '(i, s) =>
         Student.mk (new_id (List.length old + i)) (Student.roll_no s)
           (Student.name s) (Student.hall_ticket_number s)
           (Student.attendance_percent s) (Student.defaulter s)
           (Student.class_id s) (Student.batch_id s) (Student.password s)
           (Student.batches s))
    (combine (seq 0 (List.length students)) students).

(** The primitive binary64 operations, against which [Number] is compared. *)
Module Binary64.

Definition of_count (n : nat) : float :=
  PrimFloat.of_uint63 (Uint63.of_Z (Z.of_nat n)).

(** The number and the float denote the same real. *)
Definition same_value (a : Number.t) (x : float) : bool :=
  match a, Prim2SF x with
  | Number.Fin m e, S754_finite false m' e' =>
      (Number.scale m (e - e') =? Number.scale (Zpos m') (e' - e))%Z
  | Number.Fin m _, S754_zero false => (m =? 0)%Z
  | Number.Infinity, S754_infinity false => true
  | Number.NaN, S754_nan => true
  | _, _ => false
  end.

Definition agree (c t : nat) : bool :=
  let q := Number.div (Number.of_nat c) (Number.of_nat t) in
  let q' := PrimFloat.div (of_count c) (of_count t) in
  same_value q q'
  && same_value (Number.mul q (Number.of_nat 100))
       (PrimFloat.mul q' (of_count 100)).

End Binary64.

(* ------------------------------------------------------------------------- *)
(** ** Sample data *)

Definition sample_types : list SubmissionType.t :=
  [SubmissionType.mk (Num 1) (Str "TA");
   SubmissionType.mk (Num 2) (Str "CIE");
   SubmissionType.mk (Num 3) (Str "Defaulter work")].

Definition sample_student (id : string) (defaulter : bool) (class_id : string)
  : Student.t :=
  Student.mk (Str id) (Str "1") (Str "Asha") (Str "H1") (Num 80)
    (Bool defaulter) (Str class_id) Null (Str "") None.

Definition theory_subject (i : nat) : Subject.t :=
  Subject.mk (Num (Z.of_nat i)) (Str "Theory") (Str "TH") (Str "theory")
    (Str "c1").

Definition completed_record (student : string) (type_id : Z) (i : nat)
  : Submission.t :=
  Submission.mk (Str student) (Num (Z.of_nat i)) (Num type_id)
    (Str "completed").

(** One student who is not a defaulter, twenty theory subjects (40 required
    items), the TA item completed in all of them and the CIE item in the
    first three (23 completed items). *)
Definition tie_db : Db.t :=
  Db.mk [sample_student "s1" false "c1"]
    (map theory_subject (seq 1 20))
    []
    (map (completed_record "s1" 1) (seq 1 20)
     ++ map (completed_record "s1" 2) (seq 1 3))
    sample_types
    [].

Definition late_record : Submission.t :=
  Submission.mk (Str "s1") (Num 1) (Num 1) (Str "late").

Definition pending_then_completed : list Submission.t :=
  [Submission.mk (Str "s1") (Num 1) (Num 1) (Str "pending");
   Submission.mk (Str "s1") (Num 1) (Num 1) (Str "completed")].

Definition stored_student (id roll hall : string) : Student.t :=
  Student.mk (Str id) (Str roll) (Str "Stored") (Str hall) (Num 90)
    (Bool false) (Str "c1") Null (Str "") None.

Definition sheet_line (roll : value) (name hall : string)
  : ImportStudents.sheet_row :=
  [("roll_no", roll); ("name", Str name); ("hall_ticket_number", Str hall);
   ("attendance_percent", Num 80)].

(** A class with the roll numbers 1 and 2, and a sheet that repeats both
    and brings the new roll number 7. *)
Definition import_world : world :=
  mk_world
    (Db.mk [stored_student "s1" "1" "H1"; stored_student "s2" "2" "H2"]
       [] [] [] sample_types [])
    [].

Definition import_request : ImportStudents.request :=
  ImportStudents.mk (Some "uploads/sheet.xlsx")
    [sheet_line (Num 1) "Asha" "H9"; sheet_line (Str " 2 ") "Ravi" "H8";
     sheet_line (Num 7) "Meera" "H7"]
    (Some (Str "c1")) None.

Definition sample_hash (s : string) : string := ("$2a$10$" ++ s)%string.
Definition sample_Number (x : option value) : option Z :=
  match x with
  | Some (Num n) => Some n
  | _ => None
  end.
Definition sample_new_id (n : nat) : value := Num (Z.of_nat n).

Definition types_without_TA : list SubmissionType.t :=
  [SubmissionType.mk (Num 2) (Str "CIE");
   SubmissionType.mk (Num 3) (Str "Defaulter work")].

(** Two students of class c1; the first selected subject 11 as MDM, the
    second subject 12 as open elective.  Both subjects belong to another
    class. *)
Definition elective_db : Db.t :=
  Db.mk
    [sample_student "s1" false "c1"; sample_student "s2" false "c1"]
    [Subject.mk (Num 1) (Str "Core") (Str "C1") (Str "theory") (Str "c1");
     Subject.mk (Num 11) (Str "Minor") (Str "M1") (Str "MDM") (Str "dept");
     Subject.mk (Num 12) (Str "Open") (Str "O1") (Str "OE") (Str "dept")]
    [Selection.mk (Str "s1") (Num 11) Null Null (Str "f1") Null Null;
     Selection.mk (Str "s2") Null (Num 12) Null Null (Str "f2") Null]
    [] sample_types [].

Definition two_class_world : world :=
  mk_world
    (Db.mk [sample_student "s1" false "c1"; sample_student "s9" false "c2"]
       [] [] [] sample_types [])
    [].

(* ------------------------------------------------------------------------- *)
(** ** More tables of the datastore *)

(** A row of [department_offered_subjects] with its joined [subjects] row;
    [faculty_ids] is an array column, [None] when it is [null]. *)
Module Offered.
Record t := mk {
  id : value;
  subject_id : value;
  department_id : value;
  faculty_ids : option (list value);
  year : value;
  is_active : value;
  subjects : option Subject.t
}.
End Offered.

(** [.contains('faculty_ids', [facultyId])] *)
Definition offered_to (facultyId : value) (o : Offered.t) : bool :=
  match Offered.faculty_ids o with
  | Some ids => includes ids facultyId
  | None => false
  end.

(** [.or(`mdm_faculty_id.eq.F,oe_faculty_id.eq.F,pe_faculty_id.eq.F`)] *)
Definition graded_by (facultyId : value) (s : Selection.t) : bool :=
  strict_eq (Selection.mdm_faculty_id s) facultyId
  || strict_eq (Selection.oe_faculty_id s) facultyId
  || strict_eq (Selection.pe_faculty_id s) facultyId.

(* ------------------------------------------------------------------------- *)
(** ** GET /subjects of the faculty router and of the class-teacher router *)

(** An element of the subject lists; the class teacher's own lists carry no
    [type] property. *)
Module Listed.
Record t := mk {
  id : value;
  name : value;
  code : value;
  type : option value
}.
End Listed.

Module SubjectList.

(** [{ id, name, code: subject_code, type }] *)
Definition listed (s : Subject.t) : Listed.t :=
  Listed.mk (Subject.id s) (Subject.name s) (Subject.subject_code s)
    (Some (Subject.type s)).

(** [if (!subjectIds.has(subject.id)) { subjectIds.add(subject.id);
    list.push({...}) }] on the pair of the set and the list. *)
Definition add (st : list value * list Listed.t) (s : Subject.t)
  : list value * list Listed.t :=
  if includes (fst st) (Subject.id s) then st
  else (Set_add (Subject.id s) (fst st), snd st ++ [listed s]).

(** The same for a joined row, which may be [null]. *)
Definition add_joined (st : list value * list Listed.t)
  (joined : option Subject.t) : list value * list Listed.t :=
  match joined with
  | Some s => add st s
  | None => st
  end.

(** The set and the list after the rows of [faculty_subjects] and of
    [department_offered_subjects] have been gone through. *)
Definition assigned_and_offered (db : Db.t) (offered : list Offered.t)
  (facultyId : value) : list value * list Listed.t :=
  let facultySubjects :=
    Query.eq Assignment.faculty_id facultyId (Db.faculty_subjects db) in
  let st :=
    fold_left (fun st fs => add_joined st (Assignment.subjects fs))
      facultySubjects ([], []) in
  let offeredSubjects := filter (offered_to facultyId) offered in
  fold_left (fun st o => add_joined st (Offered.subjects o)) offeredSubjects st.

(** The elective subjects are fetched when some identifier was collected,
    and added. *)
Definition add_electives (db : Db.t) (electiveSubjectIds : list value)
  (st : list value * list Listed.t) : list value * list Listed.t :=
  if (0 <? List.length electiveSubjectIds)%nat
  then fold_left add (Query.in_ Subject.id electiveSubjectIds (Db.subjects db))
         st
  else st.

(** [uniqueSubjects] of GET /subjects in the faculty router. *)
Definition uniqueSubjects (db : Db.t) (offered : list Offered.t)
  (facultyId : value) : list Listed.t :=
  let st := assigned_and_offered db offered facultyId in
  let electiveSelections :=
    filter (graded_by facultyId) (Db.student_subject_selection db) in
  let electiveSubjectIds :=
    Faculty.graded_elective_ids facultyId electiveSelections in
  snd (add_electives db electiveSubjectIds st).

(** The identifiers collected by the class-teacher router, which leaves out
    the ones already in [subjectIds]. *)
Definition unlisted_elective_ids (userId : value) (subjectIds : list value)
  (electiveSelections : list Selection.t) : list value :=
  fold_left
    (fun ids selection =>
       let ids :=
         if strict_eq (Selection.mdm_faculty_id selection) userId
            && truthy (Selection.mdm_id selection)
            && negb (includes subjectIds (Selection.mdm_id selection))
         then Set_add (Selection.mdm_id selection) ids else ids in
       let ids :=
         if strict_eq (Selection.oe_faculty_id selection) userId
            && truthy (Selection.oe_id selection)
            && negb (includes subjectIds (Selection.oe_id selection))
         then Set_add (Selection.oe_id selection) ids else ids in
       if strict_eq (Selection.pe_faculty_id selection) userId
          && truthy (Selection.pe_id selection)
          && negb (includes subjectIds (Selection.pe_id selection))
       then Set_add (Selection.pe_id selection) ids else ids)
    electiveSelections [].

(** [allSubjects] of the faculty branch of GET /subjects in the
    class-teacher router. *)
Definition allSubjects (db : Db.t) (offered : list Offered.t)
  (userId : value) : list Listed.t :=
  let st := assigned_and_offered db offered userId in
  let electiveSelections :=
    filter (graded_by userId) (Db.student_subject_selection db) in
  let electiveSubjectIds :=
    unlisted_elective_ids userId (fst st) electiveSelections in
  snd (add_electives db electiveSubjectIds st).

(** [s.type === 'practical'] on a list element. *)
Definition is_practical (s : Listed.t) : bool :=
  strict_eq_undef (Str "practical") (Listed.type s).

Record subjects := mk_subjects {
  theory : list Listed.t;
  practical : list Listed.t
}.

Record request := mk {
  user_id : value;             (* [req.user.id] *)
  role : option value;         (* [req.user.role] *)
  class_id : option value      (* [req.user.class_id] *)
}.

(** [{ id, name, code }] of a subject of the class. *)
Definition named (s : Subject.t) : Listed.t :=
  Listed.mk (Subject.id s) (Subject.name s) (Subject.subject_code s) None.

(** GET /subjects of the class-teacher router: the [subjects] of the
    answer, or the error. *)
Definition handler (db : Db.t) (offered : list Offered.t) (req : request)
  : Http.response + subjects :=
  if strict_eq_undef (Str "faculty") (role req) then
    let all := allSubjects db offered (user_id req) in
    inr (mk_subjects (filter (fun s => negb (is_practical s)) all)
           (filter is_practical all))
  else
    match class_id req with
    | Some class_id =>
        if truthy class_id then
          let all := Query.eq Subject.class_id class_id (Db.subjects db) in
          inr (mk_subjects
                 (map named
                    (filter (fun s => negb (strict_eq (Subject.type s)
                                              (Str "practical"))) all))
                 (map named
                    (filter (fun s => strict_eq (Subject.type s)
                                        (Str "practical")) all)))
        else inl (Http.mk 400 false "No class assigned to this teacher")
    | None => inl (Http.mk 400 false "No class assigned to this teacher")
    end.

End SubjectList.

(* ------------------------------------------------------------------------- *)
(** ** The availability of a faculty

    GET and PUT /availability and GET /available-subjects of the
    class-teacher router work on the table [faculty_availability] and read
    the subjects table. *)

Module AvailabilityRow.
Record t := mk {
  faculty_id : value;
  subject_id : value;
  is_available : value;
  updated_at : value
}.
End AvailabilityRow.

Module Availability.

Record store := mk_store {
  subjects : list Subject.t;
  faculty_availability : list AvailabilityRow.t
}.

Record put_request := mk_put {
  user_id : value;                        (* [req.user.id] *)
  isAvailable : option value;             (* [req.body.isAvailable] *)
  selectedSubjects : option (list value)  (* [None]: not an array *)
}.

(** The body of a 200 answer: [isAvailable] and [selectedSubjects]. *)
Record answer := mk_answer {
  available : option value;
  selected : list value
}.

(** The embedded [subjects] row of an availability row: the row of the
    subjects table its [subject_id] refers to. *)
Definition joined (subjects : list Subject.t) (r : AvailabilityRow.t)
  : option Subject.t :=
  match AvailabilityRow.subject_id r with
  | Null => None
  | k => find (fun s => strict_eq (Subject.id s) k) subjects
  end.

Section Clock.

(** [new Date().toISOString()] when the record at a position is built. *)
Variable now : nat -> value.

(** PUT /availability *)
Definition put (req : put_request) (st : store)
  : (Http.response + answer) * store :=
  match selectedSubjects req with
  | None =>
      (inl (Http.mk 400 false "selectedSubjects must be an array"), st)
  | Some codes =>
      let cleared :=
        mk_store (subjects st)
          (filter (fun r => negb (strict_eq (AvailabilityRow.faculty_id r)
                                    (user_id req)))
             (faculty_availability st)) in
      if match isAvailable req with
         | Some v => truthy v
         | None => false
         end && (0 <? List.length codes)%nat
      then
        let found := Query.in_ Subject.subject_code codes (subjects st) in
        if (List.length found =? 0)%nat
        then (inl (Http.mk 400 false "Invalid subject codes"), cleared)
        else
          let availabilityRecords :=
            map (fun '(i, subject) =>
                   AvailabilityRow.mk (user_id req) (Subject.id subject)
                     (Bool true) (now i))
              (combine (seq 0 (List.length found)) found) in
          (inr (mk_answer (isAvailable req) codes),
           mk_store (subjects st)
             (faculty_availability cleared ++ availabilityRecords))
      else (inr (mk_answer (isAvailable req) codes), cleared)
  end.

End Clock.

(** GET /available-subjects: [isAvailable] and [selectedSubjects]. *)
Definition available_subjects (userId : value) (st : store)
  : bool * list value :=
  let data :=
    filter (fun r => strict_eq (AvailabilityRow.faculty_id r) userId
                     && strict_eq (AvailabilityRow.is_available r) (Bool true))
      (faculty_availability st) in
  let availableSubjects :=
    flat_map (fun record =>
                match joined (subjects st) record with
                | Some s => [Subject.subject_code s]
                | None => []
                end) data in
  ((0 <? List.length availableSubjects)%nat, availableSubjects).

Section Order.

(** The order of the datastore on [updated_at]: whether the first time is
    later than the second. *)
Variable later : value -> value -> bool.

(** [.order('updated_at', { ascending: false }).limit(1).maybeSingle()] *)
Definition latest (rows : list AvailabilityRow.t) : option AvailabilityRow.t :=
  fold_left
    (fun best r =>
       match best with
       | None => Some r
       | Some b =>
           if later (AvailabilityRow.updated_at r)
                (AvailabilityRow.updated_at b)
           then Some r else best
       end)
    rows None.

(** GET /availability: [data?.is_available || false] *)
Definition get (userId : value) (st : store) : value :=
  or_else
    (option_map AvailabilityRow.is_available
       (latest (Query.eq AvailabilityRow.faculty_id userId
                  (faculty_availability st))))
    (Bool false).

End Order.

End Availability.

(* ------------------------------------------------------------------------- *)
(** ** DELETE /subjects/:id *)

Definition set_subjects (rows : list Subject.t) (d : Db.t) : Db.t :=
  Db.mk (Db.students d) rows (Db.student_subject_selection d)
    (Db.student_submissions d) (Db.submission_types d) (Db.faculty_subjects d).

Definition set_faculty_subjects (rows : list Assignment.t) (d : Db.t) : Db.t :=
  Db.mk (Db.students d) (Db.subjects d) (Db.student_subject_selection d)
    (Db.student_submissions d) (Db.submission_types d) rows.

Module DeleteSubject.

Record request := mk {
  id : value;               (* [req.params.id] *)
  class_id : option value   (* [req.user.class_id] *)
}.

Definition handler (req : request) (d : Db.t) : Http.response * Db.t :=
  match class_id req with
  | None => (Http.mk 400 false "Missing class_id in token", d)
  | Some classId =>
      if negb (truthy classId)
      then (Http.mk 400 false "Missing class_id in token", d)
      else
        match Query.single (Query.eq Subject.id (id req) (Db.subjects d)) with
        | None => (Http.mk 404 false "Subject not found", d)
        | Some subject =>
            if negb (strict_eq (Subject.class_id subject) classId)
            then (Http.mk 403 false "Unauthorized to delete this subject", d)
            else
              let d :=
                set_faculty_subjects
                  (filter (fun a => negb (strict_eq (Assignment.subject_id a)
                                            (id req)))
                     (Db.faculty_subjects d)) d in
              let d :=
                set_subjects
                  (filter (fun s => negb (strict_eq (Subject.id s) (id req)))
                     (Db.subjects d)) d in
              (Http.mk 200 true "Subject deleted successfully", d)
        end
  end.

End DeleteSubject.

(* ------------------------------------------------------------------------- *)
(** ** POST /subjects/assign *)

Module ClassRow.
Record t := mk {
  id : value;
  name : value;
  year : value;
  department_id : value
}.
End ClassRow.

Module AssignSubject.

(** An element of [faculty_assignments]. *)
Record batch_assignment := mk_fa {
  fa_batch_id : option value;
  fa_faculty_id : option value
}.

Record request := mk {
  class_id : option value;
  subject_code : option value;
  subject_name : option value;
  type : option value;
  faculty_id : option value;
  (* [None] when the property is missing or is not an array *)
  faculty_assignments : option (list batch_assignment)
}.

(** The body of the 201 answer. *)
Record created := mk_created {
  message : string;
  subject : Subject.t;
  assignments : list Assignment.t
}.

(** A property of the body that is present and truthy. *)
Definition given (x : option value) : option value :=
  match x with
  | Some v => if truthy v then Some v else None
  | None => None
  end.

(** The loop over [faculty_assignments]: the rows to insert, or [None] at
    the first element without [batch_id] or [faculty_id]. *)
Fixpoint batch_rows (subject : Subject.t) (class_id : value)
  (fas : list batch_assignment) : option (list Assignment.t) :=
  match fas with
  | [] => Some []
  | fa :: rest =>
      match given (fa_batch_id fa), given (fa_faculty_id fa) with
      | Some batch_id, Some faculty_id =>
          match batch_rows subject class_id rest with
          | Some rows =>
              Some (Assignment.mk faculty_id (Subject.id subject) batch_id
                      class_id (Some subject) :: rows)
          | None => None
          end
      | _, _ => None
      end
  end.

Section Keys.

(** The key the datastore gives to the subject inserted at a position. *)
Variable new_id : nat -> value.

(** The handler, with the datastore answering every call; the subject is
    inserted before the batch assignments are looked at, and a type other
    than theory and practical reaches the second insert with no row. *)
Definition handler (classes : list ClassRow.t) (req : request) (d : Db.t)
  : (Http.response + created) * Db.t :=
  match given (class_id req), given (subject_code req),
        given (subject_name req), given (type req) with
  | Some class_id, Some subject_code, Some subject_name, Some type =>
      match Query.single (Query.eq ClassRow.id class_id classes) with
      | None =>
          (inl (Http.mk 400 false "Invalid class_id or class not found."), d)
      | Some classData =>
          if strict_eq type (Str "theory")
             && match given (faculty_id req) with
                | Some _ => false
                | None => true
                end
          then (inl (Http.mk 400 false
                       "Faculty ID required for theory subject."), d)
          else if strict_eq type (Str "practical")
                  && match faculty_assignments req with
                     | Some _ => false
                     | None => true
                     end
          then (inl (Http.mk 400 false
                       "faculty_assignments array required for practical subjects."),
                d)
          else
            let subjectData :=
              Subject.mk (new_id (List.length (Db.subjects d))) subject_name
                subject_code type class_id in
            let d := set_subjects (Db.subjects d ++ [subjectData]) d in
            let insertData :=
              if strict_eq type (Str "theory") then
                match faculty_id req with
                | Some faculty_id =>
                    Some [Assignment.mk faculty_id (Subject.id subjectData)
                            Null class_id (Some subjectData)]
                | None => Some []
                end
              else if strict_eq type (Str "practical") then
                match faculty_assignments req with
                | Some fas => batch_rows subjectData class_id fas
                | None => Some []
                end
              else Some [] in
            match insertData with
            | None =>
                (inl (Http.mk 400 false
                        "Each batch assignment must have batch_id and faculty_id."),
                 d)
            | Some rows =>
                (inr (mk_created
                        (if strict_eq type (Str "theory")
                         then "Theory subject created and assigned successfully."
                         else "Practical subject created and assigned to all batches successfully.")
                        subjectData rows),
                 set_faculty_subjects (Db.faculty_subjects d ++ rows) d)
            end
      end
  | _, _, _, _ => (inl (Http.mk 400 false "Missing required fields."), d)
  end.

End Keys.

End AssignSubject.

(* ------------------------------------------------------------------------- *)
(** ** More notions *)

(** The set holds the identifiers of the list, each once. *)
Definition listed_once (st : list value * list Listed.t) : Prop :=
  fst st = map Listed.id (snd st) /\ NoDup (fst st).

(** The selection row names the subject [k] in a slot graded by the
    faculty. *)
Definition graded_slot (facultyId : value) (sel : Selection.t) (k : value)
  : Prop :=
  (Selection.mdm_faculty_id sel = facultyId
   /\ truthy (Selection.mdm_id sel) = true /\ Selection.mdm_id sel = k)
  \/ (Selection.oe_faculty_id sel = facultyId
      /\ truthy (Selection.oe_id sel) = true /\ Selection.oe_id sel = k)
  \/ (Selection.pe_faculty_id sel = facultyId
      /\ truthy (Selection.pe_id sel) = true /\ Selection.pe_id sel = k).

(** The string does not begin with white space. *)
Definition starts_clean (s : string) : Prop :=
  match s with
  | String c _ => is_space c = false
  | EmptyString => True
  end.

(* ------------------------------------------------------------------------- *)
(** ** More sample data *)



Definition sample_subject (i : Z) (code type class_id : string) : Subject.t :=
  Subject.mk (Num i) (Str code) (Str code) (Str type) (Str class_id).

(** Two subjects; faculty f1 is available for the second one and faculty f2
    for the first. *)
Definition availability_store : Availability.store :=
  Availability.mk_store
    [sample_subject 1 "CS101" "theory" "c1";
     sample_subject 2 "CS102" "practical" "c1"]
    [AvailabilityRow.mk (Str "f1") (Num 2) (Bool true) (Str "2024-01-01");
     AvailabilityRow.mk (Str "f2") (Num 1) (Bool true) (Str "2024-01-02")].

Definition sample_now (i : nat) : value := Str "2024-02-01T09:00:00.000Z".

Definition sample_later (a b : value) : bool :=
  match a, b with
  | Str x, Str y => String.ltb y x
  | _, _ => false
  end.

Definition put_online (codes : list value) : Availability.put_request :=
  Availability.mk_put (Str "f1") (Some (Bool true)) (Some codes).

(** Two students of class c1 and two subjects of the class: the first is
    taught by f1 to the whole class, the second by f2 to batch b1. *)
Definition assigned_db : Db.t :=
  Db.mk
    [sample_student "s1" false "c1"; sample_student "s2" true "c1"]
    [sample_subject 1 "CS101" "theory" "c1";
     sample_subject 2 "CS102" "practical" "c1"]
    []
    [completed_record "s1" 1 1]
    sample_types
    [Assignment.mk (Str "f1") (Num 1) Null (Str "c1")
       (Some (sample_subject 1 "CS101" "theory" "c1"));
     Assignment.mk (Str "f2") (Num 2) (Str "b1") (Str "c1")
       (Some (sample_subject 2 "CS102" "practical" "c1"))].

Definition sample_classes : list ClassRow.t :=
  [ClassRow.mk (Str "c1") (Str "SY-A") (Num 2) (Str "dept")].

Definition theory_request : AssignSubject.request :=
  AssignSubject.mk (Some (Str "c1")) (Some (Str "CS201")) (Some (Str "Algebra"))
    (Some (Str "theory")) (Some (Str "f3")) None.


(** A practical subject with a faculty for each of two batches. *)
Definition practical_request : AssignSubject.request :=
  AssignSubject.mk (Some (Str "c1")) (Some (Str "CS202")) (Some (Str "Lab"))
    (Some (Str "practical")) None
    (Some [AssignSubject.mk_fa (Some (Str "b1")) (Some (Str "f1"));
           AssignSubject.mk_fa (Some (Str "b2")) (Some (Str "f2"))]).

(** Student s1 in batch b1 and student s2 in batch b2, both of class c1. *)
Definition two_batch_db : Db.t :=
  Db.mk
    [Student.mk (Str "s1") (Num 1) (Str "Asha") (Str "H1") (Num 90)
       (Bool false) (Str "c1") (Str "b1") (Str "x") (Some (Str "B1"));
     Student.mk (Str "s2") (Num 2) (Str "Ravi") (Str "H2") (Num 60)
       (Bool true) (Str "c1") (Str "b2") (Str "x") (Some (Str "B2"))]
    [] [] [] sample_types [].

(* ========================================================================= *)
(** * Properties *)

(** ** Strict equality *)

Lemma strict_eq_iff (a b : value) : strict_eq a b = true <-> a = b.
Proof.
  destruct a, b; simpl; split; intro H; try discriminate; try reflexivity.
  - apply Bool.eqb_prop in H. now subst.
  - injection H as ->. apply Bool.eqb_reflx.
  - apply Z.eqb_eq in H. now subst.
  - injection H as ->. apply Z.eqb_refl.
  - apply String.eqb_eq in H. now subst.
  - injection H as ->. apply String.eqb_refl.
Qed.

Lemma strict_eq_refl (a : value) : strict_eq a a = true.
Proof. now apply strict_eq_iff. Qed.

Lemma strict_eq_false_iff (a b : value) : strict_eq a b = false <-> a <> b.
Proof.
  split.
  - intros H E. apply strict_eq_iff in E. congruence.
  - intro N. destruct (strict_eq a b) eqn:E; [|reflexivity].
    apply strict_eq_iff in E. contradiction.
Qed.

Lemma includes_iff (l : list value) (v : value) :
  includes l v = true <-> In v l.
Proof.
  unfold includes. rewrite existsb_exists. split.
  - intros (x & Hx & E). apply strict_eq_iff in E. now subst.
  - intro H. exists v. split; [assumption | apply strict_eq_refl].
Qed.

(** ** Required items *)

Lemma totals_fold (d : value) (types : list SubmissionType.t)
  (subs : list Submission.t) (subjects : list Subject.t) (acc : nat * nat) :
  fold_left
    (fun acc subject =>
       let '(subjectTotal, subjectCompleted) :=
         Roster.subject_counts d types subs subject in
       (fst acc + subjectTotal, snd acc + subjectCompleted))
    subjects acc
  = (fst acc + list_sum (map (fun s => fst (Roster.subject_counts d types subs s))
                           subjects),
     snd acc + list_sum (map (fun s => snd (Roster.subject_counts d types subs s))
                           subjects)).
Proof.
  revert acc. induction subjects as [|s l IH]; intro acc; simpl.
  - rewrite !Nat.add_0_r. now destruct acc.
  - rewrite IH. destruct (Roster.subject_counts d types subs s) as [t c].
    simpl. f_equal; lia.
Qed.

Lemma totals_sums (d : value) (types : list SubmissionType.t)
  (subs : list Submission.t) (subjects : list Subject.t) :
  Roster.totals d types subs subjects
  = (list_sum (map (fun s => fst (Roster.subject_counts d types subs s))
                 subjects),
     list_sum (map (fun s => snd (Roster.subject_counts d types subs s))
                 subjects)).
Proof. unfold Roster.totals. now rewrite totals_fold. Qed.

Lemma roster_subject_total (d : value) (types : list SubmissionType.t)
  (subs : list Submission.t) (subject : Subject.t) :
  fst (Roster.subject_counts d types subs subject)
  = required_items (Subject.type subject) d.
Proof.
  unfold Roster.subject_counts, required_items.
  destruct (strict_eq (Subject.type subject) (Str "practical")); [reflexivity|].
  now destruct (truthy d).
Qed.

Lemma faculty_pair_total (p : Faculty.pair) :
  fst (Faculty.pair_counts p)
  = required_items (Faculty.subject_type p)
      (Student.defaulter (Faculty.student p)).
Proof.
  unfold Faculty.pair_counts, required_items.
  destruct (strict_eq (Faculty.subject_type p) (Str "practical"));
    [reflexivity|].
  now destruct (truthy (Student.defaulter (Faculty.student p))).
Qed.

(** C1.  The number of required items of a (student, subject) pair is the
    one of the table, 1 for a practical subject, 2 for any other subject of
    a student who is not a defaulter and 3 for one who is, whatever the
    submission records and the submission types are: in the roster of the
    class teacher for each subject and hence for the total of a student, and
    in the faculty view for every pair built from the records. *)
Theorem C1_required_items_by_type_and_defaulter :
  (forall d types subs subject,
      fst (Roster.subject_counts d types subs subject)
      = required_items (Subject.type subject) d)
  /\ (forall d types subs subjects,
         fst (Roster.totals d types subs subjects)
         = list_sum (map (fun s => required_items (Subject.type s) d) subjects))
  /\ (forall subs types student subject,
         Faculty.total_submissions
           (Faculty.with_percentage
              (Faculty.student_subject subs types student subject))
         = required_items (Subject.type subject) (Student.defaulter student))
  /\ (forall ty d,
         (ty = Str "practical" /\ required_items ty d = 1)
         \/ (ty <> Str "practical" /\ truthy d = false
             /\ required_items ty d = 2)
         \/ (ty <> Str "practical" /\ truthy d = true
             /\ required_items ty d = 3)).
Proof.
  split; [exact roster_subject_total|].
  split.
  { intros. rewrite totals_sums. simpl. f_equal. apply map_ext.
    intro s. apply roster_subject_total. }
  split.
  { intros. unfold Faculty.with_percentage.
    pose proof (faculty_pair_total
                  (Faculty.student_subject subs types student subject)) as H.
    destruct (Faculty.pair_counts _) as [t c]. simpl in *. exact H. }
  intros ty d. unfold required_items.
  destruct (strict_eq ty (Str "practical")) eqn:E.
  - apply strict_eq_iff in E. now left.
  - apply strict_eq_false_iff in E. right.
    destruct (truthy d); [right | left]; repeat split; assumption.
Qed.

(** ** Binary64 arithmetic of the percentage *)

Local Open Scope Z_scope.

Lemma scale_nonpos (x k : Z) : k <= 0 -> Number.scale x k = x.
Proof.
  intro H. unfold Number.scale. rewrite Z.max_l by lia. simpl. lia.
Qed.

Lemma scale_nonneg (x k : Z) : 0 <= k -> Number.scale x k = x * 2 ^ k.
Proof.
  intro H. unfold Number.scale. now rewrite Z.max_r by lia.
Qed.

Lemma binade_le (n d : Z) : Number.binade n d <= Z.log2 n - Z.log2 d.
Proof.
  unfold Number.binade.
  destruct (Number.scale d _ <=? Number.scale n _); lia.
Qed.

Lemma log2_le_shift (n d k : Z) :
  0 < d -> 0 <= k -> n <= 2 ^ k * d -> Z.log2 n <= k + Z.log2 d.
Proof.
  intros Hd Hk H.
  rewrite <- (Z.log2_mul_pow2 d k) by lia.
  apply Z.log2_le_mono. lia.
Qed.

(** A quotient that does not exceed a number of the grid is not rounded
    past it. *)
Lemma round_le_grid (N D M : Z) :
  0 < D -> 0 <= N -> N <= M * D ->
  let q := N / D in
  let r := N mod D in
  0 <= (if (D <? 2 * r) || ((D =? 2 * r) && Z.odd q) then q + 1 else q) <= M.
Proof.
  intros HD HN HM q r.
  pose proof (Z.div_mod N D ltac:(lia)) as E.
  pose proof (Z.mod_pos_bound N D HD) as Hr.
  fold q r in E, Hr.
  assert (0 <= q) by (apply Z.div_pos; lia).
  assert (q <= M) by nia.
  destruct ((D <? 2 * r) || ((D =? 2 * r) && Z.odd q)) eqn:B; [|lia].
  assert (0 < r).
  { apply Bool.orb_true_iff in B. destruct B as [B|B].
    - apply Z.ltb_lt in B. lia.
    - apply Bool.andb_true_iff in B. destruct B as [B _].
      apply Z.eqb_eq in B. lia. }
  split; [lia|]. nia.
Qed.

Lemma nearest_within (n d B : Z) :
  0 <= n -> 0 < d -> 0 < B <= 128 -> n <= B * d ->
  within B (Number.nearest n d).
Proof.
  intros Hn Hd HB Hle. unfold Number.nearest.
  set (e := Z.max (Number.binade n d - 52) (-1074)).
  assert (He : e <= -45).
  { pose proof (binade_le n d).
    assert (Z.log2 n <= 7 + Z.log2 d).
    { apply log2_le_shift; try lia. change (2 ^ 7) with 128. nia. }
    unfold e. lia. }
  rewrite (scale_nonneg n (- e)) by lia.
  rewrite (scale_nonpos d e) by lia.
  assert (Hp : 0 < 2 ^ (- e)) by (apply Z.pow_pos_nonneg; lia).
  pose proof (round_le_grid (n * 2 ^ (- e)) d (B * 2 ^ (- e)) Hd
                ltac:(nia) ltac:(nia)) as R.
  cbv zeta in R.
  match type of R with
  | 0 <= ?x <= _ => set (m := x) in *
  end.
  destruct (m =? 0) eqn:E0.
  { exists 0, 0. repeat split; try lia. }
  apply Z.eqb_neq in E0.
  assert (Hlog : Z.log2 m <= 7 - e).
  { replace (7 - e) with (Z.log2 (2 ^ (7 - e))) by (apply Z.log2_pow2; lia).
    apply Z.log2_le_mono.
    replace (7 - e) with (7 + - e) by lia.
    rewrite Z.pow_add_r by lia. change (2 ^ 7) with 128. nia. }
  destruct (1024 <=? Z.log2 m + e) eqn:O.
  { apply Z.leb_le in O. lia. }
  exists m, e. repeat split; lia.
Qed.

Lemma div_within_1 (c t : nat) :
  (c <= t)%nat -> (0 < t)%nat ->
  within 1 (Number.div (Number.of_nat c) (Number.of_nat t)).
Proof.
  intros Hc Ht. unfold Number.div, Number.of_nat.
  destruct (Z.of_nat t =? 0) eqn:E; [apply Z.eqb_eq in E; lia|].
  rewrite !scale_nonpos by lia.
  apply nearest_within; lia.
Qed.

Lemma mul_100_within (x : Number.t) :
  within 1 x -> within 100 (Number.mul x (Number.of_nat 100)).
Proof.
  intros (m & e & -> & Hm & He & Hle).
  unfold Number.mul, Number.of_nat.
  rewrite Z.add_0_r.
  rewrite scale_nonpos by lia.
  rewrite scale_nonneg by lia.
  assert (0 < 2 ^ (- e)) by (apply Z.pow_pos_nonneg; lia).
  apply nearest_within; simpl Z.of_nat; lia.
Qed.

Lemma round_within_100 (x : Number.t) :
  within 100 x ->
  exists p, Number.Math_round x = Number.of_Z p /\ 0 <= p <= 100.
Proof.
  intros (m & e & -> & Hm & He & Hle). unfold Number.Math_round, Number.of_Z.
  destruct (0 <=? e) eqn:E.
  - apply Z.leb_le in E. assert (e = 0) by lia. subst e.
    exists (m * 2 ^ 0). split; [reflexivity|]. simpl in *. lia.
  - eexists. split; [reflexivity|].
    assert (Hp : 0 < 2 ^ (- e)) by (apply Z.pow_pos_nonneg; lia).
    replace (1 - e) with (1 + - e) by lia.
    rewrite Z.pow_add_r by lia. change (2 ^ 1) with 2.
    split.
    + apply Z.div_pos; lia.
    + apply Z.lt_succ_r. apply Z.div_lt_upper_bound; lia.
Qed.

(** The percentage of [c] completed items out of [t] required ones is an
    integer from 0 to 100 as soon as [c <= t]. *)
Lemma submissionPercentage_range (c t : nat) :
  (c <= t)%nat ->
  exists p, submissionPercentage c t = Number.of_Z p /\ 0 <= p <= 100.
Proof.
  intro H. unfold submissionPercentage.
  destruct (0 <? t)%nat eqn:E.
  - apply Nat.ltb_lt in E.
    apply round_within_100, mul_100_within, div_within_1; assumption.
  - exists 0. split; [reflexivity | lia].
Qed.

Local Close Scope Z_scope.

(** ** Completed items never exceed required items *)

Lemma completed_1_le (x : option Submission.t) : completed_1 x <= 1.
Proof.
  unfold completed_1. destruct x as [r|]; [|lia].
  destruct (strict_eq _ _); lia.
Qed.

(** Bounds every item count [completed_1 _] of the goal by 1. *)
Ltac bound_items :=
  repeat match goal with
         | |- context [completed_1 ?x] =>
             lazymatch goal with
             | _ : completed_1 x <= 1 |- _ => fail
             | _ => pose proof (completed_1_le x)
             end
         end.

Lemma roster_subject_completed_le (d : value) (types : list SubmissionType.t)
  (subs : list Submission.t) (subject : Subject.t) :
  snd (Roster.subject_counts d types subs subject)
  <= fst (Roster.subject_counts d types subs subject).
Proof.
  unfold Roster.subject_counts. bound_items.
  destruct (strict_eq (Subject.type subject) (Str "practical")); simpl; [lia|].
  destruct (truthy d); simpl; lia.
Qed.

Lemma list_sum_le {A : Type} (f g : A -> nat) (l : list A) :
  (forall a, f a <= g a) -> list_sum (map f l) <= list_sum (map g l).
Proof.
  intro H. induction l as [|a l IH]; simpl; [lia|].
  specialize (H a). lia.
Qed.

Lemma roster_totals_le (d : value) (types : list SubmissionType.t)
  (subs : list Submission.t) (subjects : list Subject.t) :
  snd (Roster.totals d types subs subjects)
  <= fst (Roster.totals d types subs subjects).
Proof.
  rewrite totals_sums. simpl. apply list_sum_le.
  intro s. apply roster_subject_completed_le.
Qed.

Lemma faculty_pair_completed_le (p : Faculty.pair) :
  snd (Faculty.pair_counts p) <= fst (Faculty.pair_counts p).
Proof.
  unfold Faculty.pair_counts.
  destruct (strict_eq (Faculty.subject_type p) (Str "practical")); simpl.
  - destruct (strict_eq (Faculty.ta_status p) _); lia.
  - destruct (truthy _); simpl;
      repeat match goal with
             | |- context [if ?b then _ else _] => destruct b
             end; lia.
Qed.

Lemma roster_row_range (classSubjects electives : list Subject.t)
  (electiveMap : list (value * list value)) (submissions : list Submission.t)
  (types : list SubmissionType.t) (s : Student.t) :
  exists p,
    Roster.submission_percentage
      (Roster.student_row classSubjects electives electiveMap submissions
         types s) = Number.of_Z p
    /\ (0 <= p <= 100)%Z.
Proof.
  unfold Roster.student_row.
  destruct (List.length _ =? 0)%nat.
  - exists 0%Z. split; [reflexivity | lia].
  - match goal with
    | |- context [Roster.totals ?d ?t ?u ?v] =>
        pose proof (roster_totals_le d t u v) as H;
        destruct (Roster.totals d t u v) as [tot com]
    end.
    simpl in *. now apply submissionPercentage_range.
Qed.

Lemma faculty_row_range (p : Faculty.pair) :
  exists q,
    Faculty.submission_percentage (Faculty.with_percentage p) = Number.of_Z q
    /\ (0 <= q <= 100)%Z.
Proof.
  unfold Faculty.with_percentage.
  pose proof (faculty_pair_completed_le p) as H.
  destruct (Faculty.pair_counts p) as [tot com]. simpl in *.
  now apply submissionPercentage_range.
Qed.

(** C10.  Whatever the students, subjects, elective selections, submission
    records and submission types in the datastore, every
    [submission_percentage] of the roster and of the faculty view is an
    integer from 0 to 100; a subject never contributes more completed items
    than required ones. *)
Theorem C10_percentage_between_0_and_100 :
  (forall db classId,
      Forall (fun r => exists p,
                  Roster.submission_percentage r = Number.of_Z p
                  /\ (0 <= p <= 100)%Z)
        (Roster.students db classId))
  /\ (forall db facultyId,
         Forall (fun r => exists p,
                     Faculty.submission_percentage r = Number.of_Z p
                     /\ (0 <= p <= 100)%Z)
           (Faculty.students db facultyId))
  /\ (forall d types subs subject,
         snd (Roster.subject_counts d types subs subject)
         <= fst (Roster.subject_counts d types subs subject))
  /\ (forall p, snd (Faculty.pair_counts p) <= fst (Faculty.pair_counts p)).
Proof.
  split; [|split; [|split]].
  - intros db classId. unfold Roster.students.
    apply Forall_map, Forall_forall. intros s _. apply roster_row_range.
  - intros db facultyId. unfold Faculty.students.
    apply Forall_map, Forall_forall. intros p _. apply faculty_row_range.
  - exact roster_subject_completed_le.
  - exact faculty_pair_completed_le.
Qed.

(** ** No applicable subject *)

Lemma roster_total_0_iff (d : value) (types : list SubmissionType.t)
  (subs : list Submission.t) (subjects : list Subject.t) :
  fst (Roster.totals d types subs subjects) = 0 <-> subjects = [].
Proof.
  rewrite totals_sums. simpl. split.
  - destruct subjects as [|s l]; [reflexivity|]. simpl.
    rewrite roster_subject_total. unfold required_items.
    destruct (strict_eq _ _); [|destruct (truthy d)]; simpl; lia.
  - now intros ->.
Qed.

(** C4.  A student with no applicable subject, which is the only way for
    the total of required items to be 0, gets the percentage 0: the
    quotient 0/0, which is [NaN], is never formed. *)
Theorem C4_no_subject_percentage_0
  (classSubjects electives : list Subject.t)
  (electiveMap : list (value * list value)) (submissions : list Submission.t)
  (types : list SubmissionType.t) (s : Student.t) :
  let subjects :=
    studentSubjects classSubjects electives (studentElectives electiveMap s) in
  let studentSubmissions :=
    filter (fun sub => strict_eq (Submission.student_id sub) (Student.id s))
      submissions in
  subjects = []
  \/ fst (Roster.totals (Student.defaulter s) types studentSubmissions
            subjects) = 0 ->
  Roster.submission_percentage
    (Roster.student_row classSubjects electives electiveMap submissions
       types s) = Number.of_nat 0
  /\ (forall completed, submissionPercentage completed 0 = Number.of_nat 0)
  /\ Number.div (Number.of_nat 0) (Number.of_nat 0) = Number.NaN.
Proof.
  intros subjects studentSubmissions H.
  assert (E : subjects = []).
  { destruct H as [H|H]; [assumption|].
    now apply roster_total_0_iff in H. }
  split; [|split; reflexivity].
  unfold Roster.student_row. fold subjects. now rewrite E.
Qed.

(** ** The model of binary64 against the machine's *)

Lemma binary64_agree_on_grid :
  forallb (fun t => forallb (fun c => Binary64.agree c t) (seq 0 (2 * t + 1)))
    (seq 0 49) = true.
Proof. vm_compute. reflexivity. Qed.

(** ** Percentages that are exact *)

Lemma same_number_eq (a b : Number.t) : same_number a b = true -> a = b.
Proof.
  destruct a as [| |m e], b as [| |m' e']; simpl; try discriminate.
  intro H. apply Bool.andb_true_iff in H. destruct H as [H1 H2].
  apply Z.eqb_eq in H1, H2. now subst.
Qed.

Lemma exact_below_40 : forallb exact_up_to_total (seq 1 39) = true.
Proof. vm_compute. reflexivity. Qed.

(** Up to 39 required items the binary64 computation gives the exact
    half-up rounding; 40 is the first total at which it does not. *)
Lemma percentage_half_up_below_40 (c t : nat) :
  c <= t -> 0 < t -> t < 40 ->
  submissionPercentage c t = Number.of_Z (Number.half_up_percent c t).
Proof.
  intros Hc H0 Ht.
  pose proof exact_below_40 as E. rewrite forallb_forall in E.
  specialize (E t). unfold exact_up_to_total in E.
  rewrite forallb_forall in E.
  apply same_number_eq, E; apply in_seq; lia.
Qed.

(** In the faculty view a pair has at most three required items, and the
    binary64 computation gives the exact half-up rounding. *)
Lemma faculty_percentage_half_up (p : Faculty.pair) :
  Faculty.submission_percentage (Faculty.with_percentage p)
  = Number.of_Z
      (Number.half_up_percent
         (Faculty.completed_submissions (Faculty.with_percentage p))
         (Faculty.total_submissions (Faculty.with_percentage p))).
Proof.
  unfold Faculty.with_percentage.
  pose proof (faculty_pair_completed_le p) as Hle.
  pose proof (faculty_pair_total p) as Ht.
  destruct (Faculty.pair_counts p) as [tot com]. simpl in *.
  apply percentage_half_up_below_40; try assumption;
    subst tot; unfold required_items;
    destruct (strict_eq _ _); try destruct (truthy _); lia.
Qed.

(** The two percentages the specification quotes. *)
Lemma theory_ta_only_is_50 : submissionPercentage 1 2 = Number.of_Z 50.
Proof. vm_compute. reflexivity. Qed.

Lemma defaulter_ta_cie_is_67 : submissionPercentage 2 3 = Number.of_Z 67.
Proof. vm_compute. reflexivity. Qed.

(** ** A roster on which the percentage is off by one *)

(** C2.  On [tie_db] the student has 23 completed items out of 40, that is
    57.5 percent exactly.  The handler answers 57, where rounding the exact
    quotient half-up gives 58: in binary64 [23 / 40] times [100] is
    57.49999999999999.  With 1 item out of 8 (12.5 percent) the same
    expression rounds up, to 13. *)
Theorem C2_roster_tie_rounded_down :
  map Roster.submission_percentage (Roster.students tie_db (Str "c1"))
  = [Number.of_Z 57]
  /\ Roster.totals (Bool false) sample_types (Db.student_submissions tie_db)
       (Db.subjects tie_db) = (40, 23)
  /\ Number.half_up_percent 23 40 = 58%Z
  /\ submissionPercentage 23 40 = Number.of_Z 57
  /\ submissionPercentage 1 8 = Number.of_Z 13.
Proof. vm_compute. repeat split; reflexivity. Qed.

(** ** Looking a submission up *)

Lemma find_type_none (n : string) (types : list SubmissionType.t) :
  (forall t, In t types -> SubmissionType.name t <> Str n) ->
  find_type n types = None.
Proof.
  intro H. unfold find_type, find.
  destruct (List.find _ types) as [t|] eqn:E; [|reflexivity].
  apply find_some in E. destruct E as [Hin E].
  apply strict_eq_iff in E. now apply H in Hin.
Qed.

Lemma find_submission_undefined (subs : list Submission.t) :
  find_submission None subs = None.
Proof.
  unfold find_submission, find. simpl.
  induction subs as [|r l IH]; [reflexivity | exact IH].
Qed.

Lemma find_submission_some (ty : option SubmissionType.t)
  (subs : list Submission.t) (r : Submission.t) :
  find_submission ty subs = Some r ->
  In r subs /\ Some (Submission.submission_type_id r) = type_id ty.
Proof.
  unfold find_submission, find. intro H. apply find_some in H.
  destruct H as [Hin E]. split; [assumption|].
  destruct (type_id ty) as [v|]; simpl in E; [|discriminate].
  apply strict_eq_iff in E. now subst.
Qed.

Lemma find_submission_none (ty : option SubmissionType.t)
  (subs : list Submission.t) (r : Submission.t) :
  find_submission ty subs = None -> In r subs ->
  Some (Submission.submission_type_id r) <> type_id ty.
Proof.
  unfold find_submission, find. intros H Hin E.
  pose proof (find_none _ _ H r Hin) as F. simpl in F.
  rewrite <- E in F. simpl in F. now rewrite strict_eq_refl in F.
Qed.

Lemma filter_and {A : Type} (f g : A -> bool) (l : list A) :
  filter (fun a => f a && g a) l = filter g (filter f l).
Proof.
  induction l as [|a l IH]; [reflexivity|]. simpl.
  destruct (f a); simpl; [|exact IH].
  destruct (g a); now rewrite IH.
Qed.

Lemma records_of_one_pass (submissions : list Submission.t) (s : Student.t)
  (subject : Subject.t) :
  filter (fun sub => strict_eq (Submission.student_id sub) (Student.id s)
                     && strict_eq (Submission.subject_id sub) (Subject.id subject))
    submissions
  = records_of submissions s subject.
Proof. apply filter_and. Qed.

Lemma in_records_of (submissions : list Submission.t) (s : Student.t)
  (subject : Subject.t) (r : Submission.t) :
  In r (records_of submissions s subject)
  <-> In r submissions
      /\ Submission.student_id r = Student.id s
      /\ Submission.subject_id r = Subject.id subject.
Proof.
  unfold records_of. rewrite !filter_In, !strict_eq_iff. tauto.
Qed.

(** ** A submission type that is absent *)

Lemma absent_type_never_matches (n : string) (types : list SubmissionType.t)
  (subs : list Submission.t) :
  (forall t, In t types -> SubmissionType.name t <> Str n) ->
  find_submission (find_type n types) subs = None.
Proof.
  intro H. rewrite (find_type_none n types H).
  apply find_submission_undefined.
Qed.

(** C5.  When no row of the submission-types table is named [n], the lookup
    of an item of that type matches no record, whatever the records are: the
    item counts for nothing and is reported as pending.  For each of the
    three names this is what the handlers then answer; none of them has a
    failing step, and the roster still has one row per student. *)
Theorem C5_absent_type_is_pending (n : string)
  (types : list SubmissionType.t)
  (Habsent : forall t, In t types -> SubmissionType.name t <> Str n) :
  (forall subs,
      find_submission (find_type n types) subs = None
      /\ completed_1 (find_submission (find_type n types) subs) = 0
      /\ or_else (status_of (find_submission (find_type n types) subs))
           (Str "pending") = Str "pending")
  /\ (forall submissions student subject,
         let e := ClassData.subject_entry submissions types student subject in
         let p := Faculty.student_subject submissions types student subject in
         (n = "TA" ->
          ClassData.ta e = Str "pending"
          /\ Faculty.ta_status p = Str "pending"
          /\ snd (Roster.subject_counts (Student.defaulter student) types
                    submissions subject) + 1
             <= required_items (Subject.type subject)
                  (Student.defaulter student))
         /\ (n = "CIE" ->
             (ClassData.cie e = Str "pending" \/ ClassData.cie e = Str "N/A")
             /\ Faculty.cie_status p = Str "pending"
             /\ snd (Roster.subject_counts (Student.defaulter student) types
                       submissions subject)
                <= 2)
         /\ (n = "Defaulter work" ->
             (ClassData.defaulter e = Str "pending"
              \/ ClassData.defaulter e = Str "-")
             /\ Faculty.defaulter_status p = Str "pending"
             /\ snd (Roster.subject_counts (Student.defaulter student) types
                       submissions subject)
                <= 2))
  /\ (forall students subjects selections submissions assignments classId,
         let db := Db.mk students subjects selections submissions types
                     assignments in
         List.length (Roster.students db classId)
         = List.length (Query.eq Student.class_id classId students)
         /\ List.length (ClassData.students db classId)
            = List.length (Query.eq Student.class_id classId students)).
Proof.
  assert (N : forall subs, find_submission (find_type n types) subs = None)
    by (intro; now apply absent_type_never_matches).
  split; [|split].
  - intro subs. rewrite N. repeat split; reflexivity.
  - intros submissions student subject e p.
    split; [|split]; intros ->;
      unfold e, p, ClassData.subject_entry, Faculty.student_subject,
        Roster.subject_counts, required_items; simpl;
      rewrite !N; simpl; (split; [|split; [reflexivity|]]).
    + reflexivity.
    + bound_items.
      destruct (strict_eq (Subject.type subject) (Str "practical")); simpl;
        [lia|].
      destruct (truthy _); simpl; lia.
    + destruct (strict_eq (Subject.type subject) (Str "practical"));
        [now right | now left].
    + bound_items.
      destruct (strict_eq _ _); simpl; [lia|].
      destruct (truthy _); simpl; lia.
    + destruct (truthy _ && _); [now left | now right].
    + bound_items.
      destruct (strict_eq _ _); simpl; [lia|].
      destruct (truthy _); simpl; lia.
  - intros. unfold db, Roster.students, ClassData.students. simpl.
    now rewrite !length_map.
Qed.

(** ** When an item counts as completed *)

Lemma completed_1_iff (x : option Submission.t) :
  completed_1 x = 1
  <-> exists r, x = Some r /\ Submission.status r = Str "completed".
Proof.
  unfold completed_1. destruct x as [r|].
  - destruct (strict_eq (Submission.status r) (Str "completed")) eqn:E.
    + apply strict_eq_iff in E. split; [|reflexivity].
      intros _. now exists r.
    + apply strict_eq_false_iff in E. split; [discriminate|].
      intros (r' & [= <-] & H). contradiction.
  - split; [discriminate|]. now intros (r & H & _).
Qed.

(** C3, as stated, fails twice.  A record whose status is another string
    makes the item incomplete, yet the export reports that string and not
    [pending].  And where two records share student, subject and type, the
    first one found decides: a [completed] record exists and the item is not
    counted. *)
Lemma C3_other_status_is_reported_as_is :
  let student := sample_student "s1" false "c1" in
  let subject := theory_subject 1 in
  let e := ClassData.subject_entry [late_record] sample_types student subject in
  (snd (Roster.subject_counts (Student.defaulter student) sample_types
          [late_record] subject) = 0
   /\ ClassData.ta e = Str "late"
   /\ ClassData.ta e <> Str "pending")
  /\ (In (Submission.mk (Str "s1") (Num 1) (Num 1) (Str "completed"))
        pending_then_completed
      /\ snd (Roster.subject_counts (Student.defaulter student) sample_types
                pending_then_completed subject) = 0).
Proof.
  vm_compute. repeat split; try reflexivity; try discriminate.
  right. left. reflexivity.
Qed.

(** C3, amended.  With at most one record per (student, subject, submission
    type), a required item counts as completed exactly when a record of that
    student, subject and type exists whose status is the string
    [completed]; without that proviso the record found is the first one of
    the type, and a counted item still has such a record.  An item counts 0
    or 1.  With no record of the type the item is reported as [pending]; a
    record found is reported under its own status, [pending] standing in
    for an empty one.  The completed count of a subject in the roster is the
    sum of its items, and the [ta] field of the export is the report of the
    TA item. *)
Theorem C3_completed_iff_record_completed
  (submissions : list Submission.t) (types : list SubmissionType.t)
  (n : string) (s : Student.t) (subject : Subject.t)
  (Hone : one_record_per_item submissions) :
  let item :=
    find_submission (find_type n types) (records_of submissions s subject) in
  let reported := or_else (status_of item) (Str "pending") in
  (completed_1 item = 1
   <-> exists r,
        In r submissions
        /\ Submission.student_id r = Student.id s
        /\ Submission.subject_id r = Subject.id subject
        /\ Some (Submission.submission_type_id r)
           = type_id (find_type n types)
        /\ Submission.status r = Str "completed")
  /\ (completed_1 item = 0 \/ completed_1 item = 1)
  /\ ((forall r, In r (records_of submissions s subject) ->
                 Some (Submission.submission_type_id r)
                 <> type_id (find_type n types)) ->
      completed_1 item = 0 /\ reported = Str "pending")
  /\ (forall r, item = Some r ->
                reported = if truthy (Submission.status r)
                           then Submission.status r else Str "pending")
  /\ (let count m :=
        completed_1
          (find_submission (find_type m types)
             (records_of submissions s subject)) in
      snd (Roster.subject_counts (Student.defaulter s) types
             (filter (fun sub =>
                        strict_eq (Submission.student_id sub) (Student.id s))
                submissions)
             subject)
      = if strict_eq (Subject.type subject) (Str "practical") then count "TA"
        else count "TA" + count "CIE"
             + (if truthy (Student.defaulter s) then count "Defaulter work"
                else 0))
  /\ ClassData.ta (ClassData.subject_entry submissions types s subject)
     = or_else
         (status_of
            (find_submission (find_type "TA" types)
               (records_of submissions s subject)))
         (Str "pending").
Proof.
  intros item reported. split; [|split; [|split; [|split; [|split]]]].
  - rewrite completed_1_iff. split.
    + intros (r & E & St). exists r.
      apply find_submission_some in E. destruct E as [Hin Ty].
      apply in_records_of in Hin. tauto.
    + intros (r & Hin & Hs & Hj & Ty & St).
      destruct item as [r'|] eqn:E.
      * exists r'. split; [reflexivity|].
        apply find_submission_some in E. destruct E as [Hin' Ty'].
        apply in_records_of in Hin'. destruct Hin' as (Hin' & Hs' & Hj').
        assert (r' = r); [|now subst].
        apply Hone; try assumption; congruence.
      * exfalso. apply (find_submission_none _ _ r E); [|assumption].
        apply in_records_of. tauto.
  - unfold completed_1. destruct item as [r|]; [|now left].
    destruct (strict_eq _ _); [now right | now left].
  - intro Hno. unfold reported.
    destruct item as [r|] eqn:E; [|split; reflexivity].
    apply find_submission_some in E. destruct E as [Hin Ty].
    now apply Hno in Hin.
  - intros r E. unfold reported. now rewrite E.
  - unfold Roster.subject_counts. fold (records_of submissions s subject).
    destruct (strict_eq (Subject.type subject) (Str "practical"));
      [reflexivity|].
    destruct (truthy (Student.defaulter s)); simpl; lia.
  - unfold ClassData.subject_entry. simpl.
    now rewrite records_of_one_pass.
Qed.

(** ** The status strings of the output *)

Lemma reported_pending_or_stored (ty : option SubmissionType.t)
  (subs submissions : list Submission.t) :
  (forall r, In r subs -> In r submissions) ->
  let v := or_else (status_of (find_submission ty subs)) (Str "pending") in
  v = Str "pending" \/ stored submissions v.
Proof.
  intros Hsub v. unfold v.
  destruct (find_submission ty subs) as [r|] eqn:E; simpl; [|now left].
  destruct (truthy (Submission.status r)); [|now left].
  right. exists r. split; [|reflexivity].
  apply find_submission_some in E. now apply Hsub.
Qed.

Lemma one_pass_incl (submissions : list Submission.t) (s : Student.t)
  (subject : Subject.t) (r : Submission.t) :
  In r (filter (fun sub =>
                  strict_eq (Submission.student_id sub) (Student.id s)
                  && strict_eq (Submission.subject_id sub) (Subject.id subject))
          submissions) ->
  In r submissions.
Proof. intro H. now apply filter_In in H. Qed.

(** C6, as stated, fails: a status string of the datastore that is none of
    the four is copied to the output. *)
Lemma C6_free_form_status_in_output :
  let e := ClassData.subject_entry [late_record] sample_types
             (sample_student "s1" false "c1") (theory_subject 1) in
  ~ In (ClassData.ta e) [Str "pending"; Str "completed"; Str "N/A"; Str "-"].
Proof.
  vm_compute. intros [H|[H|[H|[H|[]]]]]; discriminate.
Qed.

(** C6, amended.  In the export every [cie], [ta] and [defaulter] field is
    [pending], [N/A], [-] or the status carried by a record of the
    datastore: [cie] is [N/A] for a practical subject and otherwise
    [pending] or a stored status; [ta] is [pending] or a stored status;
    [defaulter] is [-] when the subject is practical or the student is not a
    defaulter, and otherwise [pending] or a stored status.  In the faculty
    view each of the three status fields is [pending] or a stored status. *)
Theorem C6_status_fields (submissions : list Submission.t)
  (types : list SubmissionType.t) (student : Student.t) (subject : Subject.t) :
  let e := ClassData.subject_entry submissions types student subject in
  let p := Faculty.student_subject submissions types student subject in
  let practical := Subject.type subject = Str "practical" in
  let ok v := v = Str "pending" \/ stored submissions v in
  ((practical /\ ClassData.cie e = Str "N/A")
   \/ (~ practical /\ ok (ClassData.cie e)))
  /\ ok (ClassData.ta e)
  /\ (((practical \/ truthy (Student.defaulter student) = false)
       /\ ClassData.defaulter e = Str "-")
      \/ (~ practical /\ truthy (Student.defaulter student) = true
          /\ ok (ClassData.defaulter e)))
  /\ ok (Faculty.ta_status p)
  /\ ok (Faculty.cie_status p)
  /\ ok (Faculty.defaulter_status p).
Proof.
  intros e p practical ok.
  assert (R : forall ty,
             ok (or_else
                   (status_of
                      (find_submission ty
                         (filter (fun sub =>
                                    strict_eq (Submission.student_id sub)
                                      (Student.id student)
                                    && strict_eq (Submission.subject_id sub)
                                         (Subject.id subject)) submissions)))
                   (Str "pending"))).
  { intro ty. apply reported_pending_or_stored.
    intros r. apply one_pass_incl. }
  unfold e, p, ClassData.subject_entry, Faculty.student_subject; simpl.
  unfold practical.
  destruct (strict_eq (Subject.type subject) (Str "practical")) eqn:P.
  - apply strict_eq_iff in P.
    repeat split; try apply R.
    + now left.
    + left. rewrite Bool.andb_false_r. split; [now left | reflexivity].
  - apply strict_eq_false_iff in P.
    repeat split; try apply R.
    + right. split; [assumption | apply R].
    + destruct (truthy (Student.defaulter student)) eqn:D; simpl.
      * right. repeat split; [assumption | apply R].
      * left. split; [now right | reflexivity].
Qed.

(** ** Applicable elective subjects *)

Lemma in_Set_add (v x : value) (s : list value) :
  In v (Set_add x s) <-> v = x \/ In v s.
Proof.
  unfold Set_add. destruct (includes s x) eqn:E.
  - apply includes_iff in E. split; [now right|].
    intros [->|H]; assumption.
  - rewrite in_app_iff. simpl. intuition congruence.
Qed.






Lemma fold_Map_set {A V : Type} (key : A -> value) (val : A -> V)
  (l : list A) (acc : list (value * V)) :
  fold_left (fun m a => Map_set (key a) (val a) m) l acc
  = rev (map (fun a => (key a, val a)) l) ++ acc.
Proof.
  revert acc. induction l as [|a l IH]; intro acc; simpl; [reflexivity|].
  rewrite IH. unfold Map_set. now rewrite <- app_assoc.
Qed.

Lemma Map_get_some {V : Type} (k : value) (m : list (value * V)) (v : V) :
  Map_get k m = Some v -> In (k, v) m.
Proof.
  induction m as [|[k' v'] m IH]; simpl; [discriminate|].
  destruct (strict_eq k' k) eqn:E.
  - apply strict_eq_iff in E. intros [= <-]. left. now subst.
  - intro H. right. now apply IH.
Qed.

Lemma Map_get_none {V : Type} (k : value) (m : list (value * V)) :
  Map_get k m = None -> forall v, ~ In (k, v) m.
Proof.
  induction m as [|[k' v'] m IH]; simpl; [tauto|].
  destruct (strict_eq k' k) eqn:E; [discriminate|].
  intros H v [[= -> ->]|Hin].
  - now rewrite strict_eq_refl in E.
  - now apply (IH H v).
Qed.



(** ** Deleting a student of another class *)

(** C8.  When the request names a student and the caller has a class, the
    student exists, and the student's [class_id] differs from the caller's,
    the answer is 403 with [success] false and the world is left as it was:
    no delete is issued and the students table is unchanged. *)
Theorem C8_delete_foreign_student_403 (w : world) (id classId : value)
  (student : Student.t)
  (Hid : truthy id = true)
  (Hclass : truthy classId = true)
  (Hexists :
    Query.single (Query.eq Student.id id (Db.students (db w))) = Some student)
  (Hdiffers : Student.class_id student <> classId) :
  run (DeleteStudent.handler (DeleteStudent.mk (Some id) (Some classId))) w
  = (Http.mk 403 false "Unauthorized to delete this student", w).
Proof.
  unfold run, DeleteStudent.handler. simpl.
  rewrite Hid, Hclass. simpl.
  unfold bind, read. rewrite Hexists.
  apply strict_eq_false_iff in Hdiffers. rewrite Hdiffers. reflexivity.
Qed.

(** Whatever the request, a delete is issued only on the way to a 200. *)
Lemma delete_only_when_200 (req : DeleteStudent.request) (w : world) :
  Http.status (fst (run (DeleteStudent.handler req) w)) <> 200 ->
  snd (run (DeleteStudent.handler req) w) = w.
Proof.
  unfold run, DeleteStudent.handler.
  destruct req as [[id|] [classId|]]; simpl; try reflexivity.
  destruct (negb (truthy id) || negb (truthy classId)); [reflexivity|].
  unfold bind, read.
  destruct (Query.single _) as [student|]; [|reflexivity].
  destruct (negb (strict_eq _ _)); [reflexivity|].
  simpl. intro H. now contradiction H.
Qed.

(** ** Bulk import *)

Lemma mapM_pure {A B : Type} (f : A -> M B) (g : A -> B) (l : list A) :
  (forall a w, In a l -> f a w = (Value (g a), w)) ->
  forall w, mapM f l w = (Value (map g l), w).
Proof.
  induction l as [|a l IH]; intros H w; simpl; [reflexivity|].
  unfold bind. rewrite (H a w) by now left.
  rewrite IH by (intros; apply H; now right). reflexivity.
Qed.

Lemma toString_trim_pure (v : value) (w : world) :
  v <> Null -> ImportStudents.toString_trim v w = (Value (trim (to_string v)), w).
Proof. destruct v; intro H; [contradiction | reflexivity..]. Qed.

Lemma prepare_pure (hashSync : string -> string)
  (Number_ : option value -> option Z) (classId : value)
  (s : ImportStudents.sheet_row) (w : world) :
  (exists nm, ImportStudents.cell "name" s = Some (Str nm)) ->
  ImportStudents.prepare hashSync Number_ classId s w
  = (Value (prepared_row hashSync Number_ classId s), w).
Proof.
  intros (nm & E). unfold ImportStudents.prepare, prepared_row.
  rewrite E. unfold ImportStudents.name_trim, bind, ret.
  destruct (Number_ _) as [n|]; [|reflexivity].
  destruct (n =? 0)%Z eqn:Z0; [|reflexivity].
  apply Z.eqb_eq in Z0. now subst.
Qed.

Lemma has_iff {A : Type} (f : A -> string) (l : list A) (x : option string) :
  ImportStudents.has (map f l) x = true
  <-> exists a, In a l /\ x = Some (f a).
Proof.
  unfold ImportStudents.has. destruct x as [s|].
  - rewrite existsb_exists. split.
    + intros (y & Hin & E). apply String.eqb_eq in E. subst y.
      apply in_map_iff in Hin. destruct Hin as (a & <- & Hin). now exists a.
    + intros (a & Hin & [= ->]). exists (f a).
      split; [now apply in_map | apply String.eqb_refl].
  - split; [discriminate|]. now intros (a & _ & H).
Qed.

Lemma is_new_iff (existing : list Student.t) (s : ImportStudents.sheet_row) :
  ImportStudents.is_new
    (map (fun e => trim (to_string (Student.roll_no e))) existing)
    (map (fun e => trim (to_string (Student.hall_ticket_number e))) existing)
    s = true
  <-> ~ duplicates existing s.
Proof.
  unfold ImportStudents.is_new, duplicates.
  rewrite Bool.andb_true_iff, !Bool.negb_true_iff.
  rewrite <- !Bool.not_true_iff_false, !has_iff. tauto.
Qed.



Lemma import_run
  (hashSync : string -> string) (Number_ : option value -> option Z)
  (new_id : nat -> value) (w : world) (req : ImportStudents.request)
  (path : string) (classId : value)
  (Hfile : ImportStudents.file req = Some path)
  (Hdata : ImportStudents.data req <> [])
  (Hcols : ImportStudents.missing (ImportStudents.data req) = [])
  (Hclass : or_undef (ImportStudents.user_class_id req)
              (ImportStudents.body_class_id req) = Some classId)
  (Htruthy : truthy classId = true)
  (Hstored : forall e,
      In e (Query.eq Student.class_id classId (Db.students (db w))) ->
      Student.roll_no e <> Null /\ Student.hall_ticket_number e <> Null)
  (Hnames : forall s,
      In s (ImportStudents.data req) ->
      ~ duplicates
          (Query.eq Student.class_id classId (Db.students (db w))) s ->
      exists nm, ImportStudents.cell "name" s = Some (Str nm)) :
  let existing := Query.eq Student.class_id classId (Db.students (db w)) in
  let rolls := map (fun e => trim (to_string (Student.roll_no e))) existing in
  let halls :=
    map (fun e => trim (to_string (Student.hall_ticket_number e))) existing in
  let kept :=
    filter (ImportStudents.is_new rolls halls) (ImportStudents.data req) in
  let inserted := map (prepared_row hashSync Number_ classId) kept in
  run (ImportStudents.handler hashSync Number_ new_id req) w
  = if (List.length kept =? 0)%nat
    then (Http.mk 200 true
            "No new students to import (all duplicates skipped).",
          mk_world (db w) (Unlink path :: issued w))
    else (Http.mk 200 true
            (ImportStudents.added_message (List.length inserted)),
          mk_world
            (set_students
               (table_after_insert new_id (Db.students (db w)) inserted)
               (db w))
            (Unlink path :: Insert_students inserted :: issued w)).
Proof.
  intros existing rolls halls kept inserted.
  assert (Hrolls : forall w0,
             mapM (fun s => ImportStudents.toString_trim (Student.roll_no s))
               existing w0 = (Value rolls, w0)).
  { apply mapM_pure. intros e w0 Hin. apply toString_trim_pure.
    now apply Hstored. }
  assert (Hhalls : forall w0,
             mapM (fun s => ImportStudents.toString_trim
                              (Student.hall_ticket_number s))
               existing w0 = (Value halls, w0)).
  { apply mapM_pure. intros e w0 Hin. apply toString_trim_pure.
    now apply Hstored. }
  assert (Hprep : forall w0,
             mapM (ImportStudents.prepare hashSync Number_ classId) kept w0
             = (Value inserted, w0)).
  { apply mapM_pure. intros s w0 Hin. apply prepare_pure.
    unfold kept in Hin. apply filter_In in Hin. destruct Hin as [Hin New].
    apply Hnames; [assumption | now apply is_new_iff]. }
  assert (Hlen : (List.length (ImportStudents.data req) =? 0)%nat = false).
  { destruct (ImportStudents.data req); [contradiction | reflexivity]. }
  unfold run, ImportStudents.handler.
  rewrite Hfile, Hlen, Hcols, Hclass, Htruthy.
  change (0 <? List.length (@nil string))%nat with false.
  change (negb true) with false. cbv iota.
  unfold bind at 1. unfold read at 1. cbv beta iota.
  fold existing. unfold bind at 1. rewrite Hrolls.
  unfold bind at 1. rewrite Hhalls.
  fold kept.
  destruct (List.length kept =? 0)%nat; [reflexivity|].
  unfold bind at 1. rewrite Hprep.
  reflexivity.
Qed.


(** ** Instances *)

Lemma C3_one_completed_record :
  let submissions := [completed_record "s1" 1 1] in
  one_record_per_item submissions
  /\ (completed_1
        (find_submission (find_type "TA" sample_types)
           (records_of submissions (sample_student "s1" false "c1")
              (theory_subject 1))) = 1
      <-> exists r,
           In r submissions
           /\ Submission.student_id r = Str "s1"
           /\ Submission.subject_id r = Num 1
           /\ Some (Submission.submission_type_id r)
              = type_id (find_type "TA" sample_types)
           /\ Submission.status r = Str "completed").
Proof.
  intro submissions.
  assert (H : one_record_per_item submissions).
  { intros a b [<-|[]] [<-|[]] _ _ _. reflexivity. }
  split; [exact H|].
  exact (proj1 (C3_completed_iff_record_completed submissions sample_types
                  "TA" (sample_student "s1" false "c1") (theory_subject 1) H)).
Defined.

Lemma C4_student_without_subjects :
  let s := sample_student "s1" true "c1" in
  studentSubjects [] [] (studentElectives [] s) = []
  /\ Roster.submission_percentage
       (Roster.student_row [] [] [] [late_record] sample_types s)
     = Number.of_nat 0.
Proof.
  intro s. split; [reflexivity|].
  exact (proj1 (C4_no_subject_percentage_0 [] [] [] [late_record]
                  sample_types s (or_introl eq_refl))).
Defined.

Lemma C5_no_TA_row :
  (forall t, In t types_without_TA -> SubmissionType.name t <> Str "TA")
  /\ forall subs,
      find_submission (find_type "TA" types_without_TA) subs = None
      /\ completed_1 (find_submission (find_type "TA" types_without_TA) subs)
         = 0
      /\ or_else
           (status_of (find_submission (find_type "TA" types_without_TA) subs))
           (Str "pending") = Str "pending".
Proof.
  assert (H : forall t, In t types_without_TA ->
                        SubmissionType.name t <> Str "TA").
  { intros t [<-|[<-|[]]]; discriminate. }
  split; [exact H|].
  exact (proj1 (C5_absent_type_is_pending "TA" types_without_TA H)).
Defined.


Lemma C8_teacher_of_c1_deletes_s9 :
  Query.single
    (Query.eq Student.id (Str "s9") (Db.students (db two_class_world)))
  = Some (sample_student "s9" false "c2")
  /\ run (DeleteStudent.handler
            (DeleteStudent.mk (Some (Str "s9")) (Some (Str "c1"))))
       two_class_world
     = (Http.mk 403 false "Unauthorized to delete this student",
        two_class_world).
Proof.
  split; [reflexivity|].
  apply (C8_delete_foreign_student_403 two_class_world (Str "s9") (Str "c1")
           (sample_student "s9" false "c2")).
  - reflexivity.
  - reflexivity.
  - reflexivity.
  - discriminate.
Defined.


(* ========================================================================= *)
(** * Further properties of the handlers *)

(** ** Deleting a student *)

Lemma eq_after_removal {A : Type} (col : A -> value) (v : value)
  (rows : list A) :
  Query.eq col v (filter (fun r => negb (strict_eq (col r) v)) rows) = [].
Proof.
  unfold Query.eq. induction rows as [|r l IH]; [reflexivity|]. simpl.
  destruct (strict_eq (col r) v) eqn:E; simpl; [exact IH|].
  now rewrite E.
Qed.



(** ** The roster of the class teacher *)



Lemma filter_none {A : Type} (f : A -> bool) (l : list A) :
  (forall a, In a l -> f a = false) -> filter f l = [].
Proof.
  induction l as [|a l IH]; intro H; [reflexivity|]. simpl.
  rewrite (H a) by now left. apply IH. intros b Hb. apply H. now right.
Qed.

Lemma subject_counts_ignores (d : value) (types : list SubmissionType.t)
  (subs extra : list Submission.t) (subject : Subject.t) :
  (forall r, In r extra -> Submission.subject_id r <> Subject.id subject) ->
  Roster.subject_counts d types (subs ++ extra) subject
  = Roster.subject_counts d types subs subject.
Proof.
  intro H. unfold Roster.subject_counts. rewrite filter_app.
  rewrite (filter_none _ extra), app_nil_r; [reflexivity|].
  intros r Hr. now apply strict_eq_false_iff, H.
Qed.

(** Records of other students, and records for subjects that are not among
    the student's applicable subjects, do not change the student's row of
    the roster. *)
Theorem roster_row_ignores_foreign_records
  (classSubjects electives : list Subject.t)
  (electiveMap : list (value * list value))
  (submissions extra : list Submission.t)
  (types : list SubmissionType.t) (s : Student.t)
  (Hextra : forall r, In r extra ->
      Submission.student_id r <> Student.id s
      \/ forall subject,
           In subject
             (studentSubjects classSubjects electives
                (studentElectives electiveMap s)) ->
           Submission.subject_id r <> Subject.id subject) :
  Roster.student_row classSubjects electives electiveMap
    (submissions ++ extra) types s
  = Roster.student_row classSubjects electives electiveMap submissions types s.
Proof.
  unfold Roster.student_row.
  destruct (List.length _ =? 0)%nat; [reflexivity|].
  rewrite filter_app.
  set (subjects := studentSubjects _ _ _) in *.
  set (own := filter _ submissions).
  set (more := filter _ extra).
  assert (E : Roster.totals (Student.defaulter s) types (own ++ more) subjects
              = Roster.totals (Student.defaulter s) types own subjects).
  { rewrite !totals_sums.
    assert (M : forall subject, In subject subjects ->
                Roster.subject_counts (Student.defaulter s) types
                  (own ++ more) subject
                = Roster.subject_counts (Student.defaulter s) types own
                    subject).
    { intros subject Hin. apply subject_counts_ignores.
      intros r Hr. unfold more in Hr. apply filter_In in Hr.
      destruct Hr as [Hr Own]. apply strict_eq_iff in Own.
      destruct (Hextra r Hr) as [N|N]; [contradiction | now apply N]. }
    f_equal; f_equal; apply map_ext_in; intros a Ha; now rewrite M. }
  now rewrite E.
Qed.

Lemma roster_row_ignores_another_student :
  Roster.submission_percentage
    (Roster.student_row [theory_subject 1] [] []
       ([completed_record "s1" 1 1] ++ [completed_record "s2" 2 1])
       sample_types (sample_student "s1" false "c1"))
  = Number.of_Z 50.
Proof.
  rewrite (roster_row_ignores_foreign_records [theory_subject 1] [] []
             [completed_record "s1" 1 1] [completed_record "s2" 2 1]
             sample_types (sample_student "s1" false "c1")).
  - vm_compute. reflexivity.
  - intros r [<-|[]]. left. discriminate.
Defined.

(** ** The ends of the percentage scale *)

Lemma div_same (t : nat) :
  0 < t ->
  Number.div (Number.of_nat t) (Number.of_nat t)
  = Number.Fin (2 ^ 52) (-52).
Proof.
  intro H. unfold Number.div, Number.of_nat.
  destruct (Z.of_nat t =? 0)%Z eqn:E; [apply Z.eqb_eq in E; lia|].
  rewrite !scale_nonpos by lia.
  set (z := Z.of_nat t). assert (Hz : (0 < z)%Z) by (unfold z; lia).
  unfold Number.nearest, Number.binade.
  rewrite Z.sub_diag. change (- 0)%Z with 0%Z.
  rewrite (scale_nonpos z 0) by lia.
  rewrite Z.leb_refl.
  change (Z.max (0 - 52) (-1074)) with (-52)%Z.
  rewrite (scale_nonneg z (- -52)) by lia. rewrite (scale_nonpos z) by lia.
  change (- -52)%Z with 52%Z.
  rewrite (Z.mul_comm z), Z.div_mul, Z.mod_mul by lia.
  replace (z <? 2 * 0)%Z with false by (symmetry; apply Z.ltb_ge; lia).
  replace (z =? 2 * 0)%Z with false by (symmetry; apply Z.eqb_neq; lia).
  reflexivity.
Qed.

Lemma scale_zero (k : Z) : Number.scale 0 k = 0%Z.
Proof. unfold Number.scale. apply Z.mul_0_l. Qed.

Lemma scale_pos (x k : Z) : (0 < x)%Z -> (0 < Number.scale x k)%Z.
Proof.
  intro H. unfold Number.scale. apply Z.mul_pos_pos; [assumption|].
  apply Z.pow_pos_nonneg; lia.
Qed.

Lemma nearest_zero (d : Z) :
  (0 < d)%Z -> Number.nearest 0 d = Number.Fin 0 0.
Proof.
  intro H. unfold Number.nearest. rewrite scale_zero.
  set (D := Number.scale d _).
  assert (0 < D)%Z by (apply scale_pos; assumption).
  rewrite Z.div_0_l, Z.mod_0_l by lia.
  replace (D <? 2 * 0)%Z with false by (symmetry; apply Z.ltb_ge; lia).
  replace (D =? 2 * 0)%Z with false by (symmetry; apply Z.eqb_neq; lia).
  reflexivity.
Qed.

Lemma div_zero (t : nat) :
  0 < t -> Number.div (Number.of_nat 0) (Number.of_nat t) = Number.Fin 0 0.
Proof.
  intro H. unfold Number.div, Number.of_nat.
  destruct (Z.of_nat t =? 0)%Z eqn:E; [apply Z.eqb_eq in E; lia|].
  change (Z.of_nat 0) with 0%Z. rewrite scale_zero.
  apply nearest_zero, scale_pos. lia.
Qed.

(** Whatever the number of required items, the percentage is exactly 100
    when all of them are completed and exactly 0 when none is: the binary64
    rounding never shows at the two ends. *)
Lemma percentage_full_and_empty (t : nat) (Ht : 0 < t) :
  submissionPercentage t t = Number.of_Z 100
  /\ submissionPercentage 0 t = Number.of_Z 0.
Proof.
  unfold submissionPercentage.
  replace (0 <? t)%nat with true by (symmetry; now apply Nat.ltb_lt).
  rewrite div_same, div_zero by assumption.
  split; vm_compute; reflexivity.
Qed.

Lemma subject_counts_no_records (d : value) (types : list SubmissionType.t)
  (subject : Subject.t) :
  snd (Roster.subject_counts d types [] subject) = 0.
Proof.
  unfold Roster.subject_counts. simpl.
  destruct (strict_eq _ _); [reflexivity|]. now destruct (truthy d).
Qed.

Lemma totals_no_records (d : value) (types : list SubmissionType.t)
  (subjects : list Subject.t) :
  snd (Roster.totals d types [] subjects) = 0.
Proof.
  rewrite totals_sums. simpl.
  induction subjects as [|a l IH]; [reflexivity|]. simpl.
  rewrite subject_counts_no_records. exact IH.
Qed.

(** In the roster a student with no record of their own has 0 percent, and
    a student whose completed items equal the required ones has exactly 100
    percent, however many subjects there are. *)
Theorem roster_percentage_at_the_ends
  (classSubjects electives : list Subject.t)
  (electiveMap : list (value * list value)) (submissions : list Submission.t)
  (types : list SubmissionType.t) (s : Student.t) :
  let subjects :=
    studentSubjects classSubjects electives (studentElectives electiveMap s) in
  let own :=
    filter (fun sub => strict_eq (Submission.student_id sub) (Student.id s))
      submissions in
  let counts := Roster.totals (Student.defaulter s) types own subjects in
  let percentage :=
    Roster.submission_percentage
      (Roster.student_row classSubjects electives electiveMap submissions
         types s) in
  ((forall r, In r submissions -> Submission.student_id r <> Student.id s) ->
   percentage = Number.of_Z 0)
  /\ (subjects <> [] -> snd counts = fst counts ->
      percentage = Number.of_Z 100).
Proof.
  intros subjects own counts percentage.
  unfold percentage, Roster.student_row. fold subjects own.
  destruct (List.length subjects =? 0)%nat eqn:L.
  - split; [reflexivity|]. intros N _.
    destruct subjects; [now contradiction N | discriminate L].
  - fold counts.
    assert (T : 0 < fst counts).
    { destruct (Nat.eq_dec (fst counts) 0) as [Z|Z]; [|lia].
      unfold counts in Z. apply roster_total_0_iff in Z.
      rewrite Z in L. discriminate L. }
    split.
    + intro None.
      assert (E : own = []).
      { apply filter_none. intros r Hr.
        now apply strict_eq_false_iff, None. }
      assert (Z : snd counts = 0).
      { unfold counts. rewrite E. apply totals_no_records. }
      destruct counts as [t c]. simpl in *. subst c.
      now apply percentage_full_and_empty.
    + intros _ E. destruct counts as [t c]. simpl in *. subst c.
      now apply percentage_full_and_empty.
Qed.

Lemma roster_full_marks :
  Roster.submission_percentage
    (Roster.student_row [theory_subject 1] [] []
       [completed_record "s1" 1 1; completed_record "s1" 2 1]
       sample_types (sample_student "s1" false "c1"))
  = Number.of_Z 100.
Proof.
  apply (roster_percentage_at_the_ends [theory_subject 1] [] []
           [completed_record "s1" 1 1; completed_record "s1" 2 1]
           sample_types (sample_student "s1" false "c1")).
  - discriminate.
  - reflexivity.
Defined.

(** Up to 39 required items, which is up to 19 theory subjects of a student
    who is not a defaulter, the percentage of the roster is the exact
    quotient rounded half-up. *)
Theorem roster_percentage_exact_below_40
  (classSubjects electives : list Subject.t)
  (electiveMap : list (value * list value)) (submissions : list Submission.t)
  (types : list SubmissionType.t) (s : Student.t) :
  let subjects :=
    studentSubjects classSubjects electives (studentElectives electiveMap s) in
  let own :=
    filter (fun sub => strict_eq (Submission.student_id sub) (Student.id s))
      submissions in
  let counts := Roster.totals (Student.defaulter s) types own subjects in
  fst counts < 40 ->
  Roster.submission_percentage
    (Roster.student_row classSubjects electives electiveMap submissions
       types s)
  = Number.of_Z (Number.half_up_percent (snd counts) (fst counts)).
Proof.
  intros subjects own counts Hlt.
  unfold Roster.student_row. fold subjects own.
  destruct (List.length subjects =? 0)%nat eqn:L.
  - destruct subjects; [|discriminate L].
    unfold counts. reflexivity.
  - fold counts.
    assert (T : 0 < fst counts).
    { destruct (Nat.eq_dec (fst counts) 0) as [Z|Z]; [|lia].
      unfold counts in Z. apply roster_total_0_iff in Z.
      rewrite Z in L. discriminate L. }
    pose proof (roster_totals_le (Student.defaulter s) types own subjects)
      as Hle. fold counts in Hle.
    destruct counts as [t c]. simpl in *.
    now apply percentage_half_up_below_40.
Qed.

Lemma roster_one_of_three :
  Roster.submission_percentage
    (Roster.student_row [theory_subject 1] [] [] [completed_record "s1" 1 1]
       sample_types (sample_student "s1" true "c1"))
  = Number.of_Z 33.
Proof.
  rewrite (roster_percentage_exact_below_40 [theory_subject 1] [] []
             [completed_record "s1" 1 1] sample_types
             (sample_student "s1" true "c1")).
  - reflexivity.
  - vm_compute. lia.
Defined.

(** ** The faculty view *)

(** A pair of the faculty view has one of the five percentages 0, 33, 50,
    67 and 100, it is the exact quotient rounded half-up, and it is 100
    exactly when every required item of the pair is completed. *)
Theorem faculty_percentage_values (p : Faculty.pair) :
  let r := Faculty.with_percentage p in
  exists v,
    Faculty.submission_percentage r = Number.of_Z v
    /\ v = Number.half_up_percent (Faculty.completed_submissions r)
             (Faculty.total_submissions r)
    /\ In v [0; 33; 50; 67; 100]%Z
    /\ (v = 100%Z
        <-> Faculty.completed_submissions r = Faculty.total_submissions r).
Proof.
  intro r. exists (Number.half_up_percent (Faculty.completed_submissions r)
                     (Faculty.total_submissions r)).
  split; [apply faculty_percentage_half_up|]. split; [reflexivity|].
  unfold r, Faculty.with_percentage, Faculty.pair_counts.
  destruct (strict_eq (Faculty.subject_type p) (Str "practical"));
    [|destruct (truthy (Student.defaulter (Faculty.student p)))];
    repeat match goal with
           | |- context [if ?b then 1 else 0] => destruct b
           end;
    vm_compute; (split; [tauto | split; intro; congruence]).
Qed.

Lemma assigned_pairs_iff
  (assignments : list Assignment.t) (allStudents : list Student.t)
  (submissions : list Submission.t) (types : list SubmissionType.t)
  (p : Faculty.pair) :
  In p (Faculty.assigned_pairs assignments allStudents submissions types)
  <-> exists student assignment subject,
        In student allStudents
        /\ In assignment assignments
        /\ Assignment.subjects assignment = Some subject
        /\ Assignment.class_id assignment = Student.class_id student
        /\ (Assignment.batch_id assignment = Null
            \/ Assignment.batch_id assignment = Student.batch_id student)
        /\ p = Faculty.student_subject submissions types student subject.
Proof.
  unfold Faculty.assigned_pairs. rewrite in_flat_map. split.
  - intros (student & Hs & H). apply in_flat_map in H.
    destruct H as (assignment & Ha & H).
    destruct (Assignment.subjects assignment) as [subject|] eqn:J;
      [|destruct H].
    destruct (strict_eq (Assignment.class_id assignment) _) eqn:C;
      simpl in H; [|destruct H].
    destruct (strict_eq (Assignment.batch_id assignment) Null
              || strict_eq (Assignment.batch_id assignment)
                   (Student.batch_id student)) eqn:B; [|destruct H].
    destruct H as [<-|[]].
    exists student, assignment, subject.
    apply strict_eq_iff in C. apply Bool.orb_true_iff in B.
    rewrite !strict_eq_iff in B. tauto.
  - intros (student & assignment & subject & Hs & Ha & J & C & B & ->).
    exists student. split; [assumption|]. apply in_flat_map.
    exists assignment. split; [assumption|]. rewrite J.
    apply strict_eq_iff in C. rewrite C. simpl.
    assert (B' : strict_eq (Assignment.batch_id assignment) Null
                 || strict_eq (Assignment.batch_id assignment)
                      (Student.batch_id student) = true).
    { apply Bool.orb_true_iff. rewrite !strict_eq_iff. exact B. }
    rewrite B'. now left.
Qed.

(** The pairs that come from assignments are exactly the pairs of a student
    and an assignment with a joined subject, the two of the same class, where
    the assignment has no batch or the batch of the student: an assignment
    scoped to a batch never yields a pair for a student of another batch or of
    another class. *)
Theorem assigned_pairs_follow_class_and_batch
  (assignments : list Assignment.t) (allStudents : list Student.t)
  (submissions : list Submission.t) (types : list SubmissionType.t)
  (p : Faculty.pair) :
  In p (Faculty.assigned_pairs assignments allStudents submissions types)
  <-> exists student assignment subject,
        In student allStudents
        /\ In assignment assignments
        /\ Assignment.subjects assignment = Some subject
        /\ Assignment.class_id assignment = Student.class_id student
        /\ (Assignment.batch_id assignment = Null
            \/ Assignment.batch_id assignment = Student.batch_id student)
        /\ p = Faculty.student_subject submissions types student subject.
Proof. apply assigned_pairs_iff. Qed.

Lemma in_subjectMap (subjects : list Subject.t) (k : value) (s : Subject.t) :
  Map_get k
    (fold_left (fun m subject => Map_set (Subject.id subject) subject m)
       subjects []) = Some s ->
  In s subjects /\ Subject.id s = k.
Proof.
  intro H. apply Map_get_some in H.
  rewrite (fold_Map_set Subject.id (fun x => x)), app_nil_r in H.
  apply in_rev, in_map_iff in H. destruct H as (x & [= <- <-] & Hin).
  now split.
Qed.

(** Every pair of the faculty view that comes from an elective links a
    student of the datastore with a subject of the datastore that this
    student's selection row names in a slot graded by this very faculty; an
    elective graded by a colleague, or selected by nobody with this faculty,
    never shows up. *)
Theorem elective_pairs_are_graded_by_the_faculty (db : Db.t) (facultyId : value)
  (types : list SubmissionType.t) (p : Faculty.pair) :
  In p (Faculty.elective_pairs db facultyId types) ->
  In (Faculty.student p) (Db.students db)
  /\ exists sel subject,
       In sel (Db.student_subject_selection db)
       /\ Selection.student_id sel = Student.id (Faculty.student p)
       /\ In subject (Db.subjects db)
       /\ Subject.id subject = Faculty.subject_id p
       /\ Faculty.subject_type p = Subject.type subject
       /\ ((Selection.mdm_faculty_id sel = facultyId
            /\ Selection.mdm_id sel = Faculty.subject_id p)
           \/ (Selection.oe_faculty_id sel = facultyId
               /\ Selection.oe_id sel = Faculty.subject_id p)
           \/ (Selection.pe_faculty_id sel = facultyId
               /\ Selection.pe_id sel = Faculty.subject_id p)).
Proof.
  unfold Faculty.elective_pairs.
  set (sels := filter _ (Db.student_subject_selection db)).
  set (ids := fold_left _ sels []).
  destruct (0 <? List.length ids)%nat; [|intros []].
  set (electiveSubjects := Query.in_ Subject.id _ (Db.subjects db)).
  set (subs := Query.in_ Submission.student_id ids _).
  intro H. apply in_flat_map in H. destruct H as (student & Hs & H).
  unfold Query.in_ in Hs. apply filter_In in Hs. destruct Hs as [Hs _].
  destruct (find _ sels) as [sel|] eqn:F; [|destruct H].
  unfold find in F. apply find_some in F. destruct F as [Hsel Hk].
  apply strict_eq_iff in Hk.
  unfold sels in Hsel. apply filter_In in Hsel. destruct Hsel as [Hsel _].
  assert (Slot : forall fid sid,
             In p (Faculty.slot_pair facultyId
                     (fold_left
                        (fun m subject => Map_set (Subject.id subject) subject m)
                        electiveSubjects [])
                     subs types student fid sid) ->
             Faculty.student p = student
             /\ exists subject,
                  In subject (Db.subjects db)
                  /\ Subject.id subject = Faculty.subject_id p
                  /\ Faculty.subject_type p = Subject.type subject
                  /\ fid = facultyId /\ sid = Faculty.subject_id p).
  { intros fid sid Hp. unfold Faculty.slot_pair in Hp.
    destruct (strict_eq fid facultyId) eqn:Ef; simpl in Hp; [|destruct Hp].
    destruct (truthy sid); [|destruct Hp].
    destruct (Map_get sid _) as [subject|] eqn:G; [|destruct Hp].
    destruct Hp as [<-|[]].
    apply in_subjectMap in G. destruct G as [Hin Hid].
    unfold electiveSubjects, Query.in_ in Hin. apply filter_In in Hin.
    apply strict_eq_iff in Ef.
    split; [reflexivity|]. exists subject. simpl.
    destruct Hin as [Hin _]. now repeat split. }
  rewrite !in_app_iff in H.
  destruct H as [H|[H|H]]; apply Slot in H;
    destruct H as (-> & subject & Hin & Hid & Hty & Hf & Hi);
    (split; [assumption|]); exists sel, subject;
    repeat (split; [assumption|]); tauto.
Qed.

Lemma minor_pair_is_graded_by_f1 :
  let p :=
    Faculty.student_subject [] sample_types (sample_student "s1" false "c1")
      (Subject.mk (Num 11) (Str "Minor") (Str "M1") (Str "MDM") (Str "dept")) in
  In p (Faculty.elective_pairs elective_db (Str "f1") sample_types)
  /\ In (Faculty.student p) (Db.students elective_db).
Proof.
  intro p.
  assert (H : In p (Faculty.elective_pairs elective_db (Str "f1")
                      sample_types)) by (left; reflexivity).
  split; [exact H|].
  exact (proj1 (elective_pairs_are_graded_by_the_faculty elective_db
                  (Str "f1") sample_types p H)).
Defined.

(** ** The export of a class *)

Lemma NoDup_map_eq {A B : Type} (f : A -> B) (l : list A) (a b : A) :
  NoDup (map f l) -> In a l -> In b l -> f a = f b -> a = b.
Proof.
  induction l as [|x l IH]; simpl; intros N Ha Hb E; [destruct Ha|].
  inversion N as [|? ? Hx N']; subst.
  destruct Ha as [<-|Ha], Hb as [<-|Hb].
  - reflexivity.
  - exfalso. apply Hx. rewrite E. now apply in_map.
  - exfalso. apply Hx. rewrite <- E. now apply in_map.
  - now apply IH.
Qed.

Lemma in_subjectSubmissions (submissions : list Submission.t)
  (types : list SubmissionType.t) (student : Student.t)
  (allSubjects : list Subject.t) (k : value) (e : ClassData.entry) :
  In (k, e) (ClassData.subjectSubmissions submissions types student allSubjects)
  <-> exists subject,
        In subject allSubjects /\ Subject.id subject = k
        /\ e = ClassData.subject_entry submissions types student subject.
Proof.
  unfold ClassData.subjectSubmissions.
  rewrite (fold_Map_set Subject.id
             (ClassData.subject_entry submissions types student)), app_nil_r.
  rewrite <- in_rev, in_map_iff. split.
  - intros (subject & [= <- <-] & H). now exists subject.
  - intros (subject & H & <- & ->). now exists subject.
Qed.

(** In the export of a class, where the applicable subjects of a student
    have distinct identifiers, the [submissions] object of the student holds
    under the identifier of each applicable subject the entry of that very
    subject, so that no applicable subject is omitted, and it holds nothing
    else. *)
Theorem export_entry_of_each_subject (submissions : list Submission.t)
  (types : list SubmissionType.t) (student : Student.t)
  (allSubjects : list Subject.t) (subject : Subject.t)
  (Hin : In subject allSubjects)
  (Hids : NoDup (map Subject.id allSubjects)) :
  let obj :=
    ClassData.subjectSubmissions submissions types student allSubjects in
  Map_get (Subject.id subject) obj
  = Some (ClassData.subject_entry submissions types student subject)
  /\ forall k e,
       Map_get k obj = Some e ->
       exists subject',
         In subject' allSubjects /\ Subject.id subject' = k
         /\ e = ClassData.subject_entry submissions types student subject'.
Proof.
  intro obj. split.
  - destruct (Map_get (Subject.id subject) obj) as [e|] eqn:G.
    + apply Map_get_some, in_subjectSubmissions in G.
      destruct G as (subject' & Hin' & Hid & ->).
      now rewrite (NoDup_map_eq Subject.id allSubjects subject' subject).
    + exfalso.
      apply (Map_get_none _ _ G
               (ClassData.subject_entry submissions types student subject)).
      apply in_subjectSubmissions. now exists subject.
  - intros k e G. now apply Map_get_some, in_subjectSubmissions in G.
Qed.

Lemma export_entry_of_the_second_subject :
  Map_get (Num 2)
    (ClassData.subjectSubmissions [completed_record "s1" 1 2] sample_types
       (sample_student "s1" false "c1") [theory_subject 1; theory_subject 2])
  = Some (ClassData.mk_entry (Str "Theory") (Str "TH") (Str "theory")
            (Str "pending") (Str "completed") (Str "-")).
Proof.
  apply (export_entry_of_each_subject [completed_record "s1" 1 2]
           sample_types (sample_student "s1" false "c1")
           [theory_subject 1; theory_subject 2] (theory_subject 2)).
  - right. left. reflexivity.
  - repeat constructor; simpl; intuition discriminate.
Defined.

(** ** More on the bulk import *)

Lemma mapM_keeps_world {A B : Type} (f : A -> M B) (l : list A) :
  (forall a w, snd (f a w) = w) -> forall w, snd (mapM f l w) = w.
Proof.
  intro H. induction l as [|a l IH]; intro w; simpl; [reflexivity|].
  unfold bind. specialize (H a w).
  destruct (f a w) as [[b|r|e] w1]; simpl in H; subst w1; try reflexivity.
  specialize (IH w).
  destruct (mapM f l w) as [[bs|r|e] w2]; simpl in IH; subst w2; reflexivity.
Qed.

Lemma toString_trim_keeps_world (v : value) (w : world) :
  snd (ImportStudents.toString_trim v w) = w.
Proof. now destruct v. Qed.

Lemma prepare_keeps_world (hashSync : string -> string)
  (Number_ : option value -> option Z) (classId : value)
  (s : ImportStudents.sheet_row) (w : world) :
  snd (ImportStudents.prepare hashSync Number_ classId s w) = w.
Proof.
  unfold ImportStudents.prepare, ImportStudents.name_trim, bind.
  destruct (ImportStudents.cell "name" s) as [[|b|n|nm]|]; reflexivity.
Qed.

(** Whatever the upload and the datastore, an import that does not answer
    200 has written nothing: no row is inserted and the uploaded file is not
    removed.  This covers the rejected uploads (no file, empty sheet, missing
    columns, no class) and the ones that fail on a row. *)
Theorem import_writes_only_when_200
  (hashSync : string -> string) (Number_ : option value -> option Z)
  (new_id : nat -> value) (req : ImportStudents.request) (w : world) :
  Http.status (fst (run (ImportStudents.handler hashSync Number_ new_id req) w))
  <> 200 ->
  snd (run (ImportStudents.handler hashSync Number_ new_id req) w) = w.
Proof.
  destruct (run _ w) as [r w'] eqn:E. simpl. intro N.
  unfold run, ImportStudents.handler in E.
  destruct (ImportStudents.file req) as [path|]; [|now inversion E].
  destruct (List.length (ImportStudents.data req) =? 0)%nat;
    [now inversion E|].
  destruct (0 <? List.length (ImportStudents.missing _))%nat;
    [now inversion E|].
  destruct (or_undef _ _) as [classId|]; [|now inversion E].
  destruct (negb (truthy classId)); [now inversion E|].
  unfold bind at 1 in E. unfold read at 1 in E. cbv beta iota in E.
  set (existing := Query.eq Student.class_id classId (Db.students (db w)))
    in E.
  unfold bind at 1 in E.
  pose proof (mapM_keeps_world
                (fun s => ImportStudents.toString_trim (Student.roll_no s))
                existing
                (fun a w0 => toString_trim_keeps_world (Student.roll_no a) w0)
                w) as K1.
  destruct (mapM _ existing w) as [[rolls|r1|e] w1]; simpl in K1; subst w1;
    try (now inversion E).
  unfold bind at 1 in E.
  pose proof (mapM_keeps_world
                (fun s => ImportStudents.toString_trim
                            (Student.hall_ticket_number s))
                existing
                (fun a w0 =>
                   toString_trim_keeps_world (Student.hall_ticket_number a) w0)
                w) as K2.
  destruct (mapM _ existing w) as [[halls|r1|e] w1]; simpl in K2; subst w1;
    try (now inversion E).
  set (kept := filter _ (ImportStudents.data req)) in E.
  destruct (List.length kept =? 0)%nat.
  - inversion E; subst. now contradiction N.
  - unfold bind at 1 in E.
    pose proof (mapM_keeps_world
                  (ImportStudents.prepare hashSync Number_ classId) kept
                  (prepare_keeps_world hashSync Number_ classId) w) as K3.
    destruct (mapM _ kept w) as [[students|r1|e] w1]; simpl in K3; subst w1;
      try (now inversion E).
    inversion E; subst. now contradiction N.
Qed.

Lemma import_without_file_writes_nothing :
  snd (run (ImportStudents.handler sample_hash sample_Number sample_new_id
              (ImportStudents.mk None [] (Some (Str "c1")) None))
         import_world)
  = import_world.
Proof.
  apply import_writes_only_when_200. discriminate.
Defined.




(** *** Trimming twice *)

Lemma trim_start_clean (s : string) : starts_clean (trim_start s).
Proof.
  induction s as [|c s IH]; simpl; [exact I|].
  destruct (is_space c) eqn:E; [exact IH | exact E].
Qed.

Lemma trim_start_of_clean (s : string) : starts_clean s -> trim_start s = s.
Proof. destruct s as [|c s]; simpl; [reflexivity|]. now intros ->. Qed.

Lemma trim_end_clean (s : string) : starts_clean s -> starts_clean (trim_end s).
Proof.
  destruct s as [|c s]; simpl; [trivial|]. intro H.
  destruct (trim_end s); [rewrite H|]; exact H.
Qed.

Lemma trim_end_twice (s : string) : trim_end (trim_end s) = trim_end s.
Proof.
  induction s as [|c s IH]; simpl; [reflexivity|].
  destruct (trim_end s) as [|d t] eqn:E.
  - destruct (is_space c) eqn:Sp; simpl; [reflexivity|]. now rewrite Sp.
  - simpl in *. now rewrite IH.
Qed.

Lemma trim_twice (s : string) : trim (trim s) = trim s.
Proof.
  unfold trim.
  rewrite (trim_start_of_clean (trim_end (trim_start s)))
    by apply trim_end_clean, trim_start_clean.
  apply trim_end_twice.
Qed.

(** *** Importing the same sheet again *)

Lemma in_table_after_insert (new_id : nat -> value)
  (old students : list Student.t) (e : Student.t) :
  In e (table_after_insert new_id old students) ->
  In e old
  \/ exists st, In st students
                /\ Student.roll_no e = Student.roll_no st
                /\ Student.hall_ticket_number e = Student.hall_ticket_number st
                /\ Student.class_id e = Student.class_id st.
Proof.
  unfold table_after_insert. rewrite in_app_iff.
  intros [H|H]; [now left | right].
  revert H. generalize 0. generalize (List.length old).
  induction students as [|st l IH]; intros k j H; [destruct H|].
  simpl in H. destruct H as [<-|H].
  - exists st. simpl. repeat split. now left.
  - destruct (IH k (S j) H) as (st' & Hin & Hr). exists st'.
    split; [now right | exact Hr].
Qed.

Lemma table_after_insert_has (new_id : nat -> value)
  (old students : list Student.t) :
  (forall e, In e old -> In e (table_after_insert new_id old students))
  /\ forall st, In st students ->
       exists e, In e (table_after_insert new_id old students)
                 /\ Student.roll_no e = Student.roll_no st
                 /\ Student.hall_ticket_number e
                    = Student.hall_ticket_number st
                 /\ Student.class_id e = Student.class_id st.
Proof.
  unfold table_after_insert. split.
  - intros e H. apply in_app_iff. now left.
  - intros st H.
    enough (G : exists e,
               In e (map (fun '(i, s) =>
                            Student.mk (new_id (List.length old + i))
                              (Student.roll_no s) (Student.name s)
                              (Student.hall_ticket_number s)
                              (Student.attendance_percent s)
                              (Student.defaulter s) (Student.class_id s)
                              (Student.batch_id s) (Student.password s)
                              (Student.batches s))
                       (combine (seq 0 (List.length students)) students))
               /\ Student.roll_no e = Student.roll_no st
               /\ Student.hall_ticket_number e = Student.hall_ticket_number st
               /\ Student.class_id e = Student.class_id st).
    { destruct G as (e & Hin & Hr). exists e. split; [|exact Hr].
      apply in_app_iff. now right. }
    revert H. generalize 0. generalize (List.length old).
    induction students as [|x l IH]; intros k j H; [destruct H|].
    simpl. destruct H as [<-|H].
    + eexists. split; [left; reflexivity|]. simpl. now repeat split.
    + destruct (IH k (S j) H) as (e & Hin & Hr). exists e.
      split; [now right | exact Hr].
Qed.

Lemma toString_trim_opt_of_cell (x : option value) (v : value) :
  x = Some v -> v <> Null ->
  ImportStudents.toString_trim_opt x
  = Some (trim (to_string (Str (trim (String_ x))))).
Proof.
  intros -> N. simpl. rewrite trim_twice. now destruct v.
Qed.

Lemma not_new_is_duplicate (existing : list Student.t)
  (s : ImportStudents.sheet_row) :
  ImportStudents.is_new
    (map (fun e => trim (to_string (Student.roll_no e))) existing)
    (map (fun e => trim (to_string (Student.hall_ticket_number e))) existing)
    s = false ->
  duplicates existing s.
Proof.
  unfold ImportStudents.is_new, duplicates. intro H.
  apply Bool.andb_false_iff in H. rewrite !Bool.negb_false_iff in H.
  rewrite !has_iff in H. exact H.
Qed.

Lemma duplicates_mono (existing existing' : list Student.t)
  (s : ImportStudents.sheet_row) :
  (forall e, In e existing -> In e existing') ->
  duplicates existing s -> duplicates existing' s.
Proof.
  intros Sub [(e & Hin & H)|(e & Hin & H)]; [left | right];
    exists e; split; auto.
Qed.

(** An import that went through, sent a second time, inserts nothing: every
    row of the sheet that carries a roll number or a hall-ticket number is
    now recognised as a duplicate, the rows inserted by the first run
    included, and the answer is that all duplicates were skipped. *)
Theorem import_twice_adds_nothing
  (hashSync : string -> string) (Number_ : option value -> option Z)
  (new_id : nat -> value) (w : world) (req : ImportStudents.request)
  (path : string) (classId : value)
  (Hfile : ImportStudents.file req = Some path)
  (Hdata : ImportStudents.data req <> [])
  (Hcols : ImportStudents.missing (ImportStudents.data req) = [])
  (Hclass : or_undef (ImportStudents.user_class_id req)
              (ImportStudents.body_class_id req) = Some classId)
  (Htruthy : truthy classId = true)
  (Hstored : forall e,
      In e (Query.eq Student.class_id classId (Db.students (db w))) ->
      Student.roll_no e <> Null /\ Student.hall_ticket_number e <> Null)
  (Hnames : forall s,
      In s (ImportStudents.data req) ->
      ~ duplicates
          (Query.eq Student.class_id classId (Db.students (db w))) s ->
      exists nm, ImportStudents.cell "name" s = Some (Str nm))
  (Hkeys : forall s,
      In s (ImportStudents.data req) ->
      (exists v, ImportStudents.cell "roll_no" s = Some v /\ v <> Null)
      \/ (exists v, ImportStudents.cell "hall_ticket_number" s = Some v
                    /\ v <> Null)) :
  let handler := ImportStudents.handler hashSync Number_ new_id req in
  let first := run handler w in
  let second := run handler (snd first) in
  fst second
  = Http.mk 200 true "No new students to import (all duplicates skipped)."
  /\ db (snd second) = db (snd first).
Proof.
  intros handler first second.
  set (existing := Query.eq Student.class_id classId (Db.students (db w)))
    in *.
  set (rolls := map (fun e => trim (to_string (Student.roll_no e))) existing).
  set (halls :=
         map (fun e => trim (to_string (Student.hall_ticket_number e)))
           existing).
  set (kept := filter (ImportStudents.is_new rolls halls)
                 (ImportStudents.data req)).
  set (inserted := map (prepared_row hashSync Number_ classId) kept).
  pose proof (import_run hashSync Number_ new_id w req path classId Hfile
                Hdata Hcols Hclass Htruthy Hstored Hnames) as R1.
  cbv zeta in R1. fold existing rolls halls kept inserted in R1.
  fold handler first in R1.
  set (w1 := snd first).
  (* the students table after the first run *)
  assert (T : (forall e, In e (Db.students (db w))
                         -> In e (Db.students (db w1)))
              /\ (forall e, In e (Db.students (db w1)) ->
                    In e (Db.students (db w))
                    \/ exists st, In st inserted
                         /\ Student.roll_no e = Student.roll_no st
                         /\ Student.hall_ticket_number e
                            = Student.hall_ticket_number st
                         /\ Student.class_id e = Student.class_id st)
              /\ (forall st, In st inserted ->
                    exists e, In e (Db.students (db w1))
                         /\ Student.roll_no e = Student.roll_no st
                         /\ Student.hall_ticket_number e
                            = Student.hall_ticket_number st
                         /\ Student.class_id e = Student.class_id st)).
  { unfold w1. rewrite R1.
    destruct (List.length kept =? 0)%nat eqn:L; simpl.
    - split; [auto|]. split; [auto|].
      destruct kept; [intros st []|discriminate L].
    - split; [apply table_after_insert_has|].
      split; [apply in_table_after_insert | apply table_after_insert_has]. }
  destruct T as (Told & Tnew & Tins).
  set (existing1 := Query.eq Student.class_id classId (Db.students (db w1))).
  assert (Sub : forall e, In e existing -> In e existing1).
  { intros e H. unfold existing, existing1, Query.eq in *.
    apply filter_In in H. apply filter_In. split; [apply Told|]; tauto. }
  assert (Dup : forall s, In s (ImportStudents.data req)
                          -> duplicates existing1 s).
  { intros s Hs.
    destruct (ImportStudents.is_new rolls halls s) eqn:N.
    - assert (Hk : In (prepared_row hashSync Number_ classId s) inserted).
      { apply in_map, filter_In. now split. }
      destruct (Tins _ Hk) as (e & He & Hr & Hh & Hc).
      assert (He1 : In e existing1).
      { apply filter_In. split; [assumption|].
        rewrite Hc. apply strict_eq_refl. }
      destruct (Hkeys s Hs) as [(v & Ev & Nv)|(v & Ev & Nv)];
        [left | right]; exists e; (split; [assumption|]).
      + rewrite Hr. now apply (toString_trim_opt_of_cell _ v).
      + rewrite Hh. now apply (toString_trim_opt_of_cell _ v).
    - apply (duplicates_mono existing); [exact Sub|].
      now apply not_new_is_duplicate. }
  assert (Hstored1 : forall e, In e existing1 ->
             Student.roll_no e <> Null
             /\ Student.hall_ticket_number e <> Null).
  { intros e H. unfold existing1, Query.eq in H. apply filter_In in H.
    destruct H as [H C].
    destruct (Tnew e H) as [Hold|(st & Hst & Hr & Hh & _)].
    - apply Hstored. apply filter_In. now split.
    - unfold inserted in Hst. apply in_map_iff in Hst.
      destruct Hst as (s & <- & _). rewrite Hr, Hh. split; discriminate. }
  assert (Hnames1 : forall s,
             In s (ImportStudents.data req) -> ~ duplicates existing1 s ->
             exists nm, ImportStudents.cell "name" s = Some (Str nm)).
  { intros s Hs N. now contradiction N; apply Dup. }
  pose proof (import_run hashSync Number_ new_id w1 req path classId Hfile
                Hdata Hcols Hclass Htruthy Hstored1 Hnames1) as R2.
  cbv zeta in R2. fold existing1 in R2. fold handler in R2.
  assert (K : filter
                (ImportStudents.is_new
                   (map (fun e => trim (to_string (Student.roll_no e)))
                      existing1)
                   (map (fun e =>
                           trim (to_string (Student.hall_ticket_number e)))
                      existing1))
                (ImportStudents.data req) = []).
  { apply filter_none. intros s Hs.
    destruct (ImportStudents.is_new _ _ s) eqn:N; [|reflexivity].
    apply is_new_iff in N. now contradiction N; apply Dup. }
  rewrite K in R2. simpl in R2.
  unfold second. fold w1. rewrite R2. now split.
Qed.

Lemma import_request_twice :
  let handler :=
    ImportStudents.handler sample_hash sample_Number sample_new_id
      import_request in
  fst (run handler (snd (run handler import_world)))
  = Http.mk 200 true "No new students to import (all duplicates skipped).".
Proof.
  intro handler.
  pose proof (import_twice_adds_nothing sample_hash sample_Number
                sample_new_id import_world import_request "uploads/sheet.xlsx"
                (Str "c1")) as H.
  cbv zeta in H. apply H.
  - reflexivity.
  - discriminate.
  - reflexivity.
  - reflexivity.
  - reflexivity.
  - intros e [<-|[<-|[]]]; split; discriminate.
  - intros s [<-|[<-|[<-|[]]]] _; eexists; reflexivity.
  - intros s [<-|[<-|[<-|[]]]]; left; eexists; (split; [reflexivity|]);
      discriminate.
Defined.

(** ** The subject lists *)

Lemma Set_add_fresh (x : value) (s : list value) :
  includes s x = false -> Set_add x s = s ++ [x].
Proof. intro H. unfold Set_add. now rewrite H. Qed.

Lemma add_listed_once (st : list value * list Listed.t) (s : Subject.t) :
  listed_once st -> listed_once (SubjectList.add st s).
Proof.
  intros [E N]. unfold SubjectList.add.
  destruct (includes (fst st) (Subject.id s)) eqn:I; [now split|].
  unfold listed_once. simpl. rewrite (Set_add_fresh _ _ I). split.
  - rewrite map_app, E. reflexivity.
  - apply NoDup_app; [assumption | repeat constructor; intros [] |].
    intros a Ha [<-|[]].
    apply includes_iff in Ha. congruence.
Qed.

Lemma add_joined_listed_once (st : list value * list Listed.t)
  (j : option Subject.t) :
  listed_once st -> listed_once (SubjectList.add_joined st j).
Proof. destruct j; [apply add_listed_once | trivial]. Qed.

Lemma fold_listed_once {A : Type}
  (step : list value * list Listed.t -> A -> list value * list Listed.t)
  (l : list A) (st : list value * list Listed.t) :
  (forall st a, listed_once st -> listed_once (step st a)) ->
  listed_once st -> listed_once (fold_left step l st).
Proof.
  intro H. revert st. induction l as [|a l IH]; intros st Hst; [exact Hst|].
  simpl. apply IH, H, Hst.
Qed.

Lemma assigned_and_offered_listed_once (db : Db.t) (offered : list Offered.t)
  (facultyId : value) :
  listed_once (SubjectList.assigned_and_offered db offered facultyId).
Proof.
  unfold SubjectList.assigned_and_offered.
  apply fold_listed_once; [intros; now apply add_joined_listed_once|].
  apply fold_listed_once; [intros; now apply add_joined_listed_once|].
  split; [reflexivity | constructor].
Qed.

Lemma add_electives_listed_once (db : Db.t) (ids : list value)
  (st : list value * list Listed.t) :
  listed_once st -> listed_once (SubjectList.add_electives db ids st).
Proof.
  intro H. unfold SubjectList.add_electives.
  destruct (0 <? List.length ids)%nat; [|exact H].
  apply fold_listed_once; [intros; now apply add_listed_once | exact H].
Qed.

Lemma in_add (st : list value * list Listed.t) (s : Subject.t) (k : value) :
  In k (fst (SubjectList.add st s)) <-> In k (fst st) \/ Subject.id s = k.
Proof.
  unfold SubjectList.add.
  destruct (includes (fst st) (Subject.id s)) eqn:I; simpl.
  - apply includes_iff in I. split; [now left|]. intros [H|<-]; assumption.
  - rewrite in_Set_add. intuition congruence.
Qed.

Lemma in_fold_add (l : list Subject.t) (st : list value * list Listed.t)
  (k : value) :
  In k (fst (fold_left SubjectList.add l st))
  <-> In k (fst st) \/ exists s, In s l /\ Subject.id s = k.
Proof.
  revert st. induction l as [|a l IH]; intro st; simpl.
  - split; [now left|]. now intros [H|(s & [] & _)].
  - rewrite IH, in_add. split.
    + intros [[H|H]|(s & Hs & E)]; [now left | right | right].
      * exists a. split; [now left | assumption].
      * exists s. split; [now right | assumption].
    + intros [H|(s & [<-|Hs] & E)]; [left; now left | left; now right|].
      right. now exists s.
Qed.

Lemma in_fold_add_joined {A : Type} (joined : A -> option Subject.t)
  (l : list A) (st : list value * list Listed.t) (k : value) :
  In k (fst (fold_left (fun st a => SubjectList.add_joined st (joined a)) l st))
  <-> In k (fst st)
      \/ exists a s, In a l /\ joined a = Some s /\ Subject.id s = k.
Proof.
  revert st. induction l as [|a l IH]; intro st; simpl.
  - split; [now left|]. now intros [H|(a & s & [] & _)].
  - rewrite IH. unfold SubjectList.add_joined.
    destruct (joined a) as [s0|] eqn:J.
    + rewrite in_add. split.
      * intros [[H|H]|(b & s & Hb & Jb & E)]; [now left | right | right].
        -- exists a, s0. split; [now left | now split].
        -- exists b, s. split; [now right | now split].
      * intros [H|(b & s & [<-|Hb] & Jb & E)].
        -- left. now left.
        -- left. right. congruence.
        -- right. now exists b, s.
    + split.
      * intros [H|(b & s & Hb & Jb & E)]; [now left | right].
        exists b, s. split; [now right | now split].
      * intros [H|(b & s & [<-|Hb] & Jb & E)]; [now left | congruence|].
        right. now exists b, s.
Qed.

Lemma in_fold_collect {A : Type} (g : A -> list value -> list value)
  (P : A -> value -> Prop) (l : list A) (acc : list value) (v : value) :
  (forall a ids, In v (g a ids) <-> In v ids \/ P a v) ->
  In v (fold_left (fun ids a => g a ids) l acc)
  <-> In v acc \/ exists a, In a l /\ P a v.
Proof.
  intro H. revert acc. induction l as [|a l IH]; intro acc; simpl.
  - split; [now left|]. now intros [K|(a & [] & _)].
  - rewrite IH, H. split.
    + intros [[K|K]|(b & Hb & K)]; [now left | right | right].
      * exists a. split; [now left | assumption].
      * exists b. split; [now right | assumption].
    + intros [K|(b & [<-|Hb] & K)]; [left; now left | left; now right|].
      right. now exists b.
Qed.

Lemma in_graded_elective_ids (facultyId : value) (sels : list Selection.t)
  (k : value) :
  In k (Faculty.graded_elective_ids facultyId sels)
  <-> exists sel, In sel sels /\ graded_slot facultyId sel k.
Proof.
  unfold Faculty.graded_elective_ids.
  rewrite (in_fold_collect
             (fun selection ids =>
                let ids :=
                  if strict_eq (Selection.mdm_faculty_id selection) facultyId
                     && truthy (Selection.mdm_id selection)
                  then Set_add (Selection.mdm_id selection) ids else ids in
                let ids :=
                  if strict_eq (Selection.oe_faculty_id selection) facultyId
                     && truthy (Selection.oe_id selection)
                  then Set_add (Selection.oe_id selection) ids else ids in
                if strict_eq (Selection.pe_faculty_id selection) facultyId
                   && truthy (Selection.pe_id selection)
                then Set_add (Selection.pe_id selection) ids else ids)
             (graded_slot facultyId)).
  - split; [intros [[]|H] | intro H; right]; exact H.
  - intros sel ids. unfold graded_slot. cbv zeta.
    destruct (strict_eq (Selection.mdm_faculty_id sel) facultyId) eqn:F1,
      (strict_eq (Selection.oe_faculty_id sel) facultyId) eqn:F2,
      (strict_eq (Selection.pe_faculty_id sel) facultyId) eqn:F3,
      (truthy (Selection.mdm_id sel)) eqn:T1,
      (truthy (Selection.oe_id sel)) eqn:T2,
      (truthy (Selection.pe_id sel)) eqn:T3;
      simpl; rewrite ?in_Set_add;
      rewrite ?strict_eq_iff in *; rewrite ?strict_eq_false_iff in *;
      intuition congruence.
Qed.

Lemma in_cond_add (c : bool) (x v : value) (ids : list value) :
  In v (if c then Set_add x ids else ids) <-> In v ids \/ (c = true /\ v = x).
Proof.
  destruct c; [rewrite in_Set_add|]; intuition congruence.
Qed.

Lemma includes_false_iff (l : list value) (v : value) :
  includes l v = false <-> ~ In v l.
Proof.
  rewrite <- includes_iff. destruct (includes l v); intuition congruence.
Qed.

Lemma in_unlisted_elective_ids (userId : value) (subjectIds : list value)
  (sels : list Selection.t) (k : value) :
  In k (SubjectList.unlisted_elective_ids userId subjectIds sels)
  <-> (exists sel, In sel sels /\ graded_slot userId sel k)
      /\ ~ In k subjectIds.
Proof.
  unfold SubjectList.unlisted_elective_ids.
  rewrite (in_fold_collect
             (fun selection ids =>
                let ids :=
                  if strict_eq (Selection.mdm_faculty_id selection) userId
                     && truthy (Selection.mdm_id selection)
                     && negb (includes subjectIds (Selection.mdm_id selection))
                  then Set_add (Selection.mdm_id selection) ids else ids in
                let ids :=
                  if strict_eq (Selection.oe_faculty_id selection) userId
                     && truthy (Selection.oe_id selection)
                     && negb (includes subjectIds (Selection.oe_id selection))
                  then Set_add (Selection.oe_id selection) ids else ids in
                if strict_eq (Selection.pe_faculty_id selection) userId
                   && truthy (Selection.pe_id selection)
                   && negb (includes subjectIds (Selection.pe_id selection))
                then Set_add (Selection.pe_id selection) ids else ids)
             (fun sel k => graded_slot userId sel k /\ ~ In k subjectIds)).
  - split.
    + intros [[]|(sel & Hin & G & N)]. split; [now exists sel | exact N].
    + intros [(sel & Hin & G) N]. right. now exists sel.
  - intros sel ids. unfold graded_slot. cbv zeta.
    rewrite !in_cond_add, !Bool.andb_true_iff, !Bool.negb_true_iff.
    rewrite !strict_eq_iff, !includes_false_iff.
    intuition (subst; auto).
Qed.

Lemma add_electives_unguarded (db : Db.t) (ids : list value)
  (st : list value * list Listed.t) :
  SubjectList.add_electives db ids st
  = fold_left SubjectList.add (Query.in_ Subject.id ids (Db.subjects db)) st.
Proof.
  unfold SubjectList.add_electives.
  destruct ids as [|i ids]; [|reflexivity]. simpl.
  unfold Query.in_. now rewrite filter_none.
Qed.

Lemma fold_add_skips_listed (pA pB : Subject.t -> bool)
  (listed : list value) (table : list Subject.t) :
  (forall s, pB s = pA s && negb (includes listed (Subject.id s))) ->
  forall st,
    (forall k, In k listed -> In k (fst st)) ->
    fold_left SubjectList.add (filter pA table) st
    = fold_left SubjectList.add (filter pB table) st.
Proof.
  intro H. induction table as [|s table IH]; intros st Sub; [reflexivity|].
  simpl. rewrite (H s).
  destruct (pA s); simpl; [|now apply IH].
  destruct (includes listed (Subject.id s)) eqn:I; simpl.
  - apply includes_iff, Sub, includes_iff in I.
    unfold SubjectList.add at 2. rewrite I. now apply IH.
  - apply IH. intros k Hk. apply in_add. left. now apply Sub.
Qed.

(** For a faculty, GET /subjects of the class-teacher router gathers the
    same list, in the same order, as GET /subjects of the faculty router,
    and answers it split in two: the subjects of type [practical], and all
    the others under [theory]. *)
Theorem both_routers_list_the_same_subjects (db : Db.t)
  (offered : list Offered.t) (userId : value) (class_id : option value) :
  SubjectList.allSubjects db offered userId
  = SubjectList.uniqueSubjects db offered userId
  /\ SubjectList.handler db offered
       (SubjectList.mk userId (Some (Str "faculty")) class_id)
     = inr (SubjectList.mk_subjects
              (filter (fun s => negb (SubjectList.is_practical s))
                 (SubjectList.uniqueSubjects db offered userId))
              (filter SubjectList.is_practical
                 (SubjectList.uniqueSubjects db offered userId))).
Proof.
  assert (E : SubjectList.allSubjects db offered userId
              = SubjectList.uniqueSubjects db offered userId).
  { unfold SubjectList.allSubjects, SubjectList.uniqueSubjects.
    rewrite !add_electives_unguarded. f_equal. symmetry.
    apply (fold_add_skips_listed _ _
             (fst (SubjectList.assigned_and_offered db offered userId)));
      [|auto].
    intro s.
    set (ids0 := fst (SubjectList.assigned_and_offered db offered userId)).
    set (sels := filter (graded_by userId) (Db.student_subject_selection db)).
    destruct (includes (SubjectList.unlisted_elective_ids userId ids0 sels)
                (Subject.id s)) eqn:B.
    - apply includes_iff, in_unlisted_elective_ids in B.
      destruct B as [G N]. symmetry. apply Bool.andb_true_iff. split.
      + now apply includes_iff, in_graded_elective_ids.
      + now apply Bool.negb_true_iff, includes_false_iff.
    - symmetry. apply Bool.andb_false_iff.
      destruct (includes ids0 (Subject.id s)) eqn:I; [now right | left].
      apply includes_false_iff. intro G.
      apply includes_false_iff in B. apply B.
      apply in_unlisted_elective_ids. split.
      + now apply in_graded_elective_ids.
      + now apply includes_false_iff. }
  split; [exact E|].
  unfold SubjectList.handler. simpl. now rewrite E.
Qed.

(** No subject is listed twice for a faculty, however many assignments,
    offers and selections lead to it. *)
Theorem subject_list_has_no_repeats (db : Db.t) (offered : list Offered.t)
  (facultyId : value) :
  NoDup (map Listed.id (SubjectList.uniqueSubjects db offered facultyId)).
Proof.
  unfold SubjectList.uniqueSubjects.
  pose proof (add_electives_listed_once db
                (Faculty.graded_elective_ids facultyId
                   (filter (graded_by facultyId)
                      (Db.student_subject_selection db)))
                _ (assigned_and_offered_listed_once db offered facultyId))
    as [E N].
  now rewrite <- E.
Qed.

(** The subjects listed for a faculty are exactly: the subjects joined to
    the faculty's rows of [faculty_subjects], the subjects joined to the
    offers whose [faculty_ids] hold the faculty, and the subjects of the
    datastore that a selection row names in a slot graded by the faculty. *)
Theorem subject_list_membership (db : Db.t) (offered : list Offered.t)
  (facultyId : value) (k : value) :
  In k (map Listed.id (SubjectList.uniqueSubjects db offered facultyId))
  <-> (exists a s,
          In a (Db.faculty_subjects db)
          /\ Assignment.faculty_id a = facultyId
          /\ Assignment.subjects a = Some s /\ Subject.id s = k)
      \/ (exists o s ids,
             In o offered
             /\ Offered.faculty_ids o = Some ids /\ In facultyId ids
             /\ Offered.subjects o = Some s /\ Subject.id s = k)
      \/ (exists sel s,
             In sel (Db.student_subject_selection db)
             /\ graded_slot facultyId sel k
             /\ In s (Db.subjects db) /\ Subject.id s = k).
Proof.
  unfold SubjectList.uniqueSubjects.
  pose proof (add_electives_listed_once db
                (Faculty.graded_elective_ids facultyId
                   (filter (graded_by facultyId)
                      (Db.student_subject_selection db)))
                _ (assigned_and_offered_listed_once db offered facultyId))
    as [E _].
  rewrite <- E, add_electives_unguarded, in_fold_add.
  unfold SubjectList.assigned_and_offered.
  rewrite (in_fold_add_joined Offered.subjects),
    (in_fold_add_joined Assignment.subjects).
  simpl. split.
  - intros [[[[]|(a & s & Ha & J & Ek)]|(o & s & Ho & J & Ek)]
           |(s & Hs & Ek)].
    + left. exists a, s. unfold Query.eq in Ha. apply filter_In in Ha.
      rewrite strict_eq_iff in Ha. tauto.
    + right. left. apply filter_In in Ho. destruct Ho as [Ho C].
      unfold offered_to in C.
      destruct (Offered.faculty_ids o) as [ids|] eqn:F; [|discriminate].
      apply includes_iff in C. exists o, s, ids. tauto.
    + right. right. unfold Query.in_ in Hs. apply filter_In in Hs.
      destruct Hs as [Hs G]. rewrite Ek in G.
      apply includes_iff, in_graded_elective_ids in G.
      destruct G as (sel & Hsel & G). apply filter_In in Hsel.
      exists sel, s. tauto.
  - intros [(a & s & Ha & F & J & Ek)
           |[(o & s & ids & Ho & F & Hf & J & Ek)
            |(sel & s & Hsel & G & Hs & Ek)]].
    + left. left. right. exists a, s. split; [|now split].
      apply filter_In. split; [assumption | now apply strict_eq_iff].
    + left. right. exists o, s. split; [|now split].
      apply filter_In. split; [assumption|]. unfold offered_to.
      rewrite F. now apply includes_iff.
    + right. exists s. split; [|assumption].
      apply filter_In. split; [assumption|]. rewrite Ek.
      apply includes_iff, in_graded_elective_ids. exists sel.
      split; [|assumption]. apply filter_In. split; [assumption|].
      unfold graded_by.
      destruct G as [(F & _)|[(F & _)|(F & _)]];
        apply strict_eq_iff in F; rewrite F;
        now rewrite ?Bool.orb_true_r.
Qed.

(** ** Availability *)

Lemma filter_filter_implied {A : Type} (p q : A -> bool) (l : list A) :
  (forall a, p a = true -> q a = true) -> filter p (filter q l) = filter p l.
Proof.
  intro H. induction l as [|a l IH]; [reflexivity|]. simpl.
  destruct (q a) eqn:Q; simpl.
  - now rewrite IH.
  - destruct (p a) eqn:P; [|exact IH]. apply H in P. congruence.
Qed.

Lemma filter_all {A : Type} (p : A -> bool) (l : list A) :
  (forall a, In a l -> p a = true) -> filter p l = l.
Proof.
  induction l as [|a l IH]; intro H; [reflexivity|]. simpl.
  rewrite (H a) by now left. f_equal. apply IH. intros b Hb. apply H.
  now right.
Qed.

Lemma find_the_row {A : Type} (key : A -> value) (l : list A) (a : A) :
  NoDup (map key l) -> In a l ->
  find (fun x => strict_eq (key x) (key a)) l = Some a.
Proof.
  intros N Hin. unfold find.
  destruct (List.find _ l) as [b|] eqn:F.
  - apply find_some in F. destruct F as [Hb E]. apply strict_eq_iff in E.
    f_equal. now apply (NoDup_map_eq key l).
  - pose proof (find_none _ _ F a Hin) as E. simpl in E.
    now rewrite strict_eq_refl in E.
Qed.

Lemma latest_some (later : value -> value -> bool)
  (rows : list AvailabilityRow.t) :
  rows <> [] ->
  exists r, Availability.latest later rows = Some r /\ In r rows.
Proof.
  unfold Availability.latest.
  assert (G : forall l best,
             (forall b, best = Some b -> In b rows) ->
             (forall r, In r l -> In r rows) ->
             (best <> None \/ l <> []) ->
             exists r,
               fold_left
                 (fun best r =>
                    match best with
                    | None => Some r
                    | Some b =>
                        if later (AvailabilityRow.updated_at r)
                             (AvailabilityRow.updated_at b)
                        then Some r else best
                    end) l best = Some r /\ In r rows).
  { induction l as [|x l IH]; intros best Hb Hl Hne; simpl.
    - destruct best as [b|]; [|destruct Hne as [N|N]; now contradiction N].
      exists b. split; [reflexivity | now apply Hb].
    - apply IH.
      + intros b E. destruct best as [b0|].
        * destruct (later _ _); inversion E; subst;
            [apply Hl; now left | now apply Hb].
        * inversion E; subst. apply Hl. now left.
      + intros r Hr. apply Hl. now right.
      + left. destruct best as [b0|]; [destruct (later _ _)|]; discriminate. }
  intro N. apply G; [discriminate | auto | now right].
Qed.

Lemma put_records_mine (now : nat -> value) (u : value)
  (found : list Subject.t) (j : nat) (r : AvailabilityRow.t) :
  In r (map (fun '(i, subject) =>
               AvailabilityRow.mk u (Subject.id subject) (Bool true) (now i))
          (combine (seq j (List.length found)) found)) ->
  AvailabilityRow.faculty_id r = u
  /\ AvailabilityRow.is_available r = Bool true.
Proof.
  intro H. apply in_map_iff in H. destruct H as ([i s] & <- & _).
  now split.
Qed.

Lemma put_records_codes (now : nat -> value) (u : value)
  (subjects found : list Subject.t) (j : nat) :
  NoDup (map Subject.id subjects) ->
  (forall s, In s subjects -> Subject.id s <> Null) ->
  (forall s, In s found -> In s subjects) ->
  flat_map (fun record =>
              match Availability.joined subjects record with
              | Some s => [Subject.subject_code s]
              | None => []
              end)
    (map (fun '(i, subject) =>
            AvailabilityRow.mk u (Subject.id subject) (Bool true) (now i))
       (combine (seq j (List.length found)) found))
  = map Subject.subject_code found.
Proof.
  intros N NN. revert j.
  induction found as [|s found IH]; intros j Sub; [reflexivity|].
  simpl. rewrite IH by (intros; apply Sub; now right). f_equal.
  unfold Availability.joined. simpl.
  assert (Hs : In s subjects) by (apply Sub; now left).
  pose proof (find_the_row Subject.id subjects s N Hs) as F.
  pose proof (NN s Hs) as Nn.
  destruct (Subject.id s) eqn:E; [now contradiction Nn|..];
    now rewrite F.
Qed.

(** After a faculty has put itself online with subject codes of which at
    least one exists, GET /available-subjects gives back the codes of the
    subjects found, GET /availability says available, and nothing older of
    this faculty is left.  (The identifiers of the subjects are distinct and
    not null.) *)
Theorem availability_put_then_get (now : nat -> value)
  (later : value -> value -> bool) (req : Availability.put_request)
  (st : Availability.store) (codes : list value) (v : value)
  (Hcodes : Availability.selectedSubjects req = Some codes)
  (Hon : Availability.isAvailable req = Some v)
  (Hv : truthy v = true)
  (Hfound : Query.in_ Subject.subject_code codes (Availability.subjects st)
            <> [])
  (Hids : NoDup (map Subject.id (Availability.subjects st)))
  (Hnull : forall s, In s (Availability.subjects st) -> Subject.id s <> Null) :
  let found :=
    Query.in_ Subject.subject_code codes (Availability.subjects st) in
  let result := Availability.put now req st in
  fst result = inr (Availability.mk_answer (Some v) codes)
  /\ Availability.available_subjects (Availability.user_id req) (snd result)
     = (true, map Subject.subject_code found)
  /\ Availability.get later (Availability.user_id req) (snd result)
     = Bool true
  /\ List.length
       (Query.eq AvailabilityRow.faculty_id (Availability.user_id req)
          (Availability.faculty_availability (snd result)))
     = List.length found.
Proof.
  intros found result.
  set (u := Availability.user_id req).
  set (old := filter (fun r => negb (strict_eq (AvailabilityRow.faculty_id r) u))
                (Availability.faculty_availability st)).
  set (recs := map (fun '(i, subject) =>
                      AvailabilityRow.mk u (Subject.id subject) (Bool true)
                        (now i))
                 (combine (seq 0 (List.length found)) found)).
  assert (Hne : exists s l, found = s :: l).
  { fold found in Hfound. destruct found as [|s l]; [now contradiction Hfound|].
    now exists s, l. }
  assert (R : result
              = (inr (Availability.mk_answer (Some v) codes),
                 Availability.mk_store (Availability.subjects st)
                   (old ++ recs))).
  { unfold result, Availability.put. rewrite Hcodes, Hon, Hv.
    fold found. destruct Hne as (s & l & E).
    assert (L : (0 <? List.length codes)%nat = true).
    { destruct codes; [|reflexivity]. unfold found, Query.in_ in E.
      rewrite filter_none in E; [discriminate | reflexivity]. }
    rewrite L. simpl andb. cbv iota.
    replace (List.length found =? 0)%nat with false by now rewrite E.
    reflexivity. }
  assert (Mine : forall r, In r recs ->
                 AvailabilityRow.faculty_id r = u
                 /\ AvailabilityRow.is_available r = Bool true).
  { intros r. apply put_records_mine. }
  assert (Q : Query.eq AvailabilityRow.faculty_id u (old ++ recs) = recs).
  { unfold Query.eq. rewrite filter_app.
    rewrite (filter_none _ old), (filter_all _ recs); [reflexivity| |].
    - intros r Hr. apply strict_eq_iff. now apply Mine.
    - intros r Hr. unfold old in Hr. apply filter_In in Hr.
      now apply Bool.negb_true_iff. }
  rewrite R. simpl. split; [reflexivity|]. split; [|split].
  - unfold Availability.available_subjects. simpl.
    rewrite filter_app.
    rewrite (filter_none _ old), (filter_all _ recs).
    + simpl. unfold recs.
      rewrite put_records_codes; try assumption.
      * destruct Hne as (s & l & ->). reflexivity.
      * intros s Hs. unfold found, Query.in_ in Hs.
        now apply filter_In in Hs.
    + intros r Hr. destruct (Mine r Hr) as [F A].
      now rewrite F, A, !strict_eq_refl.
    + intros r Hr. unfold old in Hr. apply filter_In in Hr.
      destruct Hr as [_ Hr]. apply Bool.negb_true_iff in Hr. now rewrite Hr.
  - unfold Availability.get. simpl. rewrite Q.
    destruct (latest_some later recs) as (r & L & Hr).
    { unfold recs. destruct Hne as (s & l & ->). discriminate. }
    rewrite L. simpl. destruct (Mine r Hr) as [_ A]. now rewrite A.
  - rewrite Q. unfold recs.
    now rewrite length_map, length_combine, length_seq, Nat.min_id.
Qed.

Lemma cleared_reads_offline (later : value -> value -> bool) (u : value)
  (subjects : list Subject.t) (rows : list AvailabilityRow.t) :
  let cleared :=
    Availability.mk_store subjects
      (filter (fun r => negb (strict_eq (AvailabilityRow.faculty_id r) u))
         rows) in
  Availability.available_subjects u cleared = (false, [])
  /\ Availability.get later u cleared = Bool false.
Proof.
  intro cleared. unfold Availability.available_subjects, Availability.get.
  simpl. rewrite eq_after_removal. split; [|reflexivity].
  rewrite filter_none; [reflexivity|].
  intros r Hr. apply filter_In in Hr. destruct Hr as [_ Hr].
  apply Bool.negb_true_iff in Hr. now rewrite Hr.
Qed.

(** The old rows of the faculty are deleted before the subject codes are
    looked up.  A PUT that asks to be online with codes none of which exists
    is answered 400, and the faculty then reads as unavailable with no
    subject, whatever it had stored before. *)
Theorem availability_put_with_unknown_codes (now : nat -> value)
  (later : value -> value -> bool) (req : Availability.put_request)
  (st : Availability.store) (codes : list value) (v : value)
  (Hcodes : Availability.selectedSubjects req = Some codes)
  (Hon : Availability.isAvailable req = Some v)
  (Hv : truthy v = true)
  (Hsome : codes <> [])
  (Hnone : Query.in_ Subject.subject_code codes (Availability.subjects st)
           = []) :
  let result := Availability.put now req st in
  fst result = inl (Http.mk 400 false "Invalid subject codes")
  /\ Availability.available_subjects (Availability.user_id req) (snd result)
     = (false, [])
  /\ Availability.get later (Availability.user_id req) (snd result)
     = Bool false.
Proof.
  intro result.
  assert (R : result
              = (inl (Http.mk 400 false "Invalid subject codes"),
                 Availability.mk_store (Availability.subjects st)
                   (filter (fun r =>
                              negb (strict_eq (AvailabilityRow.faculty_id r)
                                      (Availability.user_id req)))
                      (Availability.faculty_availability st)))).
  { unfold result, Availability.put. rewrite Hcodes, Hon, Hv, Hnone.
    destruct codes; [now contradiction Hsome | reflexivity]. }
  rewrite R. simpl. split; [reflexivity|].
  apply cleared_reads_offline.
Qed.

(** A PUT that says offline, or that names no subject, is answered 200 with
    the request echoed, and leaves the faculty with no row: both reads then
    say unavailable. *)
Theorem availability_put_offline (now : nat -> value)
  (later : value -> value -> bool) (req : Availability.put_request)
  (st : Availability.store) (codes : list value)
  (Hcodes : Availability.selectedSubjects req = Some codes)
  (Hoff : Availability.isAvailable req = None
          \/ (exists v, Availability.isAvailable req = Some v
                        /\ truthy v = false)
          \/ codes = []) :
  let result := Availability.put now req st in
  fst result = inr (Availability.mk_answer (Availability.isAvailable req) codes)
  /\ Availability.available_subjects (Availability.user_id req) (snd result)
     = (false, [])
  /\ Availability.get later (Availability.user_id req) (snd result)
     = Bool false.
Proof.
  intro result.
  assert (R : result
              = (inr (Availability.mk_answer (Availability.isAvailable req)
                        codes),
                 Availability.mk_store (Availability.subjects st)
                   (filter (fun r =>
                              negb (strict_eq (AvailabilityRow.faculty_id r)
                                      (Availability.user_id req)))
                      (Availability.faculty_availability st)))).
  { unfold result, Availability.put. rewrite Hcodes.
    destruct Hoff as [E|[(v & E & F)|E]].
    - now rewrite E.
    - now rewrite E, F.
    - subst codes. simpl. now rewrite Bool.andb_false_r. }
  rewrite R. simpl. split; [reflexivity|].
  apply cleared_reads_offline.
Qed.

(** Whatever a faculty puts, and whether the PUT is accepted or not, the
    rows of every other faculty are kept as they are, in order, and the
    subjects table is untouched: the colleagues read what they read before. *)
Theorem availability_put_leaves_the_others (now : nat -> value)
  (later : value -> value -> bool) (req : Availability.put_request)
  (st : Availability.store) (other : value)
  (Hother : other <> Availability.user_id req) :
  let st' := snd (Availability.put now req st) in
  Query.eq AvailabilityRow.faculty_id other
    (Availability.faculty_availability st')
  = Query.eq AvailabilityRow.faculty_id other
      (Availability.faculty_availability st)
  /\ Availability.subjects st' = Availability.subjects st
  /\ Availability.available_subjects other st'
     = Availability.available_subjects other st
  /\ Availability.get later other st' = Availability.get later other st.
Proof.
  intro st'.
  set (u := Availability.user_id req) in *.
  destruct (Availability.selectedSubjects req) as [codes|] eqn:C.
  2:{ unfold st', Availability.put. rewrite C. simpl.
      repeat split; reflexivity. }
  set (old := filter (fun r => negb (strict_eq (AvailabilityRow.faculty_id r) u))
                (Availability.faculty_availability st)).
  assert (S : exists recs,
             (forall r, In r recs -> AvailabilityRow.faculty_id r = u)
             /\ st' = Availability.mk_store (Availability.subjects st)
                        (old ++ recs)).
  { unfold st', Availability.put. rewrite C. fold u. fold old.
    destruct (_ && _).
    - destruct (List.length _ =? 0)%nat.
      + exists []. simpl. rewrite app_nil_r.
        split; [intros r []|reflexivity].
      + eexists. split; [|reflexivity].
        intros r Hr. now apply put_records_mine in Hr.
    - exists []. simpl. rewrite app_nil_r. split; [intros r []|reflexivity]. }
  destruct S as (recs & Mine & ->).
  assert (F : forall p : AvailabilityRow.t -> bool,
             (forall r, p r = true -> AvailabilityRow.faculty_id r = other) ->
             filter p (old ++ recs)
             = filter p (Availability.faculty_availability st)).
  { intros p Hp. rewrite filter_app, (filter_none p recs), app_nil_r.
    - unfold old. apply filter_filter_implied. intros r Pr.
      apply Bool.negb_true_iff, strict_eq_false_iff.
      rewrite (Hp r Pr). exact Hother.
    - intros r Hr. destruct (p r) eqn:Pr; [|reflexivity].
      apply Hp in Pr. apply Mine in Hr. congruence. }
  assert (Q : Query.eq AvailabilityRow.faculty_id other (old ++ recs)
              = Query.eq AvailabilityRow.faculty_id other
                  (Availability.faculty_availability st)).
  { apply F. intros r Pr. now apply strict_eq_iff. }
  simpl. split; [exact Q|]. split; [reflexivity|]. split.
  - unfold Availability.available_subjects. simpl. rewrite F; [reflexivity|].
    intros r Pr. apply Bool.andb_true_iff in Pr. now apply strict_eq_iff.
  - unfold Availability.get. simpl. now rewrite Q.
Qed.

Lemma f1_goes_online_with_CS101 :
  Availability.available_subjects (Str "f1")
    (snd (Availability.put sample_now
            (put_online [Str "CS101"; Str "XX000"]) availability_store))
  = (true, [Str "CS101"]).
Proof.
  pose proof (availability_put_then_get sample_now sample_later
                (put_online [Str "CS101"; Str "XX000"]) availability_store
                [Str "CS101"; Str "XX000"] (Bool true)) as H.
  cbv zeta in H. apply H.
  - reflexivity.
  - reflexivity.
  - reflexivity.
  - discriminate.
  - repeat constructor; simpl; intuition discriminate.
  - intros s [<-|[<-|[]]]; discriminate.
Defined.

Lemma f1_names_an_unknown_code :
  fst (Availability.put sample_now (put_online [Str "XX000"])
         availability_store)
  = inl (Http.mk 400 false "Invalid subject codes")
  /\ Availability.available_subjects (Str "f1")
       (snd (Availability.put sample_now (put_online [Str "XX000"])
               availability_store))
     = (false, []).
Proof.
  pose proof (availability_put_with_unknown_codes sample_now sample_later
                (put_online [Str "XX000"]) availability_store [Str "XX000"]
                (Bool true) eq_refl eq_refl eq_refl) as H.
  cbv zeta in H. destruct H as (H1 & H2 & _).
  - discriminate.
  - reflexivity.
  - split; assumption.
Defined.

Lemma f1_goes_offline :
  Availability.get sample_later (Str "f1")
    (snd (Availability.put sample_now
            (Availability.mk_put (Str "f1") (Some (Bool false))
               (Some [Str "CS101"]))
            availability_store))
  = Bool false.
Proof.
  pose proof (availability_put_offline sample_now sample_later
                (Availability.mk_put (Str "f1") (Some (Bool false))
                   (Some [Str "CS101"]))
                availability_store [Str "CS101"] eq_refl) as H.
  cbv zeta in H. apply H.
  right. left. exists (Bool false). now split.
Defined.

Lemma f2_is_not_touched_by_f1 :
  Availability.available_subjects (Str "f2")
    (snd (Availability.put sample_now (put_online [Str "CS102"])
            availability_store))
  = Availability.available_subjects (Str "f2") availability_store.
Proof.
  pose proof (availability_put_leaves_the_others sample_now sample_later
                (put_online [Str "CS102"]) availability_store (Str "f2")) as H.
  cbv zeta in H. apply H. discriminate.
Defined.

(** ** Deleting a subject *)

(** A DELETE /subjects/:id that does not answer 200 (no class in the token,
    no such subject, or a subject of another class) changes nothing. *)
Theorem delete_subject_writes_only_when_200 (req : DeleteSubject.request)
  (d : Db.t) :
  Http.status (fst (DeleteSubject.handler req d)) <> 200 ->
  snd (DeleteSubject.handler req d) = d.
Proof.
  unfold DeleteSubject.handler.
  destruct (DeleteSubject.class_id req) as [classId|]; [|reflexivity].
  destruct (negb (truthy classId)); [reflexivity|].
  destruct (Query.single _) as [subject|]; [|reflexivity].
  destruct (negb (strict_eq _ _)); [reflexivity|].
  simpl. intro N. now contradiction N.
Qed.

Lemma delete_subject_of_another_class :
  snd (DeleteSubject.handler (DeleteSubject.mk (Num 11) (Some (Str "c1")))
         elective_db)
  = elective_db.
Proof.
  apply delete_subject_writes_only_when_200. discriminate.
Defined.

(** The class teacher deleting a subject of the own class: the subject is
    gone, and so is every row of [faculty_subjects] that refers to it, while
    all other subjects and assignments stay.  The submission records and the
    elective selections are not looked at: those that refer to the subject
    stay in the datastore. *)
Theorem delete_subject_removes_its_assignments (id classId : value)
  (subject : Subject.t) (d : Db.t)
  (Hclass : truthy classId = true)
  (Hexists : Query.single (Query.eq Subject.id id (Db.subjects d))
             = Some subject)
  (Hown : Subject.class_id subject = classId) :
  let result :=
    DeleteSubject.handler (DeleteSubject.mk id (Some classId)) d in
  let d' := snd result in
  fst result = Http.mk 200 true "Subject deleted successfully"
  /\ (forall s, In s (Db.subjects d') <-> In s (Db.subjects d)
                                         /\ Subject.id s <> id)
  /\ (forall a, In a (Db.faculty_subjects d')
                <-> In a (Db.faculty_subjects d)
                    /\ Assignment.subject_id a <> id)
  /\ Db.students d' = Db.students d
  /\ Db.student_submissions d' = Db.student_submissions d
  /\ Db.student_subject_selection d' = Db.student_subject_selection d
  /\ fst (DeleteSubject.handler (DeleteSubject.mk id (Some classId)) d')
     = Http.mk 404 false "Subject not found".
Proof.
  intros result d'.
  assert (R : result
              = (Http.mk 200 true "Subject deleted successfully",
                 set_subjects
                   (filter (fun s => negb (strict_eq (Subject.id s) id))
                      (Db.subjects d))
                   (set_faculty_subjects
                      (filter (fun a =>
                                 negb (strict_eq (Assignment.subject_id a) id))
                         (Db.faculty_subjects d)) d))).
  { unfold result, DeleteSubject.handler. simpl.
    rewrite Hclass. simpl. rewrite Hexists, Hown, strict_eq_refl.
    reflexivity. }
  unfold d'. rewrite R. simpl.
  split; [reflexivity|].
  split; [intro s; rewrite filter_In, Bool.negb_true_iff,
            strict_eq_false_iff; tauto|].
  split; [intro a; rewrite filter_In, Bool.negb_true_iff,
            strict_eq_false_iff; tauto|].
  do 3 (split; [reflexivity|]).
  unfold DeleteSubject.handler. simpl. rewrite Hclass. simpl.
  now rewrite eq_after_removal.
Qed.

Lemma delete_subject_of_own_class :
  map Assignment.faculty_id
    (Db.faculty_subjects
       (snd (DeleteSubject.handler (DeleteSubject.mk (Num 1) (Some (Str "c1")))
               assigned_db)))
  = [Str "f2"]
  /\ Db.student_submissions
       (snd (DeleteSubject.handler (DeleteSubject.mk (Num 1) (Some (Str "c1")))
               assigned_db))
     = [completed_record "s1" 1 1].
Proof.
  pose proof (delete_subject_removes_its_assignments (Num 1) (Str "c1")
                (sample_subject 1 "CS101" "theory" "c1") assigned_db
                eq_refl eq_refl eq_refl) as H.
  cbv zeta in H. destruct H as (_ & _ & _ & _ & H & _).
  split; [reflexivity | exact H].
Defined.

(** ** Creating a subject *)



Lemma in_collected (l : list value) (v : value) :
  In v (fold_left (fun ids c => Set_add c ids) l []) <-> In v l.
Proof.
  rewrite (in_fold_collect (fun c ids => Set_add c ids) (fun a v => v = a)).
  - split.
    + intros [[]|(a & Ha & ->)]. assumption.
    + intro H. right. now exists v.
  - intros a ids. rewrite in_Set_add. tauto.
Qed.

Lemma with_percentage_base (p : Faculty.pair) :
  Faculty.base (Faculty.with_percentage p) = p.
Proof.
  unfold Faculty.with_percentage. now destruct (Faculty.pair_counts p).
Qed.

(** An assignment of the faculty with its subject joined, for a whole class
    or for the batch of the student, puts the student of that class in the
    faculty's list with that subject. *)
Lemma assignment_reaches_the_student (db : Db.t) (facultyId : value)
  (assignment : Assignment.t) (subject : Subject.t) (student : Student.t) :
  In assignment (Db.faculty_subjects db) ->
  Assignment.faculty_id assignment = facultyId ->
  Assignment.batch_id assignment = Null
  \/ Assignment.batch_id assignment = Student.batch_id student ->
  Assignment.subjects assignment = Some subject ->
  truthy (Assignment.class_id assignment) = true ->
  In student (Db.students db) ->
  Student.class_id student = Assignment.class_id assignment ->
  exists row,
    In row (Faculty.students db facultyId)
    /\ Faculty.student (Faculty.base row) = student
    /\ Faculty.subject_id (Faculty.base row) = Subject.id subject
    /\ Faculty.subject_type (Faculty.base row) = Subject.type subject.
Proof.
  intros Ha Hf Hb Hs Hc Hst Hcl.
  unfold Faculty.students, Faculty.studentsWithSubjects.
  set (assignments := Query.eq Assignment.faculty_id facultyId _).
  set (classIds := fold_left _ _ _).
  set (allStudents := if (0 <? List.length classIds)%nat then _ else _).
  set (submissions := if (0 <? _)%nat then _ else _).
  assert (Hin : In assignment assignments).
  { unfold assignments, Query.eq. rewrite filter_In, strict_eq_iff.
    now split. }
  assert (Hids : In (Assignment.class_id assignment) classIds).
  { unfold classIds. rewrite in_collected, filter_In, in_map_iff.
    split; [|assumption]. now exists assignment. }
  assert (Hall : In student allStudents).
  { unfold allStudents. clearbody classIds.
    destruct classIds as [|k ks]; [contradiction|].
    change (0 <? List.length (k :: ks))%nat with true. cbv iota.
    unfold Query.in_. rewrite filter_In, includes_iff, Hcl. now split. }
  exists (Faculty.with_percentage
            (Faculty.student_subject submissions (Db.submission_types db)
               student subject)).
  split.
  - apply in_map, in_or_app. left. apply assigned_pairs_iff.
    exists student, assignment, subject. repeat split; auto.
  - now rewrite with_percentage_base.
Qed.

(** A theory subject posted with all its fields for an existing class is
    created with one assignment to the named faculty for the whole class
    (no batch); from then on the faculty's GET /students lists every student
    of that class with the new subject. *)
Theorem theory_subject_reaches_the_faculty (new_id : nat -> value)
  (classes : list ClassRow.t) (req : AssignSubject.request) (d : Db.t)
  (c code name f : value) (classData : ClassRow.t)
  (Hc : AssignSubject.given (AssignSubject.class_id req) = Some c)
  (Hcode : AssignSubject.given (AssignSubject.subject_code req) = Some code)
  (Hname : AssignSubject.given (AssignSubject.subject_name req) = Some name)
  (Htype : AssignSubject.type req = Some (Str "theory"))
  (Hf : AssignSubject.given (AssignSubject.faculty_id req) = Some f)
  (Hclass : Query.single (Query.eq ClassRow.id c classes) = Some classData) :
  let result := AssignSubject.handler new_id classes req d in
  let d' := snd result in
  let subject :=
    Subject.mk (new_id (List.length (Db.subjects d))) name code (Str "theory")
      c in
  let assignment := Assignment.mk f (Subject.id subject) Null c (Some subject) in
  fst result
  = inr (AssignSubject.mk_created
           "Theory subject created and assigned successfully." subject
           [assignment])
  /\ Db.subjects d' = Db.subjects d ++ [subject]
  /\ Db.faculty_subjects d' = Db.faculty_subjects d ++ [assignment]
  /\ Db.students d' = Db.students d
  /\ forall student,
       In student (Db.students d) -> Student.class_id student = c ->
       exists row,
         In row (Faculty.students d' f)
         /\ Faculty.student (Faculty.base row) = student
         /\ Faculty.subject_id (Faculty.base row) = Subject.id subject
         /\ Faculty.subject_type (Faculty.base row) = Str "theory".
Proof.
  intros result d' subject assignment.
  assert (Hf' : AssignSubject.faculty_id req = Some f /\ truthy f = true).
  { unfold AssignSubject.given in Hf.
    destruct (AssignSubject.faculty_id req) as [v|]; [|discriminate].
    destruct (truthy v) eqn:T; [|discriminate]. now injection Hf as ->. }
  destruct Hf' as [Hf' Tf].
  assert (Tc : truthy c = true).
  { unfold AssignSubject.given in Hc.
    destruct (AssignSubject.class_id req) as [v|]; [|discriminate].
    destruct (truthy v) eqn:T; [|discriminate]. now injection Hc as <-. }
  assert (R : result
              = (inr (AssignSubject.mk_created
                        "Theory subject created and assigned successfully."
                        subject [assignment]),
                 set_faculty_subjects
                   (Db.faculty_subjects d ++ [assignment])
                   (set_subjects (Db.subjects d ++ [subject]) d))).
  { unfold result, AssignSubject.handler.
    rewrite Hc, Hcode, Hname, Hf. unfold AssignSubject.given at 1.
    rewrite Htype. simpl truthy. cbv iota. rewrite Hclass.
    simpl. rewrite Hf'. reflexivity. }
  unfold d'. rewrite R. simpl fst. simpl snd.
  split; [reflexivity|]. split; [reflexivity|]. split; [reflexivity|].
  split; [reflexivity|].
  intros student Hst Hcl.
  apply (assignment_reaches_the_student _ f assignment subject student);
    try reflexivity; try assumption.
  - simpl. apply in_or_app. right. now left.
  - now left.
Qed.

Lemma algebra_reaches_f3 :
  map (fun row => Student.id (Faculty.student (Faculty.base row)))
    (Faculty.students
       (snd (AssignSubject.handler sample_new_id sample_classes theory_request
               assigned_db))
       (Str "f3"))
  = [Str "s1"; Str "s2"]
  /\ exists row,
       In row
         (Faculty.students
            (snd (AssignSubject.handler sample_new_id sample_classes
                    theory_request assigned_db))
            (Str "f3"))
       /\ Faculty.student (Faculty.base row) = sample_student "s1" false "c1"
       /\ Faculty.subject_id (Faculty.base row) = Num 2
       /\ Faculty.subject_type (Faculty.base row) = Str "theory".
Proof.
  split; [reflexivity|].
  pose proof (theory_subject_reaches_the_faculty sample_new_id sample_classes
                theory_request assigned_db (Str "c1") (Str "CS201")
                (Str "Algebra") (Str "f3")
                (ClassRow.mk (Str "c1") (Str "SY-A") (Num 2) (Str "dept"))
                eq_refl eq_refl eq_refl eq_refl eq_refl eq_refl) as H.
  cbv zeta in H. destruct H as (_ & _ & _ & _ & H).
  apply (H (sample_student "s1" false "c1")); [now left | reflexivity].
Defined.

Lemma given_some (x : option value) (v : value) :
  AssignSubject.given x = Some v <-> x = Some v /\ truthy v = true.
Proof.
  unfold AssignSubject.given. destruct x as [u|].
  - destruct (truthy u) eqn:T; split.
    + now intros [= <-].
    + now intros [[= <-] _].
    + discriminate.
    + intros [[= <-] K]. congruence.
  - split; [discriminate | now intros [? _]].
Qed.

(** The loop over the batch assignments gives rows exactly when every
    element has a batch and a faculty; the rows are those of the elements, in
    their order. *)
Lemma batch_rows_complete (subject : Subject.t) (c : value)
  (fas : list AssignSubject.batch_assignment) :
  Forall (fun fa => exists b f,
            AssignSubject.given (AssignSubject.fa_batch_id fa) = Some b
            /\ AssignSubject.given (AssignSubject.fa_faculty_id fa) = Some f)
    fas ->
  exists rows,
    AssignSubject.batch_rows subject c fas = Some rows
    /\ List.length rows = List.length fas
    /\ (forall a, In a rows ->
          truthy (Assignment.batch_id a) = true
          /\ Assignment.subject_id a = Subject.id subject
          /\ Assignment.class_id a = c
          /\ In (AssignSubject.mk_fa (Some (Assignment.batch_id a))
                   (Some (Assignment.faculty_id a))) fas)
    /\ (forall b f,
          In (AssignSubject.mk_fa (Some b) (Some f)) fas ->
          In (Assignment.mk f (Subject.id subject) b c (Some subject)) rows).
Proof.
  induction 1 as [|fa fas (b & f & Hb & Hf) _ (rows & R & L & Hrows & Hfas)].
  - exists []. simpl. repeat split; intros; contradiction.
  - exists (Assignment.mk f (Subject.id subject) b c (Some subject) :: rows).
    simpl. rewrite Hb, Hf, R. split; [reflexivity|].
    split; [now rewrite L|]. split.
    + intros a [<-|Ha].
      * simpl. apply given_some in Hb, Hf. destruct Hb as [Hb Tb].
        destruct Hf as [Hf _]. repeat split; [assumption|].
        left. destruct fa. simpl in *. now subst.
      * destruct (Hrows a Ha) as (? & ? & ? & ?). repeat split; auto.
    + intros b' f' [E|K].
      * left. apply given_some in Hb, Hf. subst fa. simpl in Hb, Hf.
        destruct Hb as [[= ->] _]. destruct Hf as [[= ->] _]. reflexivity.
      * right. now apply Hfas.
Qed.

(** A practical subject posted with a batch and a faculty in every element
    of [faculty_assignments] is created with one assignment per element,
    each scoped to its batch (never to the whole class); from then on the
    faculty of a batch finds the students of that batch and class in GET
    /students with the new subject. *)
Theorem practical_subject_reaches_each_batch (new_id : nat -> value)
  (classes : list ClassRow.t) (req : AssignSubject.request) (d : Db.t)
  (c code name : value) (fas : list AssignSubject.batch_assignment)
  (classData : ClassRow.t)
  (Hc : AssignSubject.given (AssignSubject.class_id req) = Some c)
  (Hcode : AssignSubject.given (AssignSubject.subject_code req) = Some code)
  (Hname : AssignSubject.given (AssignSubject.subject_name req) = Some name)
  (Htype : AssignSubject.type req = Some (Str "practical"))
  (Hfas : AssignSubject.faculty_assignments req = Some fas)
  (Hclass : Query.single (Query.eq ClassRow.id c classes) = Some classData)
  (Hall : Forall
            (fun fa => exists b f,
               AssignSubject.given (AssignSubject.fa_batch_id fa) = Some b
               /\ AssignSubject.given (AssignSubject.fa_faculty_id fa)
                  = Some f)
            fas) :
  let result := AssignSubject.handler new_id classes req d in
  let d' := snd result in
  let subject :=
    Subject.mk (new_id (List.length (Db.subjects d))) name code
      (Str "practical") c in
  exists rows,
    fst result
    = inr (AssignSubject.mk_created
             "Practical subject created and assigned to all batches successfully."
             subject rows)
    /\ Db.subjects d' = Db.subjects d ++ [subject]
    /\ Db.faculty_subjects d' = Db.faculty_subjects d ++ rows
    /\ List.length rows = List.length fas
    /\ (forall a, In a rows ->
          Assignment.batch_id a <> Null
          /\ In (AssignSubject.mk_fa (Some (Assignment.batch_id a))
                   (Some (Assignment.faculty_id a))) fas)
    /\ forall b f student,
         In (AssignSubject.mk_fa (Some b) (Some f)) fas ->
         In student (Db.students d) ->
         Student.class_id student = c -> Student.batch_id student = b ->
         exists row,
           In row (Faculty.students d' f)
           /\ Faculty.student (Faculty.base row) = student
           /\ Faculty.subject_id (Faculty.base row) = Subject.id subject
           /\ Faculty.subject_type (Faculty.base row) = Str "practical".
Proof.
  intros result d' subject.
  destruct (batch_rows_complete subject c fas Hall)
    as (rows & R & L & Hrows & Hin).
  exists rows.
  assert (Tc : truthy c = true) by (apply given_some in Hc; tauto).
  assert (E : result
              = (inr (AssignSubject.mk_created
                        "Practical subject created and assigned to all batches successfully."
                        subject rows),
                 set_faculty_subjects (Db.faculty_subjects d ++ rows)
                   (set_subjects (Db.subjects d ++ [subject]) d))).
  { unfold result, AssignSubject.handler.
    rewrite Hc, Hcode, Hname. unfold AssignSubject.given at 1.
    rewrite Htype. simpl truthy. cbv iota. rewrite Hclass.
    simpl. rewrite Hfas. simpl. fold subject. rewrite R. reflexivity. }
  unfold d'. rewrite E. simpl fst. simpl snd.
  split; [reflexivity|]. split; [reflexivity|]. split; [reflexivity|].
  split; [assumption|]. split.
  - intros a Ha. destruct (Hrows a Ha) as (T & _ & _ & K).
    split; [|assumption]. intro N. rewrite N in T. discriminate.
  - intros b f student Hfa Hst Hcl Hb.
    apply (assignment_reaches_the_student _ f
             (Assignment.mk f (Subject.id subject) b c (Some subject))
             subject student); try reflexivity; try assumption.
    + simpl. apply in_or_app. right. now apply Hin.
    + right. now symmetry.
Qed.

Lemma lab_reaches_batch_b1 :
  map (fun row => Student.id (Faculty.student (Faculty.base row)))
    (Faculty.students
       (snd (AssignSubject.handler sample_new_id sample_classes
               practical_request two_batch_db))
       (Str "f1"))
  = [Str "s1"]
  /\ exists rows,
       Db.faculty_subjects
         (snd (AssignSubject.handler sample_new_id sample_classes
                 practical_request two_batch_db))
       = Db.faculty_subjects two_batch_db ++ rows
       /\ List.length rows = 2%nat.
Proof.
  split; [reflexivity|].
  destruct (practical_subject_reaches_each_batch sample_new_id sample_classes
              practical_request two_batch_db (Str "c1") (Str "CS202")
              (Str "Lab") _
              (ClassRow.mk (Str "c1") (Str "SY-A") (Num 2) (Str "dept"))
              eq_refl eq_refl eq_refl eq_refl eq_refl eq_refl)
    as (rows & _ & _ & F & L & _).
  - repeat constructor.
    + exists (Str "b1"), (Str "f1"). now split.
    + exists (Str "b2"), (Str "f2"). now split.
  - exists rows. now split.
Defined.

(** ** Deleting a student that is not there *)

Lemma delete_of_an_unknown_student :
  Http.status
    (fst (run (DeleteStudent.handler
                 (DeleteStudent.mk (Some (Str "s5")) (Some (Str "c1"))))
            two_class_world)) = 404
  /\ snd (run (DeleteStudent.handler
                 (DeleteStudent.mk (Some (Str "s5")) (Some (Str "c1"))))
            two_class_world) = two_class_world.
Proof.
  split; [reflexivity|].
  apply delete_only_when_200. vm_compute. discriminate.
Defined.
